(** * User-account service: registration, login, token gate, user listing

    A shallow embedding of
      - src/controllers/userController.js  (registerUser, loginUser, getAllUsers),
      - src/models/userModel.js            (the Sequelize [User] model and the
                                            [UserModel] query wrappers),
      - src/middleware/authMiddleware.js   (authenticateToken, authorizeRoles),
      - server.js                          (the [cors] middleware),
      - the earlier copy of the controller (getAllUsers with the
        [{message,count,users}] envelope).

    Conventions.
      - A JS string is a [string]; every character is one code unit (the
        code units below 256).
      - A request-body field is an [option string]: [None] is [undefined].
        The password is an [option Password]: a string or a JSON value of
        another type, since the handlers hand it to bcryptjs as it comes.
      - A [Date] is its epoch value in milliseconds, a [Z].
      - Asynchronous handlers are run to completion one after the other;
        a handler is a computation over the [World] that may throw.
      - The packages the sources call (sequelize, bcryptjs, jsonwebtoken) are
        not part of the repository: the table is an in-memory list of rows
        with the constraints the model declares, the hasher and the error
        objects of the ORM are parameters, and the token service follows
        section 4.2 of the specification over an abstract codec.

    The file has two parts: the definitions (the embedding, then the
    vocabulary of the statements and a small deployment), and the
    properties: one theorem for each claim C1 to C10, then further
    properties of the code. *)

From Stdlib Require Import ZArith List String Ascii Bool Lia.
From Stdlib Require Import Permutation Sorted.
From stdpp Require Import countable strings.
Import ListNotations.

Set Warnings "-register-all".

Local Open Scope string_scope.
Local Open Scope Z_scope.

(** ** JavaScript values that cross the HTTP boundary *)

Module Js.

(** What [res.json] is given.  [JDate] is a [Date] (sent in ISO-8601 form),
    kept as its epoch milliseconds. *)
Inductive Json : Type :=
| JNull
| JBool (b : bool)
| JNum (z : Z)
| JStr (s : string)
| JDate (ms : Z)
| JArr (items : list Json)
| JObj (fields : list (string * Json)).

(** A thrown JS error object: the three properties the handlers look at. *)
Record JsError : Type := mkError {
  err_name : string;
  err_code : option string;
  err_message : string
}.

(** [obj.key] on an object given as its field list; [None] is [undefined]. *)
Fixpoint get (key : string) (fields : list (string * Json)) : option Json :=
  match fields with
  | [] => None
  | (k, v) :: rest => if String.eqb k key then Some v else get key rest
  end.

Definition json_field (key : string) (j : Json) : option Json :=
  match j with
  | JObj fields => get key fields
  | _ => None
  end.

(** Does an object key named [key] occur at any depth of [j]? *)
Fixpoint has_key (key : string) (j : Json) : bool :=
  match j with
  | JArr items => existsb (has_key key) items
  | JObj fields =>
      existsb (fun kv => String.eqb (fst kv) key || has_key key (snd kv)) fields
  | _ => false
  end.

(** [!v] for a string-or-undefined value: [undefined] and [''] are falsy. *)
Definition falsy (v : option string) : bool :=
  match v with
  | None => true
  | Some s => String.eqb s ""
  end.

(** [req.body.password] as [express.json()] hands it over: a string, or a
    JSON value of another type.  [undefined] and [null] are the [None] of an
    [option Password].  An object is left out: what [password.length < 6]
    makes of one depends on its own [length] property. *)
Inductive Password : Type :=
| Text (s : string)
| Number (n : Z)
| Boolean (b : bool)
| Array (items : list Json).

(** [typeof password] *)
Definition typeof (password : Password) : string :=
  match password with
  | Text _ => "string"
  | Number _ => "number"
  | Boolean _ => "boolean"
  | Array _ => "object"
  end.

(** [!password] *)
Definition falsy_password (v : option Password) : bool :=
  match v with
  | None => true
  | Some (Text s) => String.eqb s ""
  | Some (Number n) => n =? 0
  | Some (Boolean b) => negb b
  | Some (Array _) => false
  end.

(** [v === 'literal'] for a string-or-undefined value. *)
Definition strict_eq (v : option string) (literal : string) : bool :=
  match v with
  | None => false
  | Some s => String.eqb s literal
  end.

(** [str.length] *)
Definition js_length (s : string) : Z := Z.of_nat (String.length s).

(** [password.length < 6]: the length of a string or an array; a number and
    a boolean have no [length], and [undefined < 6] is false. *)
Definition shorter_than_6 (password : Password) : bool :=
  match password with
  | Text s => js_length s <? 6
  | Array items => Z.of_nat (length items) <? 6
  | Number _ | Boolean _ => false
  end.

(** [str.split(' ')]: cut at every single space; [''.split(' ')] is [['']]. *)
Fixpoint split_space (s : string) : list string :=
  match s with
  | EmptyString => [EmptyString]
  | String c rest =>
      if Ascii.eqb c " "%char then EmptyString :: split_space rest
      else match split_space rest with
           | [] => [String c EmptyString]
           | w :: ws => String c w :: ws
           end
  end.

(** [str.includes(' ')] *)
Fixpoint has_space (s : string) : bool :=
  match s with
  | EmptyString => false
  | String c rest => Ascii.eqb c " "%char || has_space rest
  end.

(** [arr[i]]; [None] is [undefined]. *)
Definition index {A : Type} (l : list A) (i : nat) : option A := nth_error l i.

End Js.
Export Js.

(** ** Regular expressions, as far as [emailRegex] needs them *)

Module Regex.

Inductive regex : Type :=
| Void
| Eps
| Chars (p : ascii -> bool)
| Cat (r1 r2 : regex)
| Alt (r1 r2 : regex)
| Star (r : regex).

Definition Plus (r : regex) : regex := Cat r (Star r).

Fixpoint nullable (r : regex) : bool :=
  match r with
  | Void => false
  | Eps => true
  | Chars _ => false
  | Cat r1 r2 => nullable r1 && nullable r2
  | Alt r1 r2 => nullable r1 || nullable r2
  | Star _ => true
  end.

(** Brzozowski derivative of [r] by the character [c]. *)
Fixpoint deriv (c : ascii) (r : regex) : regex :=
  match r with
  | Void => Void
  | Eps => Void
  | Chars p => if p c then Eps else Void
  | Cat r1 r2 =>
      if nullable r1 then Alt (Cat (deriv c r1) r2) (deriv c r2)
      else Cat (deriv c r1) r2
  | Alt r1 r2 => Alt (deriv c r1) (deriv c r2)
  | Star r1 => Cat (deriv c r1) (Star r1)
  end.

(** [/^r$/.test(s)]: the whole of [s] is in the language of [r]. *)
Fixpoint test (r : regex) (s : string) : bool :=
  match s with
  | EmptyString => nullable r
  | String c rest => test (deriv c r) rest
  end.

(** [\s] on code units below 256: TAB, LF, VT, FF, CR, space, NBSP. *)
Definition is_space (c : ascii) : bool :=
  let n := nat_of_ascii c in
  (Nat.leb 9 n && Nat.leb n 13) || Nat.eqb n 32 || Nat.eqb n 160.

Definition is_char (d c : ascii) : bool := Ascii.eqb c d.

(** [[^\s@]] *)
Definition not_space_at (c : ascii) : bool :=
  negb (is_space c) && negb (is_char "@" c).

End Regex.

(** [const emailRegex = /^[^\s@]+@[^\s@]+\.[^\s@]+$/;] *)
Definition emailRegex : Regex.regex :=
  Regex.Cat (Regex.Plus (Regex.Chars Regex.not_space_at))
    (Regex.Cat (Regex.Chars (Regex.is_char "@"))
       (Regex.Cat (Regex.Plus (Regex.Chars Regex.not_space_at))
          (Regex.Cat (Regex.Chars (Regex.is_char "."))
             (Regex.Plus (Regex.Chars Regex.not_space_at))))).

Definition emailRegex_test (email : string) : bool := Regex.test emailRegex email.

(** ** Computations: state passing with exceptions *)

Module Effects.

(** The result of running a piece of code: a value, or a thrown error. *)
Inductive outcome (A : Type) : Type :=
| Ok (a : A)
| Throw (e : JsError).
Arguments Ok {A} a.
Arguments Throw {A} e.

(** A computation over a state [S]; the state is kept when it throws. *)
Definition M (S A : Type) : Type := S -> outcome A * S.

Definition ret {S A : Type} (a : A) : M S A := fun s => (Ok a, s).

Definition throw {S A : Type} (e : JsError) : M S A := fun s => (Throw e, s).

Definition bind {S A B : Type} (m : M S A) (k : A -> M S B) : M S B :=
  fun s =>
    match m s with
    | (Ok a, s') => k a s'
    | (Throw e, s') => (Throw e, s')
    end.

(** [try { body } catch (error) { handler }] *)
Definition try_catch {S A : Type} (body : M S A) (handler : JsError -> M S A)
  : M S A :=
  fun s =>
    match body s with
    | (Ok a, s') => (Ok a, s')
    | (Throw e, s') => handler e s'
    end.

Definition gets {S A : Type} (f : S -> A) : M S A := fun s => (Ok (f s), s).

Definition modify {S : Type} (f : S -> S) : M S unit := fun s => (Ok tt, f s).

End Effects.
Export Effects.

Notation "'let*' x ':=' m 'in' k" := (bind m (fun x => k))
  (at level 10, x name, m at level 100, k at level 200).
Notation "'await' m 'in' k" := (bind m (fun _ => k))
  (at level 10, m at level 100, k at level 200).

(** ** The [users] table and the server's surroundings *)

(** One row of [users].  [sequelize.define('User', {username, email,
    password}, {tableName: 'users', timestamps: true})] gives the columns
    id, username, email, password, createdAt, updatedAt. *)
Record Row : Type := mkRow {
  row_id : Z;
  row_username : string;
  row_email : string;
  row_password : string;
  row_createdAt : Z;
  row_updatedAt : Z
}.

(** Which handler wrote a line with [console.error]. *)
Inductive LogTag : Type :=
| RegistrationError
| LoginError
| FetchUsersError
| AuthenticationError.

Record World : Type := mkWorld {
  table : list Row;                   (* the rows, in insertion order *)
  next_id : Z;                        (* the id sequence *)
  clock : Z;                          (* Date.now(), milliseconds *)
  entropy : Z;                        (* where bcrypt draws its salts *)
  faults : list (option JsError);     (* per query sent: the error the
                                         database connection raises, if any *)
  console : list (LogTag * JsError)   (* console.error output, newest first *)
}.

Definition set_table (t : list Row) (w : World) : World :=
  mkWorld t (next_id w) (clock w) (entropy w) (faults w) (console w).
Definition set_next_id (n : Z) (w : World) : World :=
  mkWorld (table w) n (clock w) (entropy w) (faults w) (console w).
Definition set_clock (t : Z) (w : World) : World :=
  mkWorld (table w) (next_id w) t (entropy w) (faults w) (console w).
Definition set_entropy (e : Z) (w : World) : World :=
  mkWorld (table w) (next_id w) (clock w) e (faults w) (console w).
Definition set_faults (f : list (option JsError)) (w : World) : World :=
  mkWorld (table w) (next_id w) (clock w) (entropy w) f (console w).
Definition set_console (c : list (LogTag * JsError)) (w : World) : World :=
  mkWorld (table w) (next_id w) (clock w) (entropy w) (faults w) c.

(** [console.error(tag, error)] *)
Definition console_error (tag : LogTag) (e : JsError) : M World unit :=
  modify (fun w => set_console ((tag, e) :: console w) w).

(** Sending one query: the connection either raises the next scheduled
    error or lets the query through. *)
Definition query : M World unit :=
  fun w =>
    match faults w with
    | Some e :: rest => (Throw e, set_faults rest w)
    | None :: rest => (Ok tt, set_faults rest w)
    | [] => (Ok tt, w)
    end.

(** ** The Sequelize model [User] (src/models/userModel.js) *)

Module Sequelize.

(** A model instance restricted to some attributes: its [dataValues]. *)
Definition Instance : Type := list (string * Json).

Definition column (r : Row) (name : string) : option Json :=
  if String.eqb name "id" then Some (JNum (row_id r))
  else if String.eqb name "username" then Some (JStr (row_username r))
  else if String.eqb name "email" then Some (JStr (row_email r))
  else if String.eqb name "password" then Some (JStr (row_password r))
  else if String.eqb name "createdAt" then Some (JDate (row_createdAt r))
  else if String.eqb name "updatedAt" then Some (JDate (row_updatedAt r))
  else None.

(** The [attributes: [...]] option of a finder. *)
Fixpoint select (attributes : list string) (r : Row) : Instance :=
  match attributes with
  | [] => []
  | a :: rest =>
      match column r a with
      | Some v => (a, v) :: select rest r
      | None => select rest r
      end
  end.

(** What the model layer can refuse. *)
Inductive Refusal : Type :=
| ValidationFailed (attribute : string)   (* a [validate] rule of the model *)
| UniqueViolation (attribute : string)    (* [unique: true] *)
| ValueTooLong (attribute : string).      (* [DataTypes.STRING(n)] *)

(** [order: [['createdAt', 'DESC']]]: insertion into a list that is already
    in descending order of [createdAt].  Rows with equal [createdAt] come out
    in one of the orders the query allows. *)
Fixpoint insert_desc (r : Row) (sorted : list Row) : list Row :=
  match sorted with
  | [] => [r]
  | x :: rest =>
      if row_createdAt x <=? row_createdAt r then r :: x :: rest
      else x :: insert_desc r rest
  end.

Definition order_by_createdAt_desc (rows : list Row) : list Row :=
  fold_right insert_desc [] rows.

Section Model.

(** The error object the ORM throws for each refusal, and the [isEmail]
    validator: both belong to packages, not to this repository. *)
Variable orm_error : Refusal -> JsError.
Variable isEmail : string -> bool.

(** [validate: { len: { args: [3, 100] } }] on username,
    [validate: { isEmail }] on email. *)
Definition validate (username email : string) : option Refusal :=
  if negb ((3 <=? js_length username) && (js_length username <=? 100))
  then Some (ValidationFailed "username")
  else if negb (isEmail email) then Some (ValidationFailed "email")
  else None.

(** The column types STRING(100), STRING(150) and STRING(255): the values
    of an INSERT are cut to their columns before a row is formed. *)
Definition lengths (username email password : string) : option Refusal :=
  if 100 <? js_length username then Some (ValueTooLong "username")
  else if 150 <? js_length email then Some (ValueTooLong "email")
  else if 255 <? js_length password then Some (ValueTooLong "password")
  else None.

(** The two unique indexes, consulted when the row is put in. *)
Definition uniques (rows : list Row) (username email : string)
  : option Refusal :=
  if existsb (fun r => String.eqb (row_username r) username) rows
  then Some (UniqueViolation "username")
  else if existsb (fun r => String.eqb (row_email r) email) rows
  then Some (UniqueViolation "email")
  else None.

(** The column constraints checked by the database on INSERT, in the order
    it checks them. *)
Definition constraints (rows : list Row) (username email password : string)
  : option Refusal :=
  match lengths username email password with
  | Some refusal => Some refusal
  | None => uniques rows username email
  end.

(** [User.create({ username, email, password })].  The id is the next value
    of the sequence; it is drawn when the row is formed, before the unique
    indexes are consulted, and a sequence does not take a value back when
    the insert is refused. *)
Definition create (username email password : string) : M World Row :=
  match validate username email with
  | Some refusal => throw (orm_error refusal)
  | None =>
      await query in
      match lengths username email password with
      | Some refusal => throw (orm_error refusal)
      | None =>
          let* id := gets next_id in
          await modify (set_next_id (id + 1)) in
          let* rows := gets table in
          match uniques rows username email with
          | Some refusal => throw (orm_error refusal)
          | None =>
              let* now := gets clock in
              let r := mkRow id username email password now now in
              await modify (set_table (rows ++ [r])) in
              ret r
          end
      end
  end.

(** [User.findOne({ where: { email } })] *)
Definition findOne_email (email : string) : M World (option Row) :=
  await query in
  let* rows := gets table in
  ret (find (fun r => String.eqb (row_email r) email) rows).

(** [User.findOne({ where: { username } })] *)
Definition findOne_username (username : string) : M World (option Row) :=
  await query in
  let* rows := gets table in
  ret (find (fun r => String.eqb (row_username r) username) rows).

(** [User.findByPk(id, { attributes })] *)
Definition findByPk (id : Z) (attributes : list string)
  : M World (option Instance) :=
  await query in
  let* rows := gets table in
  ret (option_map (select attributes) (find (fun r => row_id r =? id) rows)).

(** [User.findAll({ attributes, order: [['createdAt', 'DESC']] })] *)
Definition findAll_createdAt_desc (attributes : list string)
  : M World (list Instance) :=
  await query in
  let* rows := gets table in
  ret (map (select attributes) (order_by_createdAt_desc rows)).

End Model.

End Sequelize.

(** ** The query wrappers [UserModel] (src/models/userModel.js) *)

Module UserModel.

(** The object literal [createUser] returns. *)
Record NewUser : Type := mkNewUser {
  id : Z;
  username : string;
  email : string;
  createdAt : Z
}.

Definition public_attributes : list string :=
  ["id"; "username"; "email"; "createdAt"].

Section Wrappers.

Variable orm_error : Sequelize.Refusal -> JsError.
Variable isEmail : string -> bool.

Definition createUser (username email hashedPassword : string)
  : M World NewUser :=
  let* user := Sequelize.create orm_error isEmail username email hashedPassword in
  ret (mkNewUser (row_id user) (row_username user) (row_email user)
         (row_createdAt user)).

Definition findUserByEmail (email : string) : M World (option Row) :=
  Sequelize.findOne_email email.

Definition findUserByUsername (username : string) : M World (option Row) :=
  Sequelize.findOne_username username.

Definition findUserById (id : Z) : M World (option Sequelize.Instance) :=
  Sequelize.findByPk id public_attributes.

Definition getAllUsers : M World (list Sequelize.Instance) :=
  Sequelize.findAll_createdAt_desc public_attributes.

End Wrappers.

End UserModel.

(** ** The Credential Hasher: package bcryptjs, taken as given *)

Record Hasher : Type := mkHasher {
  (* the digest of a plaintext at a cost factor, for the salt drawn *)
  bcrypt_digest : Z -> string -> Z -> string;
  (* [bcrypt.compare(plaintext, digest)] *)
  bcrypt_compare : string -> string -> bool
}.

(** What bcryptjs rejects with when an argument has not the type it
    expects: [Error("Illegal arguments: " + typeof s + ", " + typeof salt)]. *)
Definition illegal_arguments (first second : string) : JsError :=
  mkError "Error" None ("Illegal arguments: " +:+ first +:+ ", " +:+ second).

(** [bcrypt.hash(password, rounds)]: draws a fresh salt; rejects a password
    that is not a string. *)
Definition bcrypt_hash (h : Hasher) (password : Password) (rounds : Z)
  : M World string :=
  match password with
  | Text plaintext =>
      let* salt := gets entropy in
      await modify (fun w => set_entropy (salt + 1) w) in
      ret (bcrypt_digest h salt plaintext rounds)
  | _ => throw (illegal_arguments (typeof password) "number")
  end.

(** [bcrypt.compare(password, digest)]: rejects a password that is not a
    string. *)
Definition compare (h : Hasher) (password : Password) (digest : string)
  : M World bool :=
  match password with
  | Text plaintext => ret (bcrypt_compare h plaintext digest)
  | _ => throw (illegal_arguments (typeof password) "string")
  end.

(** ** The Token Service: package jsonwebtoken *)

Module Jwt.

(** The identity claims a token carries. *)
Record Claims : Type := mkClaims {
  userId : Z;
  email : string;
  username : string
}.

(** What a token encodes. *)
Record Decoded : Type := mkDecoded {
  claims : Claims;
  issuedAt : Z;
  expiresAt : Z
}.

(** The signed, compact form of a token.  [tc_decode] answers [None] when
    the signature does not match the secret or the structure is malformed. *)
Class TokenCodec : Type := {
  tc_encode : string -> Decoded -> string;
  tc_decode : string -> string -> option Decoded;
  tc_decode_encode : forall secret d, tc_decode secret (tc_encode secret d) = Some d;
  tc_compact : forall secret d,
    tc_encode secret d <> "" /\ has_space (tc_encode secret d) = false
}.

Definition JsonWebTokenError : JsError :=
  mkError "JsonWebTokenError" None "invalid token".

Definition TokenExpiredError : JsError :=
  mkError "TokenExpiredError" None "jwt expired".

(** ['24h'] in milliseconds. *)
Definition hours24 : Z := 24 * 60 * 60 * 1000.

Section Service.

Context {codec : TokenCodec}.

(** Modelled from the spec: [jwt.sign] of the package jsonwebtoken, which
    the sources only call.  issue(claims) "produces a signed token with
    expiresAt = now + 24h". *)
Definition sign (payload : Claims) (secret : string) (expiresIn : Z)
  : M World string :=
  let* now := gets clock in
  ret (tc_encode secret (mkDecoded payload now (now + expiresIn))).

(** Modelled from the spec: [jwt.verify] of the package jsonwebtoken, which
    the sources only call.  verify(token) "fails with ExpiredToken when
    now > expiresAt; fails with InvalidToken when signature does not match
    or structure is malformed".  The two error names are the ones
    [authenticateToken] tells apart. *)
Definition verify (token secret : string) : M World Decoded :=
  match tc_decode secret token with
  | None => throw JsonWebTokenError
  | Some d =>
      let* now := gets clock in
      if expiresAt d <? now then throw TokenExpiredError else ret d
  end.

End Service.

End Jwt.

(** ** The HTTP boundary *)

(** [req.user], as [authenticateToken] fills it; [None] is [undefined]. *)
Record ReqUser : Type := mkReqUser {
  user_userId : option Json;
  user_email : option Json;
  user_username : option Json
}.

Record Request : Type := mkRequest {
  headers_authorization : option string;   (* req.headers['authorization'] *)
  body_username : option string;           (* req.body.username *)
  body_email : option string;              (* req.body.email *)
  body_password : option Password;         (* req.body.password *)
  req_user : option ReqUser                (* req.user *)
}.

Definition set_req_user (u : ReqUser) (req : Request) : Request :=
  mkRequest (headers_authorization req) (body_username req) (body_email req)
    (body_password req) (Some u).

Record Response : Type := mkResponse {
  status : Z;
  body : Json
}.

(** How a middleware ends: it has sent the response itself, or it has
    called [next()] and the request goes on to the following handler. *)
Inductive Middleware : Type :=
| Responded (res : Response)
| Next (req : Request).

(** [res.status(code).json(value)] *)
Definition respond (code : Z) (value : Json) : M World Response :=
  ret (mkResponse code value).

(** [res.status(code).json({ error: message })] *)
Definition respond_error (code : Z) (message : string) : M World Response :=
  respond code (JObj [("error", JStr message)]).

(** [return res.status(code).json({ error: message })] in a middleware. *)
Definition deny (code : Z) (message : string) : M World Middleware :=
  ret (Responded (mkResponse code (JObj [("error", JStr message)]))).

(** The value of a string variable known to be truthy. *)
Definition the (v : option string) : string :=
  match v with
  | Some s => s
  | None => ""
  end.

(** The value of [password] once it is known to be truthy. *)
Definition the_password (v : option Password) : Password :=
  match v with
  | Some p => p
  | None => Text ""
  end.

Section Server.

Variable orm_error : Sequelize.Refusal -> JsError.
Variable isEmail : string -> bool.
Variable bcrypt : Hasher.
Variable JWT_SECRET : string.              (* process.env.JWT_SECRET *)
Context {codec : Jwt.TokenCodec}.

(** *** src/controllers/userController.js *)

Definition registerUser (req : Request) : M World Response :=
  let username := body_username req in
  let email := body_email req in
  let password := body_password req in
  if falsy username || falsy email || falsy_password password then
    respond_error 400 "All fields are required (username, email, password)"
  else
  let username := the username in
  let email := the email in
  let password := the_password password in
  if negb (emailRegex_test email) then
    respond_error 400 "Please provide a valid email address"
  else if shorter_than_6 password then
    respond_error 400 "Password must be at least 6 characters long"
  else
  try_catch
    (let* existingEmail := UserModel.findUserByEmail email in
     match existingEmail with
     | Some _ => respond_error 409 "Email is already registered"
     | None =>
     let* existingUsername := UserModel.findUserByUsername username in
     match existingUsername with
     | Some _ => respond_error 409 "Username is already taken"
     | None =>
     let SALT_ROUNDS := 10 in
     let* hashedPassword := bcrypt_hash bcrypt password SALT_ROUNDS in
     let* newUser :=
       UserModel.createUser orm_error isEmail username email hashedPassword in
     respond 201
       (JObj [("message", JStr "User registered successfully");
              ("user", JObj [("id", JNum (UserModel.id newUser));
                             ("username", JStr (UserModel.username newUser));
                             ("email", JStr (UserModel.email newUser));
                             ("createdAt", JDate (UserModel.createdAt newUser))])])
     end
     end)
    (fun error =>
       await console_error RegistrationError error in
       if strict_eq (err_code error) "23505" then
         respond_error 409 "User with this email or username already exists"
       else
         respond_error 500 "Server error during registration. Please try again.").

Definition loginUser (req : Request) : M World Response :=
  let email := body_email req in
  let password := body_password req in
  if falsy email || falsy_password password then
    respond_error 400 "Email and password are required"
  else
  let email := the email in
  let password := the_password password in
  try_catch
    (let* user := UserModel.findUserByEmail email in
     match user with
     | None => respond_error 401 "Invalid email or password"
     | Some user =>
     let* isPasswordValid := compare bcrypt password (row_password user) in
     if negb isPasswordValid then
       respond_error 401 "Invalid email or password"
     else
     let payload :=
       Jwt.mkClaims (row_id user) (row_email user) (row_username user) in
     let* token := Jwt.sign payload JWT_SECRET Jwt.hours24 in
     respond 200
       (JObj [("message", JStr "Login successful");
              ("token", JStr token);
              ("user", JObj [("id", JNum (row_id user));
                             ("username", JStr (row_username user));
                             ("email", JStr (row_email user))])])
     end)
    (fun error =>
       await console_error LoginError error in
       respond_error 500 "Server error during login. Please try again.").

Definition getAllUsers (req : Request) : M World Response :=
  try_catch
    (let* users := UserModel.getAllUsers in
     respond 200 (JArr (map JObj users)))
    (fun error =>
       await console_error FetchUsersError error in
       respond_error 500 "Error retrieving users. Please try again later.").

(** *** src/middleware/authMiddleware.js *)

(** [authHeader && authHeader.split(' ')[1]] *)
Definition token_of (authHeader : option string) : option string :=
  match authHeader with
  | None => None
  | Some h => if String.eqb h "" then Some h else index (split_space h) 1
  end.

Definition authenticateToken (req : Request) : M World Middleware :=
  let authHeader := headers_authorization req in
  let token := token_of authHeader in
  if falsy token then
    deny 401 "Access denied. No token provided."
  else
  let token := the token in
  try_catch
    (let* decoded := Jwt.verify token JWT_SECRET in
     let* user := UserModel.findUserById (Jwt.userId (Jwt.claims decoded)) in
     match user with
     | None => deny 401 "User not found. Token invalid."
     | Some user =>
         let req :=
           set_req_user
             (mkReqUser (get "id" user) (get "email" user) (get "username" user))
             req in
         ret (Next req)
     end)
    (fun error =>
       if String.eqb (err_name error) "JsonWebTokenError" then
         deny 401 "Invalid token"
       else if String.eqb (err_name error) "TokenExpiredError" then
         deny 401 "Token has expired. Please login again."
       else
         await console_error AuthenticationError error in
         deny 500 "Server error during authentication").

End Server.

(** *** The earlier copy of the controller

    Its data layer, [require('../models/userModel')] as a whole, is the
    argument [User_getAllUsers]. *)
Definition getAllUsers_v1 (User_getAllUsers : M World (list Sequelize.Instance))
    (req : Request) : M World Response :=
  try_catch
    (let* users := User_getAllUsers in
     respond 200
       (JObj [("message", JStr "Users retrieved successfully");
              ("count", JNum (Z.of_nat (length users)));
              ("users", JArr (map JObj users))]))
    (fun error =>
       await console_error FetchUsersError error in
       respond_error 500 "Server error while fetching users").

(** ** Vocabulary of the statements *)

(** Whenever [m] returns, its value satisfies [P]. *)
Definition post {S A : Type} (P : A -> Prop) (m : M S A) : Prop :=
  forall s, match m s with
            | (Ok a, _) => P a
            | (Throw _, _) => True
            end.

(** [m] always returns, and its value satisfies [P]. *)
Definition always {S A : Type} (P : A -> Prop) (m : M S A) : Prop :=
  forall s, exists a s', m s = (Ok a, s') /\ P a.

(** The 401 answer of a middleware. *)
Definition unauthenticated (message : string) : Middleware :=
  Responded (mkResponse 401 (JObj [("error", JStr message)])).

(** The same world with every stored digest replaced: row [r] now carries
    [g r] in its password column. *)
Definition set_password (p : string) (r : Row) : Row :=
  mkRow (row_id r) (row_username r) (row_email r) p (row_createdAt r)
    (row_updatedAt r).

Definition scrub (g : Row -> string) (w : World) : World :=
  set_table (map (fun r => set_password (g r) r) (table w)) w.

(** No object key named [password], at any depth of the body. *)
Definition no_password (res : Response) : Prop :=
  has_key "password" (body res) = false.

(** Two rows that agree on every column but [password]. *)
Definition public_eq (r1 r2 : Row) : Prop :=
  row_id r1 = row_id r2 /\ row_username r1 = row_username r2 /\
  row_email r1 = row_email r2 /\ row_createdAt r1 = row_createdAt r2 /\
  row_updatedAt r1 = row_updatedAt r2.

(** Two worlds that differ at most in the stored digests; [Q] is whatever
    else is known of two rows in the same position. *)
Definition eqv (Q : Row -> Row -> Prop) (r1 r2 : Row) : Prop :=
  public_eq r1 r2 /\ Q r1 r2.

Definition low_eq (Q : Row -> Row -> Prop) (w1 w2 : World) : Prop :=
  Forall2 (eqv Q) (table w1) (table w2) /\
  next_id w1 = next_id w2 /\ clock w1 = clock w2 /\ entropy w1 = entropy w2 /\
  faults w1 = faults w2 /\ console w1 = console w2.

(** Two digests are stored or refused alike by the [password] column. *)
Definition fits_alike (d1 d2 : string) : Prop :=
  (255 <? js_length d1) = (255 <? js_length d2).

(** Run on two worlds that differ in digests only, the computations throw
    the same error or return related values, and leave such worlds. *)
Definition rel (Q : Row -> Row -> Prop) {A B : Type} (R : A -> B -> Prop)
    (m1 : M World A) (m2 : M World B) : Prop :=
  forall w1 w2, low_eq Q w1 w2 ->
    match m1 w1, m2 w2 with
    | (Ok a, w1'), (Ok b, w2') => R a b /\ low_eq Q w1' w2'
    | (Throw e1, w1'), (Throw e2, w2') => e1 = e2 /\ low_eq Q w1' w2'
    | _, _ => False
    end.

(** Two finders found the same row, digest apart, or both found none. *)
Definition found (Q : Row -> Row -> Prop) (a b : option Row) : Prop :=
  match a, b with
  | Some r1, Some r2 => eqv Q r1 r2
  | None, None => True
  | _, _ => False
  end.

(** The characters of a password that is a string. *)
Definition text (v : option Password) : string :=
  match v with
  | Some (Text s) => s
  | _ => ""
  end.

(** Two rows on which comparing the submitted password with the stored
    digest gives the same verdict under two hashers. *)
Definition same_verdict (h1 h2 : Hasher) (req : Request) (r1 r2 : Row) : Prop :=
  bcrypt_compare h1 (text (body_password req)) (row_password r1) =
  bcrypt_compare h2 (text (body_password req)) (row_password r2).

(** No knowledge about two rows beyond their public columns. *)
Definition any (r1 r2 : Row) : Prop := True.

(** The request with another authorization header. *)
Definition set_authorization (h : option string) (req : Request) : Request :=
  mkRequest h (body_username req) (body_email req) (body_password req)
    (req_user req).

(** What a middleware decided: the response it sent, or the [req.user] it
    passed on. *)
Definition decision (run : outcome Middleware * World)
  : outcome (Response + option ReqUser) * World :=
  (match fst run with
   | Ok (Responded res) => Ok (inl res)
   | Ok (Next req) => Ok (inr (req_user req))
   | Throw e => Throw e
   end, snd run).

(** The body of a registration, login or listing request. *)
Definition post_json (username email : option string)
    (password : option Password) : Request :=
  mkRequest None username email password None.

(** The same, with a string for password. *)
Definition post_body (username email password : option string) : Request :=
  post_json username email (option_map Text password).

(** The listing envelope: an object with [message], [count] and [users],
    the count being the number of users. *)
Definition envelope (j : Json) : Prop :=
  exists message users,
    json_field "message" j = Some (JStr message) /\
    json_field "users" j = Some (JArr users) /\
    json_field "count" j = Some (JNum (Z.of_nat (length users))).

(** Most recent first. *)
Definition newer_first (r1 r2 : Row) : Prop := row_createdAt r2 <= row_createdAt r1.

(** The public attributes of a row, as the listing shows it. *)
Definition listed (r : Row) : Json :=
  JObj [("id", JNum (row_id r)); ("username", JStr (row_username r));
        ("email", JStr (row_email r)); ("createdAt", JDate (row_createdAt r))].

(** Neither the email nor the username is in the table. *)
Definition not_taken (username email : string) (w : World) : Prop :=
  forall r, In r (table w) -> row_email r <> email /\ row_username r <> username.



(** What registration answers on success. *)
Definition registered (r : Row) : Response :=
  mkResponse 201
    (JObj [("message", JStr "User registered successfully");
           ("user", JObj [("id", JNum (row_id r));
                          ("username", JStr (row_username r));
                          ("email", JStr (row_email r));
                          ("createdAt", JDate (row_createdAt r))])]).

(** The answers of registration to a failure of the persistence layer. *)
Definition conflict : Response :=
  mkResponse 409
    (JObj [("error", JStr "User with this email or username already exists")]).

Definition internal_error : Response :=
  mkResponse 500
    (JObj [("error", JStr "Server error during registration. Please try again.")]).

(** No error of the persistence layer has '23505' as a [code] of its own:
    neither the errors the ORM makes of a refusal nor the ones it throws
    for a query.  Sequelize keeps the code of the database on
    [error.parent] and [error.original]. *)
Definition code_kept_inside (orm_error : Sequelize.Refusal -> JsError)
    (w : World) : Prop :=
  (forall refusal, err_code (orm_error refusal) <> Some "23505") /\
  (forall e, In (Some e) (faults w) -> err_code e <> Some "23505").

(** The answer of login to a credential failure. *)
Definition invalid_credentials : Response :=
  mkResponse 401 (JObj [("error", JStr "Invalid email or password")]).

(** The three input checks of [registerUser] all pass. *)
Definition passes_validation (req : Request) : bool :=
  negb (falsy (body_username req) || falsy (body_email req)
        || falsy_password (body_password req))
  && emailRegex_test (the (body_email req))
  && negb (shorter_than_6 (the_password (body_password req))).

(** The world after [console.error(tag, e)]. *)
Definition logged (tag : LogTag) (e : JsError) (w : World) : World :=
  set_console ((tag, e) :: console w) w.

Section RegisterSteps.

Variable orm_error : Sequelize.Refusal -> JsError.
Variable isEmail : string -> bool.
Variable bcrypt : Hasher.

(** The insert of a registration is reached in world [w3] with digest [d]:
    both lookups answered that nothing was found. *)
Definition reaches_insert (req : Request) (w : World) (d : string) (w3 : World)
  : Prop :=
  exists w1 w2,
    UserModel.findUserByEmail (the (body_email req)) w = (Ok None, w1) /\
    UserModel.findUserByUsername (the (body_username req)) w1 = (Ok None, w2) /\
    bcrypt_hash bcrypt (the_password (body_password req)) 10 w2 = (Ok d, w3).

(** A call to the persistence layer made by a registration throws [err]
    and leaves the world [w']. *)
Inductive register_throws (req : Request) (w : World) (err : JsError)
    (w' : World) : Prop :=
| throws_at_email_lookup :
    UserModel.findUserByEmail (the (body_email req)) w = (Throw err, w') ->
    register_throws req w err w'
| throws_at_username_lookup (w1 : World) :
    UserModel.findUserByEmail (the (body_email req)) w = (Ok None, w1) ->
    UserModel.findUserByUsername (the (body_username req)) w1 = (Throw err, w') ->
    register_throws req w err w'
| throws_at_insert (d : string) (w3 : World) :
    reaches_insert req w d w3 ->
    UserModel.createUser orm_error isEmail (the (body_username req))
      (the (body_email req)) d w3 = (Throw err, w') ->
    register_throws req w err w'.

End RegisterSteps.


(** The row a registration stores, and the world it leaves, when nothing
    fails. *)
Definition new_row (bcrypt : Hasher) (req : Request) (w : World) : Row :=
  mkRow (next_id w) (the (body_username req)) (the (body_email req))
    (bcrypt_digest bcrypt (entropy w) (text (body_password req)) 10)
    (clock w) (clock w).

Definition after_insert (r : Row) (w : World) : World :=
  mkWorld (table w ++ [r]) (next_id w + 1) (clock w) (entropy w + 1)
    (faults w) (console w).

(** What the model and the columns demand of a username, an email and a
    digest. *)
Definition storable (isEmail : string -> bool) (username email digest : string)
  : Prop :=
  3 <= js_length username <= 100 /\ isEmail email = true /\
  js_length email <= 150 /\ js_length digest <= 255.

(** A step that left the rows, the id sequence and the clock as they were. *)
Definition same_data (w w' : World) : Prop :=
  table w' = table w /\ next_id w' = next_id w /\ clock w' = clock w.

(** What a token issued at time [now] for the stored user [user] encodes. *)
Definition issued (user : Row) (now : Z) : Jwt.Decoded :=
  Jwt.mkDecoded (Jwt.mkClaims (row_id user) (row_email user) (row_username user))
    now (now + Jwt.hours24).

(** ** A reference token codec

    One implementation of [Jwt.TokenCodec], so that the service can be run on
    concrete requests.  The token is the binary numeral of a code of
    (secret, claims, issuedAt, expiresAt); it is transparent, not a
    cryptographic signature. *)

Module ReferenceCodec.

Fixpoint bits_of_pos (p : positive) : string :=
  match p with
  | xH => "1"
  | xO q => String "0" (bits_of_pos q)
  | xI q => String "1" (bits_of_pos q)
  end.

Fixpoint pos_of_bits (s : string) : option positive :=
  match s with
  | EmptyString => None
  | String c EmptyString => if Ascii.eqb c "1" then Some xH else None
  | String c rest =>
      if Ascii.eqb c "0" then option_map xO (pos_of_bits rest)
      else if Ascii.eqb c "1" then option_map xI (pos_of_bits rest)
      else None
  end.

Definition fields (d : Jwt.Decoded) : Z * string * string * Z * Z :=
  (Jwt.userId (Jwt.claims d), Jwt.email (Jwt.claims d),
   Jwt.username (Jwt.claims d), Jwt.issuedAt d, Jwt.expiresAt d).

Definition of_fields (t : Z * string * string * Z * Z) : Jwt.Decoded :=
  let '(uid, em, un, iat, exp) := t in
  Jwt.mkDecoded (Jwt.mkClaims uid em un) iat exp.

Definition encode_token (secret : string) (d : Jwt.Decoded) : string :=
  bits_of_pos (encode (secret, fields d)).

Definition decode_token (secret token : string) : option Jwt.Decoded :=
  match pos_of_bits token with
  | None => None
  | Some p =>
      match decode p : option (string * (Z * string * string * Z * Z)) with
      | Some (k, t) => if String.eqb k secret then Some (of_fields t) else None
      | None => None
      end
  end.

End ReferenceCodec.

(** ** A small deployment to run the service on *)

Module Demo.

Definition orm_error (r : Sequelize.Refusal) : JsError :=
  match r with
  | Sequelize.ValidationFailed a => mkError "SequelizeValidationError" None a
  | Sequelize.UniqueViolation a => mkError "SequelizeUniqueConstraintError" None a
  | Sequelize.ValueTooLong a => mkError "SequelizeDatabaseError" None a
  end.

(** A transparent stand-in for bcrypt: the digest is the plaintext behind a
    marker and the salt parity. *)
Definition hasher : Hasher :=
  mkHasher
    (fun salt plaintext rounds =>
       String (if Z.even salt then "$" else "%")%char plaintext)
    (fun plaintext digest =>
       String.eqb digest (String "$" plaintext)
       || String.eqb digest (String "%" plaintext)).

Definition secret : string := "s3cret".

Definition empty : World := mkWorld [] 1 1000 0 [] [].

Definition alice : Row :=
  mkRow 1 "alice" "alice@example.com" "$wonderland" 1000 1000.

Definition bob : Row :=
  mkRow 2 "bob" "bob@example.com" "%builder" 2000 2000.

Definition carol : Row :=
  mkRow 3 "carol" "carol@example.com" "$singer" 3000 3000.

Definition populated : World := mkWorld [alice; bob; carol] 4 5000 3 [] [].

(** What [User.create] throws when a unique index refuses the row: the
    code '23505' of the database is kept on [error.parent] and
    [error.original], the error has no [code] of its own. *)
Definition duplicate_key : JsError :=
  orm_error (Sequelize.UniqueViolation "email").

Definition connection_lost : JsError :=
  mkError "SequelizeConnectionError" None "Connection terminated unexpectedly".

(** The two lookups go through and the insert is refused as a duplicate
    key, as it is when another registration of the same email commits
    between the lookups and the insert. *)
Definition racing : World :=
  mkWorld [] 1 1000 0 [None; None; Some duplicate_key] [].

(** The database goes away at the first query. *)
Definition failing : World := mkWorld [] 1 1000 0 [Some connection_lost] [].

Definition signup : Request :=
  post_body (Some "alice") (Some "alice@example.com") (Some "wonderland").

Definition signup_with (password : string) : Request :=
  post_body (Some "alice") (Some "alice@example.com") (Some password).

(** Two sign-ups that differ in letter case only. *)
Definition signup_Alice : Request :=
  post_body (Some "Alice") (Some "Alice@Example.com") (Some "wonderland").


Definition signup_bob : Request :=
  post_body (Some "bob") (Some "bob@example.com") (Some "builder").

Definition signup_carol : Request :=
  post_body (Some "carol") (Some "carol@example.com") (Some "singer").

(** A fourth user, and the row that registering him in [populated] stores. *)
Definition signup_dave : Request :=
  post_body (Some "dave") (Some "dave@example.com") (Some "secret1").

Definition dave : Row :=
  mkRow 4 "dave" "dave@example.com" "%secret1" 5000 5000.

Definition login_alice : Request :=
  post_body None (Some "alice@example.com") (Some "wonderland").

(** A request carrying an authorization header and nothing else. *)
Definition with_header (h : string) : Request :=
  mkRequest (Some h) None None None None.

(** A listing request; the gate has let it through. *)
Definition listing : Request :=
  mkRequest (Some "Bearer token") None None None
    (Some (mkReqUser (Some (JNum 1)) (Some (JStr "alice@example.com"))
             (Some (JStr "alice")))).

End Demo.

(** ** More of the code *)

(** *** JavaScript values, continued *)

(** Truthiness of a value: [null], [false], [0] and [''] are falsy. *)
Definition truthy (j : Json) : bool :=
  match j with
  | JNull => false
  | JBool b => b
  | JNum z => negb (z =? 0)
  | JStr s => negb (String.eqb s "")
  | JDate _ | JArr _ | JObj _ => true
  end.

(** [!v] for a value that may be [undefined]. *)
Definition not_ (v : option Json) : bool :=
  match v with
  | None => true
  | Some j => negb (truthy j)
  end.

(** [arr.join(sep)] on an array of strings. *)
Fixpoint join (sep : string) (items : list string) : string :=
  match items with
  | [] => ""
  | [x] => x
  | x :: rest => x +:+ sep +:+ join sep rest
  end.

(** [arr.includes(v)] on an array of strings: strict equality, so only a
    string can be found. *)
Definition includes (items : list string) (v : option Json) : bool :=
  match v with
  | Some (JStr s) => existsb (String.eqb s) items
  | _ => false
  end.

(** *** src/middleware/authMiddleware.js, continued *)

(** The value of an object variable known to be defined. *)
Definition the_object (v : option (list (string * Json))) : list (string * Json) :=
  match v with
  | Some o => o
  | None => []
  end.


(** How [authorizeRoles] ends: with its own response, or with [next()]. *)
Inductive RoleCheck : Type :=
| Forbidden (res : Response)
| Authorized.

(** [authorizeRoles(...allowedRoles)], run on a request whose [req.user] is
    the object [user] ([None]: [req.user] is [undefined]). *)
Definition authorizeRoles (allowedRoles : list string)
    (user : option (list (string * Json))) : M World RoleCheck :=
  let no_role :=
    match user with
    | None => true
    | Some u => not_ (get "role" u)
    end in
  if no_role then
    ret (Forbidden (mkResponse 403 (JObj [("error", JStr "No role assigned to user")])))
  else if negb (includes allowedRoles (get "role" (the_object user))) then
    ret (Forbidden
           (mkResponse 403
              (JObj [("error",
                      JStr ("Access denied. Requires one of these roles: "
                            +:+ join ", " allowedRoles))])))
  else
    ret Authorized.

(** *** server.js *)

Module Server.

(** What [cors] has done to the response: the headers it set, in order, and
    the status it sent itself, if it did not call [next()]. *)
Record Cors : Type := mkCors {
  headers : list (string * string);
  sent : option Z
}.

(** [[...].filter(Boolean)] on the list of origins: the entries that are
    defined and not empty. *)
Definition filter_Boolean (items : list (option string)) : list string :=
  flat_map (fun v => if falsy v then [] else [the v]) items.

(** [allowedOrigins.includes(origin)] *)
Definition includes_origin (allowed : list string) (origin : option string) : bool :=
  match origin with
  | None => false
  | Some o => existsb (String.eqb o) allowed
  end.

Definition allowedOrigins (FRONTEND_URL : option string) : list string :=
  filter_Boolean
    [Some "http://localhost:3000"; Some "http://localhost:5500";
     Some "http://127.0.0.1:8000"; Some "http://127.0.0.1:5500";
     FRONTEND_URL].

(** [const cors = (req, res, next) => ...], given [process.env.FRONTEND_URL],
    [req.headers.origin] and [req.method]. *)
Definition cors (FRONTEND_URL origin : option string) (method : string) : Cors :=
  let allowed := allowedOrigins FRONTEND_URL in
  let h1 :=
    if includes_origin allowed origin || falsy origin then
      [("Access-Control-Allow-Origin", if falsy origin then "*" else the origin)]
    else [] in
  let hs :=
    (h1 ++ [("Access-Control-Allow-Methods", "GET, POST, PUT, DELETE, OPTIONS");
            ("Access-Control-Allow-Headers", "Content-Type, Authorization");
            ("Access-Control-Allow-Credentials", "true")])%list in
  if String.eqb method "OPTIONS" then mkCors hs (Some 200) else mkCors hs None.

(** [res.get(name)]: the value of a header that was set. *)
Fixpoint header (name : string) (hs : list (string * string)) : option string :=
  match hs with
  | [] => None
  | (k, v) :: rest => if String.eqb k name then Some v else header name rest
  end.

End Server.

(** ** Vocabulary of the further properties *)

(** Emails, usernames and ids are unique in the table, and every id was
    drawn from the sequence. *)
Definition consistent (w : World) : Prop :=
  List.NoDup (map row_email (table w)) /\
  List.NoDup (map row_username (table w)) /\
  List.NoDup (map row_id (table w)) /\
  Forall (fun r => row_id r < next_id w) (table w).

(** Between [w] and [w'] no row was stored: the rows and the clock are the
    same, and the id sequence has given out one id at most (an insert that a
    unique index refuses keeps the id it drew). *)
Definition nothing_stored (w w' : World) : Prop :=
  table w' = table w /\ clock w' = clock w /\
  next_id w <= next_id w' <= next_id w + 1.

(** A step that may have used up scheduled faults and written to the
    console, and nothing else. *)
Definition same_store (w w' : World) : Prop :=
  table w' = table w /\ next_id w' = next_id w /\ clock w' = clock w /\
  entropy w' = entropy w.

(** Every run of [m] leaves a world related to the one it started in. *)
Definition keeps {A : Type} (R : World -> World -> Prop) (m : M World A) : Prop :=
  forall w, R w (snd (m w)).

(** The hasher accepts the digests it computes at cost [rounds]. *)
Definition accepts_own_digests (h : Hasher) (rounds : Z) : Prop :=
  forall salt plaintext,
    bcrypt_compare h plaintext (bcrypt_digest h salt plaintext rounds) = true.

(** What login answers on success. *)
Definition logged_in (token : string) (user : Row) : Response :=
  mkResponse 200
    (JObj [("message", JStr "Login successful");
           ("token", JStr token);
           ("user", JObj [("id", JNum (row_id user));
                          ("username", JStr (row_username user));
                          ("email", JStr (row_email user))])]).

(** The answers of registration to a duplicate found by a lookup. *)
Definition email_registered : Response :=
  mkResponse 409 (JObj [("error", JStr "Email is already registered")]).

Definition username_taken : Response :=
  mkResponse 409 (JObj [("error", JStr "Username is already taken")]).

(** [req.user] as [authenticateToken] builds it from a stored row. *)
Definition user_of_row (r : Row) : ReqUser :=
  mkReqUser (Some (JNum (row_id r))) (Some (JStr (row_email r)))
    (Some (JStr (row_username r))).

(** [req'] is [req] with [u] as its [req.user], and nothing else changed. *)
Definition attaches (u : ReqUser) (req req' : Request) : Prop :=
  req_user req' = Some u /\
  headers_authorization req' = headers_authorization req /\
  body_username req' = body_username req /\
  body_email req' = body_email req /\
  body_password req' = body_password req.



(** The 500 answer of a handler, with its fixed message. *)
Definition server_error (message : string) : Response :=
  mkResponse 500 (JObj [("error", JStr message)]).

(** The language of a regular expression. *)
Inductive matches : Regex.regex -> string -> Prop :=
| matches_eps : matches Regex.Eps ""
| matches_chars (p : ascii -> bool) (c : ascii) :
    p c = true -> matches (Regex.Chars p) (String c "")
| matches_cat (r1 r2 : Regex.regex) (s1 s2 : string) :
    matches r1 s1 -> matches r2 s2 -> matches (Regex.Cat r1 r2) (s1 +:+ s2)
| matches_alt_l (r1 r2 : Regex.regex) (s : string) :
    matches r1 s -> matches (Regex.Alt r1 r2) s
| matches_alt_r (r1 r2 : Regex.regex) (s : string) :
    matches r2 s -> matches (Regex.Alt r1 r2) s
| matches_star_nil (r : Regex.regex) : matches (Regex.Star r) ""
| matches_star_cons (r : Regex.regex) (s1 s2 : string) :
    matches r s1 -> matches (Regex.Star r) s2 ->
    matches (Regex.Star r) (s1 +:+ s2).

(** Every character of the string is in the class. *)
Fixpoint all_chars (p : ascii -> bool) (s : string) : bool :=
  match s with
  | EmptyString => true
  | String c rest => p c && all_chars p rest
  end.

(** A part of an email address: not empty, no whitespace, no [@]. *)
Definition address_part (s : string) : Prop :=
  s <> "" /\ all_chars Regex.not_space_at s = true.

(** The shape [local@domain.tld]: three address parts around one [@] and a dot
    after it. *)
Definition address_shape (s : string) : Prop :=
  exists a b c,
    s = a +:+ "@" +:+ b +:+ "." +:+ c /\
    address_part a /\ address_part b /\ address_part c.

(** * Properties *)

(** ** The reference codec is a codec *)

Module Reference.

Import ReferenceCodec.

Lemma bits_nonempty (p : positive) : bits_of_pos p <> "".
Proof. destruct p; discriminate. Qed.

Lemma pos_of_bits_of_pos (p : positive) : pos_of_bits (bits_of_pos p) = Some p.
Proof.
  induction p as [q IH | q IH | ]; simpl; try reflexivity.
  - destruct (bits_of_pos q) eqn:E; [now destruct q|]. now rewrite IH.
  - destruct (bits_of_pos q) eqn:E; [now destruct q|]. now rewrite IH.
Qed.

Lemma bits_no_space (p : positive) : has_space (bits_of_pos p) = false.
Proof.
  induction p as [q IH | q IH | ]; simpl; try rewrite IH; reflexivity.
Qed.

Lemma of_fields_fields (d : Jwt.Decoded) : of_fields (fields d) = d.
Proof. destruct d as [[uid em un] iat exp]. reflexivity. Qed.

Lemma decode_encode_token (secret : string) (d : Jwt.Decoded) :
  decode_token secret (encode_token secret d) = Some d.
Proof.
  unfold decode_token, encode_token.
  rewrite pos_of_bits_of_pos, decode_encode, String.eqb_refl, of_fields_fields.
  reflexivity.
Qed.

#[export] Instance codec : Jwt.TokenCodec := {|
  Jwt.tc_encode := encode_token;
  Jwt.tc_decode := decode_token;
  Jwt.tc_decode_encode := decode_encode_token;
  Jwt.tc_compact := fun secret d =>
    conj (bits_nonempty _) (bits_no_space _)
|}.

End Reference.

(** ** The definitions on small inputs *)

Example emailRegex_accepts :
  map emailRegex_test ["a@b.c"; "first.last@mail.example.org"; "a@b.c.d"]
  = [true; true; true].
Proof. reflexivity. Qed.

Example emailRegex_rejects :
  map emailRegex_test [""; "a@b"; "a b@c.d"; "a@@b.c"; "a@.c"; "a@b."; "@b.c"]
  = [false; false; false; false; false; false; false].
Proof. reflexivity. Qed.

Example split_space_examples :
  map split_space ["Bearer abc"; ""; "a  b"; "abc"; "Bearer "]
  = [["Bearer"; "abc"]; [""]; ["a"; ""; "b"]; ["abc"]; ["Bearer"; ""]].
Proof. reflexivity. Qed.

Example token_of_examples :
  map token_of [None; Some ""; Some "abc"; Some "Bearer abc"; Some "Basic abc";
                Some "Bearer "; Some "Bearer  abc"]
  = [None; Some ""; None; Some "abc"; Some "abc"; Some ""; Some ""].
Proof. reflexivity. Qed.

Example order_by_createdAt_desc_example :
  Sequelize.order_by_createdAt_desc [Demo.bob; Demo.alice; Demo.carol]
  = [Demo.carol; Demo.bob; Demo.alice].
Proof. reflexivity. Qed.

Example register_then_reject_duplicate :
  let w1 := snd (registerUser Demo.orm_error emailRegex_test Demo.hasher
                   Demo.signup Demo.empty) in
  fst (registerUser Demo.orm_error emailRegex_test Demo.hasher Demo.signup w1)
  = Ok (mkResponse 409 (JObj [("error", JStr "Email is already registered")])).
Proof. reflexivity. Qed.

Example reference_codec_rejects_other_secret :
  ReferenceCodec.decode_token "other"
    (ReferenceCodec.encode_token Demo.secret (issued Demo.alice 5000)) = None.
Proof. vm_compute. reflexivity. Qed.

(** ** Running the primitives *)

Ltac run :=
  unfold try_catch, bind, ret, throw, gets, modify, respond_error, respond, deny.

Lemma select_public (r : Row) :
  Sequelize.select UserModel.public_attributes r =
    [("id", JNum (row_id r)); ("username", JStr (row_username r));
     ("email", JStr (row_email r)); ("createdAt", JDate (row_createdAt r))].
Proof. reflexivity. Qed.

Lemma find_id_sound (rows : list Row) (id : Z) (r : Row) :
  find (fun r => row_id r =? id) rows = Some r -> In r rows /\ row_id r = id.
Proof.
  intros H. apply find_some in H. destruct H as [Hin Heq].
  split; [exact Hin | now apply Z.eqb_eq].
Qed.

(** A finder by primary key answers with the public attributes of a stored
    row carrying that id. *)
Lemma findUserById_Some (id : Z) (w w' : World) (u : Sequelize.Instance) :
  UserModel.findUserById id w = (Ok (Some u), w') ->
  exists r, In r (table w) /\ row_id r = id /\
            u = Sequelize.select UserModel.public_attributes r.
Proof.
  unfold UserModel.findUserById, Sequelize.findByPk, query. run.
  destruct (faults w) as [|[e|] rest]; simpl; intros H;
    try discriminate;
    injection H as Hu Hw;
    (destruct (find _ _) as [r|] eqn:F; [|discriminate]);
    apply find_id_sound in F; destruct F as [Hin Hid];
    exists r; (split; [|split]); try assumption;
    simpl in Hu; congruence.
Qed.

Section Gate.

Variable JWT_SECRET : string.
Context {codec : Jwt.TokenCodec}.

(** The gate on a token that [verify] reports as expired. *)
Lemma gate_rejects_expired (req : Request) (w w1 : World) (e : JsError) :
  falsy (token_of (headers_authorization req)) = false ->
  Jwt.verify (the (token_of (headers_authorization req))) JWT_SECRET w =
    (Throw e, w1) ->
  err_name e = "TokenExpiredError" ->
  authenticateToken JWT_SECRET req w =
    (Ok (unauthenticated "Token has expired. Please login again."), w1).
Proof.
  intros T V N. unfold authenticateToken. rewrite T.
  unfold try_catch at 1, bind at 1. rewrite V, N. reflexivity.
Qed.

(** The gate on a token that verifies, for an account the Directory returns. *)
Lemma gate_lets_through (req : Request) (w w1 w2 : World) (d : Jwt.Decoded)
    (u : Sequelize.Instance) :
  falsy (token_of (headers_authorization req)) = false ->
  Jwt.verify (the (token_of (headers_authorization req))) JWT_SECRET w = (Ok d, w1) ->
  UserModel.findUserById (Jwt.userId (Jwt.claims d)) w1 = (Ok (Some u), w2) ->
  exists r,
    In r (table w1) /\ row_id r = Jwt.userId (Jwt.claims d) /\
    authenticateToken JWT_SECRET req w =
      (Ok (Next (set_req_user
                   (mkReqUser (Some (JNum (row_id r)))
                              (Some (JStr (row_email r)))
                              (Some (JStr (row_username r))))
                   req)), w2).
Proof.
  intros T V F. unfold authenticateToken. rewrite T.
  unfold try_catch at 1, bind at 1. rewrite V.
  unfold bind at 1. rewrite F.
  destruct (findUserById_Some _ _ _ _ F) as (r & Hin & Hid & ->).
  exists r. repeat split; assumption.
Qed.

(** The gate on a request without a token. *)
Lemma gate_no_token (req : Request) (w : World) :
  falsy (token_of (headers_authorization req)) = true ->
  authenticateToken JWT_SECRET req w =
    (Ok (unauthenticated "Access denied. No token provided."), w).
Proof. intros T. unfold authenticateToken. now rewrite T. Qed.

(** The gate on a token that [verify] reports as invalid. *)
Lemma gate_rejects_invalid (req : Request) (w w1 : World) (e : JsError) :
  falsy (token_of (headers_authorization req)) = false ->
  Jwt.verify (the (token_of (headers_authorization req))) JWT_SECRET w =
    (Throw e, w1) ->
  err_name e = "JsonWebTokenError" ->
  authenticateToken JWT_SECRET req w = (Ok (unauthenticated "Invalid token"), w1).
Proof.
  intros T V N. unfold authenticateToken. rewrite T.
  unfold try_catch at 1, bind at 1. rewrite V, N. reflexivity.
Qed.

(** The gate on a token that verifies, for an account the Directory does
    not know. *)
Lemma gate_rejects_unknown (req : Request) (w w1 w2 : World) (d : Jwt.Decoded) :
  falsy (token_of (headers_authorization req)) = false ->
  Jwt.verify (the (token_of (headers_authorization req))) JWT_SECRET w = (Ok d, w1) ->
  UserModel.findUserById (Jwt.userId (Jwt.claims d)) w1 = (Ok None, w2) ->
  authenticateToken JWT_SECRET req w =
    (Ok (unauthenticated "User not found. Token invalid."), w2).
Proof.
  intros T V F. unfold authenticateToken. rewrite T.
  unfold try_catch at 1, bind at 1. rewrite V.
  unfold bind at 1. rewrite F. reflexivity.
Qed.

(** The gate on a token that verifies, when the lookup itself throws. *)
Lemma gate_lookup_fails (req : Request) (w w1 w2 : World) (d : Jwt.Decoded)
    (e : JsError) :
  falsy (token_of (headers_authorization req)) = false ->
  Jwt.verify (the (token_of (headers_authorization req))) JWT_SECRET w = (Ok d, w1) ->
  UserModel.findUserById (Jwt.userId (Jwt.claims d)) w1 = (Throw e, w2) ->
  err_name e <> "JsonWebTokenError" -> err_name e <> "TokenExpiredError" ->
  authenticateToken JWT_SECRET req w =
    (Ok (Responded (server_error "Server error during authentication")),
     logged AuthenticationError e w2).
Proof.
  intros T V F N1 N2. unfold authenticateToken. rewrite T.
  unfold try_catch at 1, bind at 1. rewrite V.
  unfold bind at 1. rewrite F.
  apply String.eqb_neq in N1, N2. rewrite N1, N2. reflexivity.
Qed.

(** The gate on a token that verifies, for an account the Directory
    returns: the request goes on with the stored row as its [req.user]. *)
Lemma gate_attaches (req : Request) (w w1 w2 : World) (d : Jwt.Decoded)
    (u : Sequelize.Instance) :
  falsy (token_of (headers_authorization req)) = false ->
  Jwt.verify (the (token_of (headers_authorization req))) JWT_SECRET w = (Ok d, w1) ->
  UserModel.findUserById (Jwt.userId (Jwt.claims d)) w1 = (Ok (Some u), w2) ->
  exists r req',
    In r (table w1) /\ row_id r = Jwt.userId (Jwt.claims d) /\
    authenticateToken JWT_SECRET req w = (Ok (Next req'), w2) /\
    attaches (user_of_row r) req req'.
Proof.
  intros T V F.
  destruct (gate_lets_through req w w1 w2 d u T V F) as (r & I & E & G).
  exists r. eexists. split; [exact I|]. split; [exact E|].
  split; [exact G|]. repeat split.
Qed.

(** C1, as the code has it.  With no token in the authorization header,
    with a token on which [verify] throws a JsonWebTokenError (invalid),
    with one on which it throws a TokenExpiredError, and with verified
    claims whose userId the Directory does not know, the gate answers 401
    itself and does not call [next()].  When the lookup in the Directory
    itself throws, the gate logs the error and answers 500, and does not
    call [next()] either.  When the token verifies and the Directory
    returns the user, the gate sets [req.user] to the id, email and
    username of that stored row, leaves the rest of the request as it is,
    and calls [next()]. *)
Theorem C1_auth_gate (req : Request) (w : World) :
  let token := token_of (headers_authorization req) in
  let gate := authenticateToken JWT_SECRET req w in
  (falsy token = true ->
     gate = (Ok (unauthenticated "Access denied. No token provided."), w))
  /\ (falsy token = false ->
      forall e w1,
        Jwt.verify (the token) JWT_SECRET w = (Throw e, w1) ->
        err_name e = "JsonWebTokenError" ->
        gate = (Ok (unauthenticated "Invalid token"), w1))
  /\ (falsy token = false ->
      forall e w1,
        Jwt.verify (the token) JWT_SECRET w = (Throw e, w1) ->
        err_name e = "TokenExpiredError" ->
        gate = (Ok (unauthenticated "Token has expired. Please login again."), w1))
  /\ (falsy token = false ->
      forall d w1 w2,
        Jwt.verify (the token) JWT_SECRET w = (Ok d, w1) ->
        UserModel.findUserById (Jwt.userId (Jwt.claims d)) w1 = (Ok None, w2) ->
        gate = (Ok (unauthenticated "User not found. Token invalid."), w2))
  /\ (falsy token = false ->
      forall d w1 w2 e,
        Jwt.verify (the token) JWT_SECRET w = (Ok d, w1) ->
        UserModel.findUserById (Jwt.userId (Jwt.claims d)) w1 = (Throw e, w2) ->
        err_name e <> "JsonWebTokenError" -> err_name e <> "TokenExpiredError" ->
        gate =
          (Ok (Responded (server_error "Server error during authentication")),
           logged AuthenticationError e w2))
  /\ (falsy token = false ->
      forall d w1 w2 u,
        Jwt.verify (the token) JWT_SECRET w = (Ok d, w1) ->
        UserModel.findUserById (Jwt.userId (Jwt.claims d)) w1 = (Ok (Some u), w2) ->
        exists r req',
          In r (table w1) /\ row_id r = Jwt.userId (Jwt.claims d) /\
          gate = (Ok (Next req'), w2) /\
          attaches (user_of_row r) req req').
Proof.
  intros token gate. subst gate token. repeat split.
  - apply gate_no_token.
  - intros T e w1 V N. now apply (gate_rejects_invalid req w w1 e).
  - intros T e w1 V N. now apply (gate_rejects_expired req w w1 e).
  - intros T d w1 w2 V F. now apply (gate_rejects_unknown req w w1 w2 d).
  - intros T d w1 w2 e V F N1 N2. now apply (gate_lookup_fails req w w1 w2 d e).
  - intros T d w1 w2 u V F. now apply (gate_attaches req w w1 w2 d u).
Qed.

End Gate.

(** ** What a computation answers *)

Section Post.

Context {S A : Type}.

Lemma post_ret (P : A -> Prop) (a : A) : P a -> post P (ret a : M S A).
Proof. intros H s. exact H. Qed.

Lemma post_throw (P : A -> Prop) (e : JsError) : post P (throw e : M S A).
Proof. intros s. exact I. Qed.

Lemma always_ret (P : A -> Prop) (a : A) : P a -> always P (ret a : M S A).
Proof. intros H s. exists a, s. split; [reflexivity | exact H]. Qed.

Lemma always_try_catch (P : A -> Prop) (body : M S A) (handler : JsError -> M S A) :
  post P body -> (forall e, always P (handler e)) ->
  always P (try_catch body handler).
Proof.
  intros Hb Hh s. unfold try_catch. specialize (Hb s).
  destruct (body s) as [[a|e] s'].
  - exists a, s'. split; [reflexivity | exact Hb].
  - apply Hh.
Qed.

End Post.

Lemma post_bind {S A B : Type} (P : B -> Prop) (m : M S A) (k : A -> M S B) :
  (forall a, post P (k a)) -> post P (bind m k).
Proof.
  intros Hk s. unfold bind. destruct (m s) as [[a|e] s']; [apply Hk | exact I].
Qed.

Lemma always_after_log {A : Type} (P : A -> Prop) (tag : LogTag) (e : JsError)
    (k : M World A) :
  always P k -> always P (await console_error tag e in k).
Proof. intros Hk w. unfold bind, console_error, modify. apply Hk. Qed.

(** ** Responses never carry the password column *)

Lemma public_instances_no_password (rows : list Sequelize.Instance) :
  Forall (fun i => exists r, i = Sequelize.select UserModel.public_attributes r) rows ->
  has_key "password" (JArr (map JObj rows)) = false.
Proof.
  simpl. induction 1 as [|i rows [r ->] _ IH]; simpl; [reflexivity | exact IH].
Qed.

Lemma no_password_error (code : Z) (message : string) :
  no_password (mkResponse code (JObj [("error", JStr message)])).
Proof. unfold no_password. simpl. now destruct (String.eqb "error" "password"). Qed.

Lemma getAllUsers_public :
  post (Forall (fun i => exists r, i = Sequelize.select UserModel.public_attributes r))
    UserModel.getAllUsers.
Proof.
  intros w. unfold UserModel.getAllUsers, Sequelize.findAll_createdAt_desc.
  unfold bind, query, gets, ret.
  destruct (faults w) as [|[e|] rest]; simpl; trivial;
    apply Forall_map, Forall_forall; intros r _; now exists r.
Qed.

Section NoPassword.

Variable orm_error : Sequelize.Refusal -> JsError.
Variable isEmail : string -> bool.
Variable bcrypt : Hasher.
Variable JWT_SECRET : string.
Context {codec : Jwt.TokenCodec}.

Lemma registerUser_no_password (req : Request) :
  always no_password (registerUser orm_error isEmail bcrypt req).
Proof.
  unfold registerUser.
  destruct (_ || _); [apply always_ret, no_password_error|].
  destruct (negb _); [apply always_ret, no_password_error|].
  destruct (shorter_than_6 _); [apply always_ret, no_password_error|].
  apply always_try_catch.
  - apply post_bind; intros [row|]; [apply post_ret, no_password_error|].
    apply post_bind; intros [row|]; [apply post_ret, no_password_error|].
    apply post_bind; intros digest. apply post_bind; intros newUser.
    apply post_ret. reflexivity.
  - intros e. apply always_after_log.
    destruct (strict_eq _ _); apply always_ret, no_password_error.
Qed.

Lemma loginUser_no_password (req : Request) :
  always no_password (loginUser bcrypt JWT_SECRET req).
Proof.
  unfold loginUser.
  destruct (_ || _); [apply always_ret, no_password_error|].
  apply always_try_catch.
  - apply post_bind; intros [user|]; [|apply post_ret, no_password_error].
    apply post_bind; intros isPasswordValid.
    destruct (negb _); [apply post_ret, no_password_error|].
    apply post_bind; intros token. apply post_ret. reflexivity.
  - intros e. apply always_after_log, always_ret, no_password_error.
Qed.

Lemma getAllUsers_no_password (req : Request) :
  always no_password (getAllUsers req).
Proof.
  unfold getAllUsers. apply always_try_catch.
  - intros w. unfold bind. pose proof (getAllUsers_public w) as H.
    destruct (UserModel.getAllUsers w) as [[users|e] w']; [|exact I].
    now apply public_instances_no_password.
  - intros e. apply always_after_log, always_ret, no_password_error.
Qed.

End NoPassword.

(** ** Responses do not depend on the stored digests *)

Section NonInterference.

Variable Q : Row -> Row -> Prop.

Local Abbreviation eqv := (eqv Q).
Local Abbreviation rel := (rel Q).
Local Abbreviation found := (found Q).

Lemma rel_ret {A B : Type} (R : A -> B -> Prop) (a : A) (b : B) :
  R a b -> rel R (ret a) (ret b).
Proof. intros H w1 w2 L. simpl. auto. Qed.

Lemma rel_throw {A B : Type} (R : A -> B -> Prop) (e : JsError) :
  rel R (throw e) (throw e).
Proof. intros w1 w2 L. simpl. auto. Qed.

Lemma rel_bind {A B C D : Type} (R : A -> B -> Prop) (T : C -> D -> Prop)
    (m1 : M World A) (m2 : M World B) (k1 : A -> M World C) (k2 : B -> M World D) :
  rel R m1 m2 -> (forall a b, R a b -> rel T (k1 a) (k2 b)) ->
  rel T (bind m1 k1) (bind m2 k2).
Proof.
  intros Hm Hk w1 w2 L. unfold bind. specialize (Hm w1 w2 L).
  destruct (m1 w1) as [[a|e1] w1'], (m2 w2) as [[b|e2] w2']; try contradiction.
  - destruct Hm as [HR L']. now apply Hk.
  - exact Hm.
Qed.

Lemma rel_try_catch {A B : Type} (R : A -> B -> Prop)
    (b1 : M World A) (b2 : M World B) (h1 : JsError -> M World A)
    (h2 : JsError -> M World B) :
  rel R b1 b2 -> (forall e, rel R (h1 e) (h2 e)) ->
  rel R (try_catch b1 h1) (try_catch b2 h2).
Proof.
  intros Hb Hh w1 w2 L. unfold try_catch. specialize (Hb w1 w2 L).
  destruct (b1 w1) as [[a|e1] w1'], (b2 w2) as [[b|e2] w2']; try contradiction.
  - exact Hb.
  - destruct Hb as [-> L']. now apply Hh.
Qed.

Lemma rel_query : rel eq query query.
Proof.
  intros w1 w2 L. unfold query.
  destruct L as (Ht & Hn & Hc & He & Hf & Ho). rewrite Hf.
  destruct (faults w2) as [|[e|] rest] eqn:F; simpl;
    (split; [reflexivity|]); unfold low_eq; simpl; rewrite ?F; auto 10.
Qed.

Lemma rel_gets {A : Type} (f : World -> A) :
  (forall w1 w2, low_eq Q w1 w2 -> f w1 = f w2) -> rel eq (gets f) (gets f).
Proof. intros H w1 w2 L. simpl. auto. Qed.

Lemma rel_table : rel (Forall2 eqv) (gets table) (gets table).
Proof. intros w1 w2 L. simpl. split; [apply L | exact L]. Qed.

Lemma rel_modify (f1 f2 : World -> World) :
  (forall w1 w2, low_eq Q w1 w2 -> low_eq Q (f1 w1) (f2 w2)) ->
  rel eq (modify f1) (modify f2).
Proof. intros H w1 w2 L. simpl. auto. Qed.

Lemma rel_console_error (tag : LogTag) (e : JsError) :
  rel eq (console_error tag e) (console_error tag e).
Proof.
  apply rel_modify. intros w1 w2 (Ht & Hn & Hc & He & Hf & Ho).
  repeat split; simpl; try assumption. now rewrite Ho.
Qed.

(** Finders whose condition reads public columns only. *)
Lemma find_eqv (p : Row -> bool) (t1 t2 : list Row) :
  (forall r1 r2, public_eq r1 r2 -> p r1 = p r2) ->
  Forall2 eqv t1 t2 ->
  found (find p t1) (find p t2).
Proof.
  intros Hp. induction 1 as [|r1 r2 t1 t2 [HP HQ] _ IH]; simpl; [exact I|].
  rewrite (Hp r1 r2 HP). destruct (p r2); [split; assumption | exact IH].
Qed.

Lemma existsb_eqv (p : Row -> bool) (t1 t2 : list Row) :
  (forall r1 r2, public_eq r1 r2 -> p r1 = p r2) ->
  Forall2 eqv t1 t2 -> existsb p t1 = existsb p t2.
Proof.
  intros Hp. induction 1 as [|r1 r2 t1 t2 [HP HQ] _ IH]; simpl; [reflexivity|].
  now rewrite (Hp r1 r2 HP), IH.
Qed.

Lemma rel_findOne_email (email : string) :
  rel found (Sequelize.findOne_email email) (Sequelize.findOne_email email).
Proof.
  unfold Sequelize.findOne_email.
  eapply rel_bind; [apply rel_query | intros _ _ _].
  eapply rel_bind; [apply rel_table | intros t1 t2 Ht].
  apply rel_ret. apply find_eqv; [|exact Ht].
  intros r1 r2 (_ & _ & -> & _). reflexivity.
Qed.

Lemma rel_findOne_username (username : string) :
  rel found (Sequelize.findOne_username username)
    (Sequelize.findOne_username username).
Proof.
  unfold Sequelize.findOne_username.
  eapply rel_bind; [apply rel_query | intros _ _ _].
  eapply rel_bind; [apply rel_table | intros t1 t2 Ht].
  apply rel_ret. apply find_eqv; [|exact Ht].
  intros r1 r2 (_ & -> & _). reflexivity.
Qed.

Lemma insert_desc_eqv (r1 r2 : Row) (t1 t2 : list Row) :
  eqv r1 r2 -> Forall2 eqv t1 t2 ->
  Forall2 eqv (Sequelize.insert_desc r1 t1) (Sequelize.insert_desc r2 t2).
Proof.
  intros Hr. induction 1 as [|x1 x2 t1 t2 Hx Ht IH]; simpl.
  - constructor; [exact Hr | constructor].
  - assert (E1 : row_createdAt x1 = row_createdAt x2) by apply Hx.
    assert (E2 : row_createdAt r1 = row_createdAt r2) by apply Hr.
    rewrite E1, E2. destruct (_ <=? _).
    + constructor; [exact Hr|]. constructor; assumption.
    + constructor; assumption.
Qed.

Lemma order_by_eqv (t1 t2 : list Row) :
  Forall2 eqv t1 t2 ->
  Forall2 eqv (Sequelize.order_by_createdAt_desc t1)
    (Sequelize.order_by_createdAt_desc t2).
Proof.
  induction 1 as [|r1 r2 t1 t2 Hr _ IH]; simpl; [constructor|].
  now apply insert_desc_eqv.
Qed.

Lemma select_public_eqv (t1 t2 : list Row) :
  Forall2 eqv t1 t2 ->
  map (Sequelize.select UserModel.public_attributes) t1 =
  map (Sequelize.select UserModel.public_attributes) t2.
Proof.
  induction 1 as [|r1 r2 t1 t2 [(Hi & Hu & He & Hc & _) _] _ IH];
    [reflexivity|].
  cbn [map]. rewrite !select_public, Hi, Hu, He, Hc. f_equal. exact IH.
Qed.

Lemma rel_getAllUsers : rel eq UserModel.getAllUsers UserModel.getAllUsers.
Proof.
  unfold UserModel.getAllUsers, Sequelize.findAll_createdAt_desc.
  eapply rel_bind; [apply rel_query | intros _ _ _].
  eapply rel_bind; [apply rel_table | intros t1 t2 Ht].
  apply rel_ret. now apply select_public_eqv, order_by_eqv.
Qed.

(** The listing does not depend on the stored digests. *)
Lemma getAllUsers_low (req : Request) : rel eq (getAllUsers req) (getAllUsers req).
Proof.
  unfold getAllUsers. apply rel_try_catch.
  - eapply rel_bind; [apply rel_getAllUsers | intros u1 u2 ->].
    now apply rel_ret.
  - intros e. eapply rel_bind; [apply rel_console_error | intros _ _ _].
    now apply rel_ret.
Qed.

End NonInterference.

Lemma rel_same_outcome (Q : Row -> Row -> Prop) {A : Type} (m1 m2 : M World A)
    (w1 w2 : World) :
  rel Q eq m1 m2 -> low_eq Q w1 w2 -> fst (m1 w1) = fst (m2 w2).
Proof.
  intros H L. specialize (H w1 w2 L).
  destruct (m1 w1) as [[a|e1] w1'], (m2 w2) as [[b|e2] w2']; try contradiction;
    destruct H as [-> _]; reflexivity.
Qed.

Section RegisterLow.

Variable orm_error : Sequelize.Refusal -> JsError.
Variable isEmail : string -> bool.
Variables h1 h2 : Hasher.
Hypothesis digests_fit_alike : forall salt plaintext rounds,
  fits_alike (bcrypt_digest h1 salt plaintext rounds)
             (bcrypt_digest h2 salt plaintext rounds).

Lemma rel_bcrypt_hash (password : Password) (rounds : Z) :
  rel any fits_alike (bcrypt_hash h1 password rounds)
    (bcrypt_hash h2 password rounds).
Proof.
  unfold bcrypt_hash. destruct password as [plaintext|n|b|items];
    try apply rel_throw.
  eapply rel_bind; [apply rel_gets; intros w1 w2 L; apply L | intros s ? <-].
  eapply rel_bind; [|intros _ _ _; apply rel_ret, digests_fit_alike].
  apply rel_modify. intros w1 w2 (Ht & Hn & Hc & He & Hf & Ho).
  repeat split; simpl; assumption.
Qed.

Lemma lengths_alike (username email d1 d2 : string) :
  fits_alike d1 d2 ->
  Sequelize.lengths username email d1 = Sequelize.lengths username email d2.
Proof. intros Hd. unfold Sequelize.lengths. now rewrite Hd. Qed.

Lemma uniques_eqv (t1 t2 : list Row) (username email : string) :
  Forall2 (eqv any) t1 t2 ->
  Sequelize.uniques t1 username email = Sequelize.uniques t2 username email.
Proof.
  intros Ht. unfold Sequelize.uniques.
  rewrite (existsb_eqv any _ t1 t2)
    by (try exact Ht; intros r1 r2 (_ & -> & _); reflexivity).
  rewrite (existsb_eqv any (fun r => String.eqb (row_email r) email) t1 t2)
    by (try exact Ht; intros r1 r2 (_ & _ & -> & _); reflexivity).
  reflexivity.
Qed.

Lemma rel_create (username email d1 d2 : string) :
  fits_alike d1 d2 ->
  rel any public_eq (Sequelize.create orm_error isEmail username email d1)
    (Sequelize.create orm_error isEmail username email d2).
Proof.
  intros Hd. unfold Sequelize.create.
  destruct (Sequelize.validate _ _ _); [apply rel_throw|].
  eapply rel_bind; [apply rel_query | intros _ _ _].
  rewrite (lengths_alike _ _ d1 d2 Hd).
  destruct (Sequelize.lengths _ _ _); [apply rel_throw|].
  eapply rel_bind; [apply rel_gets; intros w1 w2 L; apply L | intros id ? <-].
  eapply rel_bind.
  { apply rel_modify. intros w1 w2 (Ht & Hn & Hc & He & Hf & Ho).
    repeat split; simpl; assumption. }
  intros _ _ _.
  eapply rel_bind; [apply rel_table | intros t1 t2 Ht].
  rewrite (uniques_eqv t1 t2 _ _ Ht).
  destruct (Sequelize.uniques _ _ _); [apply rel_throw|].
  eapply rel_bind; [apply rel_gets; intros w1 w2 L; apply L | intros now ? <-].
  eapply rel_bind; [|intros _ _ _; apply rel_ret; repeat split].
  apply rel_modify. intros w1 w2 (Ht' & Hn & Hc & He & Hf & Ho).
  repeat split; simpl; try assumption.
  apply Forall2_app; [exact Ht|].
  constructor; [|constructor]. repeat split.
Qed.

(** Registration answers the same whatever digests are stored and whatever
    digest it computes. *)
Lemma registerUser_low (req : Request) :
  rel any eq (registerUser orm_error isEmail h1 req)
    (registerUser orm_error isEmail h2 req).
Proof.
  unfold registerUser.
  destruct (_ || _); [now apply rel_ret|].
  destruct (negb _); [now apply rel_ret|].
  destruct (shorter_than_6 _); [now apply rel_ret|].
  apply rel_try_catch.
  - eapply rel_bind; [apply rel_findOne_email | intros [a|] [b|] F];
      try contradiction; [now apply rel_ret|].
    eapply rel_bind; [apply rel_findOne_username | intros [a|] [b|] F'];
      try contradiction; [now apply rel_ret|].
    eapply rel_bind; [apply rel_bcrypt_hash | intros d1 d2 Hd].
    eapply rel_bind with (R := eq).
    + unfold UserModel.createUser.
      eapply rel_bind; [apply (rel_create _ _ _ _ Hd) | intros r1 r2 HP].
      apply rel_ret. destruct HP as (-> & -> & -> & -> & _). reflexivity.
    + intros u1 u2 ->. now apply rel_ret.
  - intros e. eapply rel_bind; [apply rel_console_error | intros _ _ _].
    destruct (strict_eq _ _); now apply rel_ret.
Qed.

End RegisterLow.

Section LoginLow.

Variables h1 h2 : Hasher.
Variable JWT_SECRET : string.
Context {codec : Jwt.TokenCodec}.
Variable req : Request.

(** Login answers the same whatever digests are stored, as long as the
    comparison gives the same verdicts. *)
Lemma loginUser_low :
  rel (same_verdict h1 h2 req) eq
    (loginUser h1 JWT_SECRET req) (loginUser h2 JWT_SECRET req).
Proof.
  unfold loginUser.
  destruct (_ || _); [now apply rel_ret|].
  apply rel_try_catch.
  - eapply rel_bind; [apply rel_findOne_email | intros [r1|] [r2|] F];
      try contradiction; [|now apply rel_ret].
    destruct F as [(Hi & Hu & He & _) HV]. unfold same_verdict in HV.
    eapply rel_bind with (R := eq).
    { unfold compare.
      destruct (body_password req) as [[s|n|b|items]|];
        cbn [the_password text] in *; try apply rel_throw;
        rewrite HV; now apply rel_ret. }
    intros isPasswordValid ? <-. rewrite Hi, Hu, He.
    destruct (negb _); [now apply rel_ret|].
    eapply rel_bind; [|intros t1 t2 ->; now apply rel_ret].
    unfold Jwt.sign.
    eapply rel_bind; [apply rel_gets; intros w1 w2 L; apply L | intros now ? <-].
    now apply rel_ret.
  - intros e. eapply rel_bind; [apply rel_console_error | intros _ _ _].
    now apply rel_ret.
Qed.

End LoginLow.

Lemma low_eq_refl (w : World) : low_eq any w w.
Proof.
  repeat split. induction (table w) as [|r t IH]; constructor; [|exact IH].
  repeat split.
Qed.

(** Replacing every stored digest gives a world of the same public content. *)
Lemma scrub_low_eq (g : Row -> string) (w : World) : low_eq any (scrub g w) w.
Proof.
  repeat split. simpl. induction (table w) as [|r t IH]; constructor; [|exact IH].
  repeat split.
Qed.

(** C2. Whatever the request and the state, and whether they succeed or
    fail, registerUser, loginUser and getAllUsers send a response, and its
    body has no [password] key at any depth.  Nor does a body depend on a
    digest: registration answers the same for other stored digests and
    another computed digest, the listing answers the same for other stored
    digests, and login answers the same as long as the password comparison
    gives the same verdicts. *)
Theorem C2_password_never_exposed
    (orm_error : Sequelize.Refusal -> JsError) (isEmail : string -> bool)
    (bcrypt : Hasher) (JWT_SECRET : string) (codec : Jwt.TokenCodec)
    (req : Request) :
  (always no_password (registerUser orm_error isEmail bcrypt req) /\
   always no_password (loginUser bcrypt JWT_SECRET req) /\
   always no_password (getAllUsers req))
  /\ (forall bcrypt' w w',
        (forall salt plaintext rounds,
            fits_alike (bcrypt_digest bcrypt salt plaintext rounds)
                       (bcrypt_digest bcrypt' salt plaintext rounds)) ->
        low_eq any w w' ->
        fst (registerUser orm_error isEmail bcrypt req w) =
        fst (registerUser orm_error isEmail bcrypt' req w'))
  /\ (forall bcrypt' w w',
        low_eq (same_verdict bcrypt bcrypt' req) w w' ->
        fst (loginUser bcrypt JWT_SECRET req w) =
        fst (loginUser bcrypt' JWT_SECRET req w'))
  /\ (forall w w',
        low_eq any w w' -> fst (getAllUsers req w) = fst (getAllUsers req w')).
Proof.
  split; [|split; [|split]].
  - split; [|split].
    + apply registerUser_no_password.
    + apply loginUser_no_password.
    + apply getAllUsers_no_password.
  - intros bcrypt' w w' Hfit L.
    apply (rel_same_outcome any); [|exact L]. now apply registerUser_low.
  - intros bcrypt' w w' L.
    apply (rel_same_outcome (same_verdict bcrypt bcrypt' req)); [|exact L].
    apply loginUser_low.
  - intros w w' L. apply (rel_same_outcome any); [|exact L].
    apply getAllUsers_low.
Qed.

(** ** Login *)

Section Login.

Variable bcrypt : Hasher.
Variable JWT_SECRET : string.
Context {codec : Jwt.TokenCodec}.

(** C3. Of two login requests that both carry an email and a password, one
    whose email the Directory does not know is answered 401 with the one
    error message, whatever its password.  One whose email is known gets
    the same response when [bcrypt.compare] answers false, which it does
    only for a string.  When the password is not a string (a number, a
    boolean, an array), [bcrypt.compare] rejects: the known email is then
    answered 500 by the catch block and the unknown one still 401, so the
    two answers tell whether the account exists. *)
Theorem C3_login_failures_indistinguishable
    (req1 req2 : Request) (w1 w1' w2 w2' : World) (user : Row) :
  falsy (body_email req1) || falsy_password (body_password req1) = false ->
  falsy (body_email req2) || falsy_password (body_password req2) = false ->
  UserModel.findUserByEmail (the (body_email req1)) w1 = (Ok None, w1') ->
  UserModel.findUserByEmail (the (body_email req2)) w2 = (Ok (Some user), w2') ->
  loginUser bcrypt JWT_SECRET req1 w1 = (Ok invalid_credentials, w1')
  /\ (forall plaintext,
        body_password req2 = Some (Text plaintext) ->
        bcrypt_compare bcrypt plaintext (row_password user) = false ->
        loginUser bcrypt JWT_SECRET req2 w2 = (Ok invalid_credentials, w2'))
  /\ (forall password,
        body_password req2 = Some password ->
        typeof password <> "string" ->
        loginUser bcrypt JWT_SECRET req2 w2 =
          (Ok (server_error "Server error during login. Please try again."),
           logged LoginError (illegal_arguments (typeof password) "string") w2'))
  /\ status invalid_credentials = 401
  /\ body invalid_credentials = JObj [("error", JStr "Invalid email or password")]
  /\ status (server_error "Server error during login. Please try again.") = 500.
Proof.
  intros P1 P2 F1 F2. repeat split.
  - unfold loginUser. rewrite P1. unfold try_catch, bind. now rewrite F1.
  - intros plaintext Hp V. unfold loginUser. rewrite P2, Hp.
    unfold try_catch, bind. rewrite F2. cbn [the_password compare ret].
    now rewrite V.
  - intros password Hp T. unfold loginUser. rewrite P2, Hp.
    unfold try_catch, bind. rewrite F2. cbn [the_password].
    destruct password; [now contradiction T | reflexivity..].
Qed.

End Login.

(** A fault-free lookup by email returns the first row with exactly that
    email, and leaves the world as it is. *)
Lemma findUserByEmail_up (email : string) (w : World) :
  faults w = [] ->
  UserModel.findUserByEmail email w =
    (Ok (find (fun r => String.eqb (row_email r) email) (table w)), w).
Proof.
  intros F. unfold UserModel.findUserByEmail, Sequelize.findOne_email, query.
  unfold bind. now rewrite F.
Qed.

Lemma findUserByUsername_up (username : string) (w : World) :
  faults w = [] ->
  UserModel.findUserByUsername username w =
    (Ok (find (fun r => String.eqb (row_username r) username) (table w)), w).
Proof.
  intros F. unfold UserModel.findUserByUsername, Sequelize.findOne_username, query.
  unfold bind. now rewrite F.
Qed.

Lemma C3_login_failures_indistinguishable_witness :
  loginUser (codec := Reference.codec) Demo.hasher Demo.secret
    (post_json None (Some "nobody@example.com") (Some (Number 123456)))
    Demo.populated = (Ok invalid_credentials, Demo.populated) /\
  loginUser (codec := Reference.codec) Demo.hasher Demo.secret
    (post_json None (Some "alice@example.com") (Some (Text "Wonderland")))
    Demo.populated = (Ok invalid_credentials, Demo.populated) /\
  loginUser (codec := Reference.codec) Demo.hasher Demo.secret
    (post_json None (Some "alice@example.com") (Some (Number 123456)))
    Demo.populated =
    (Ok (mkResponse 500
           (JObj [("error",
                   JStr "Server error during login. Please try again.")])),
     logged LoginError (mkError "Error" None "Illegal arguments: number, string")
       Demo.populated).
Proof.
  split; [|split].
  - apply (C3_login_failures_indistinguishable (codec := Reference.codec)
             Demo.hasher Demo.secret
             (post_json None (Some "nobody@example.com") (Some (Number 123456)))
             (post_json None (Some "alice@example.com") (Some (Number 123456)))
             Demo.populated Demo.populated Demo.populated Demo.populated
             Demo.alice); reflexivity.
  - destruct (C3_login_failures_indistinguishable (codec := Reference.codec)
                Demo.hasher Demo.secret
                (post_json None (Some "nobody@example.com") (Some (Number 123456)))
                (post_json None (Some "alice@example.com")
                   (Some (Text "Wonderland")))
                Demo.populated Demo.populated Demo.populated Demo.populated
                Demo.alice eq_refl eq_refl eq_refl eq_refl)
      as (_ & Wrong & _).
    apply (Wrong "Wonderland"); reflexivity.
  - destruct (C3_login_failures_indistinguishable (codec := Reference.codec)
                Demo.hasher Demo.secret
                (post_json None (Some "nobody@example.com") (Some (Number 123456)))
                (post_json None (Some "alice@example.com") (Some (Number 123456)))
                Demo.populated Demo.populated Demo.populated Demo.populated
                Demo.alice eq_refl eq_refl eq_refl eq_refl)
      as (_ & _ & Rejects & _).
    apply (Rejects (Number 123456)); [reflexivity | discriminate].
Defined.

(** ** Registration *)

Lemma passes_validation_inv (req : Request) :
  passes_validation req = true ->
  falsy (body_username req) || falsy (body_email req)
    || falsy_password (body_password req) = false /\
  negb (emailRegex_test (the (body_email req))) = false /\
  shorter_than_6 (the_password (body_password req)) = false.
Proof.
  unfold passes_validation. intros H.
  apply andb_true_iff in H. destruct H as [H H3].
  apply andb_true_iff in H. destruct H as [H1 H2].
  apply negb_true_iff in H1, H3. rewrite H1, H2, H3. repeat split.
Qed.

Ltac validated H :=
  let V1 := fresh "V" in
  let V2 := fresh "V" in
  let V3 := fresh "V" in
  destruct (passes_validation_inv _ H) as (V1 & V2 & V3);
  unfold registerUser; rewrite V1, V2, V3.

Section Register.

Variable orm_error : Sequelize.Refusal -> JsError.
Variable isEmail : string -> bool.
Variable bcrypt : Hasher.

Local Abbreviation register := (registerUser orm_error isEmail bcrypt).

(** What the catch block of [registerUser] answers to a thrown error. *)
Lemma register_catches (req : Request) (w w' : World) (err : JsError) :
  passes_validation req = true ->
  register_throws orm_error isEmail bcrypt req w err w' ->
  register req w =
    (Ok (if strict_eq (err_code err) "23505" then conflict else internal_error),
     logged RegistrationError err w').
Proof.
  intros V T. validated V. unfold try_catch at 1.
  destruct T as [F1 | w1 F1 F2 | d w3 (w1 & w2 & F1 & F2 & H) C].
  - unfold bind at 1. rewrite F1.
    unfold bind, console_error, modify.
    now destruct (strict_eq _ _).
  - unfold bind at 1. rewrite F1. unfold bind at 1. rewrite F2.
    unfold bind, console_error, modify.
    now destruct (strict_eq _ _).
  - unfold bind at 1. rewrite F1. unfold bind at 1. rewrite F2.
    unfold bind at 1. rewrite H. unfold bind at 1. rewrite C.
    unfold bind, console_error, modify.
    now destruct (strict_eq _ _).
Qed.

(** Where a thrown error comes from: a query throws a scheduled error and
    leaves a suffix of the schedule. *)
Lemma query_throws (w w' : World) (o : outcome unit) :
  query w = (o, w') ->
  (exists used, faults w = (used ++ faults w')%list) /\
  (forall e, o = Throw e -> In (Some e) (faults w)).
Proof.
  unfold query. destruct (faults w) as [|[e|] rest] eqn:F; intros H;
    injection H as <- <-; cbn [faults set_faults].
  - split; [exists []; now rewrite F | discriminate].
  - split; [now exists [Some e]|]. intros e' E. injection E as <-. now left.
  - split; [now exists [None] | discriminate].
Qed.

Lemma findUserByEmail_throws (email : string) (w w' : World)
    (o : outcome (option Row)) :
  UserModel.findUserByEmail email w = (o, w') ->
  (exists used, faults w = (used ++ faults w')%list) /\
  (forall e, o = Throw e -> In (Some e) (faults w)).
Proof.
  unfold UserModel.findUserByEmail, Sequelize.findOne_email, bind. intros H.
  destruct (query w) as [[[]|e] wq] eqn:Q; apply query_throws in Q;
    destruct Q as [U T]; injection H as <- <-.
  - split; [exact U | discriminate].
  - split; [exact U|]. intros e' E. apply T. now injection E as <-.
Qed.

Lemma findUserByUsername_throws (username : string) (w w' : World)
    (o : outcome (option Row)) :
  UserModel.findUserByUsername username w = (o, w') ->
  (exists used, faults w = (used ++ faults w')%list) /\
  (forall e, o = Throw e -> In (Some e) (faults w)).
Proof.
  unfold UserModel.findUserByUsername, Sequelize.findOne_username, bind.
  intros H.
  destruct (query w) as [[[]|e] wq] eqn:Q; apply query_throws in Q;
    destruct Q as [U T]; injection H as <- <-.
  - split; [exact U | discriminate].
  - split; [exact U|]. intros e' E. apply T. now injection E as <-.
Qed.

(** What [User.create] throws is an error the ORM makes of a refusal, or
    the error scheduled for the insert. *)
Lemma createUser_throws (username email digest : string) (w w' : World)
    (err : JsError) :
  UserModel.createUser orm_error isEmail username email digest w = (Throw err, w') ->
  (exists refusal, err = orm_error refusal) \/ In (Some err) (faults w).
Proof.
  unfold UserModel.createUser, Sequelize.create. unfold bind at 1.
  destruct (Sequelize.validate _ _ _).
  { intros H. injection H as <- _. left. eauto. }
  unfold bind at 1.
  destruct (query w) as [[[]|e] wq] eqn:Q; apply query_throws in Q;
    destruct Q as [_ T].
  2:{ intros H. injection H as <- _. right. now apply T. }
  destruct (Sequelize.lengths _ _ _).
  { intros H. injection H as <- _. left. eauto. }
  unfold bind, gets, modify.
  destruct (Sequelize.uniques _ _ _); [|discriminate].
  intros H. injection H as <- _. left. eauto.
Qed.

(** C4, as the code has it.  In a registration whose input passes the
    checks, the catch block answers 409 Conflict to a thrown error whose own
    [code] is '23505' and 500, with one fixed message, to every other.  But
    no error of the persistence layer has such a code of its own: what
    [User.create] throws when a unique index refuses the row keeps the code
    of the database inside, on [error.parent].  So every error of the
    persistence layer, a uniqueness violation at the insert included, is
    answered 500, and the 409 of the catch block is never sent. *)
Theorem C4_register_persistence_errors (req : Request) (w : World) :
  passes_validation req = true ->
  (forall err w',
      register_throws orm_error isEmail bcrypt req w err w' ->
      register req w =
        (Ok (if strict_eq (err_code err) "23505" then conflict
             else internal_error),
         logged RegistrationError err w'))
  /\ (code_kept_inside orm_error w ->
      forall err w',
        register_throws orm_error isEmail bcrypt req w err w' ->
        register req w = (Ok internal_error, logged RegistrationError err w'))
  /\ status conflict = 409 /\ status internal_error = 500
  /\ body internal_error =
       JObj [("error", JStr "Server error during registration. Please try again.")].
Proof.
  intros V. split; [|split; [|repeat split]].
  - intros err w' T. exact (register_catches req w w' err V T).
  - intros [Ho Hf] err w' T. rewrite (register_catches req w w' err V T).
    assert (N : err_code err <> Some "23505").
    { destruct T as [F1 | w1 F1 F2 | d w3 (w1 & w2 & F1 & F2 & H) C].
      - apply Hf. now apply (findUserByEmail_throws _ _ _ _ F1).
      - apply Hf. destruct (findUserByEmail_throws _ _ _ _ F1) as [(u1 & U1) _].
        destruct (findUserByUsername_throws _ _ _ _ F2) as [_ T2].
        rewrite U1. apply in_or_app. right. now apply T2.
      - destruct (findUserByEmail_throws _ _ _ _ F1) as [(u1 & U1) _].
        destruct (findUserByUsername_throws _ _ _ _ F2) as [(u2 & U2) _].
        assert (E3 : faults w3 = faults w2).
        { unfold bcrypt_hash in H.
          destruct (the_password _); try discriminate H.
          unfold bind, gets, modify, ret in H. now injection H as _ <-. }
        destruct (createUser_throws _ _ _ _ _ _ C) as [(refusal & ->) | I].
        + apply Ho.
        + apply Hf. rewrite U1, U2, <- E3.
          apply in_or_app. right. apply in_or_app. now right. }
    destruct (err_code err) as [code|]; [|reflexivity].
    cbn [strict_eq]. destruct (String.eqb code "23505") eqn:Q; [|reflexivity].
    apply String.eqb_eq in Q. now subst code.
Qed.

Lemma not_taken_email (username email : string) (w : World) :
  not_taken username email w ->
  find (fun r => String.eqb (row_email r) email) (table w) = None /\
  existsb (fun r => String.eqb (row_email r) email) (table w) = false.
Proof.
  intros N. unfold not_taken in N.
  induction (table w) as [|r t IH]; [split; reflexivity|]. simpl.
  destruct (N r (or_introl eq_refl)) as [He _].
  apply String.eqb_neq in He. rewrite He.
  apply IH. intros x Hx. apply N. now right.
Qed.

Lemma not_taken_username (username email : string) (w : World) :
  not_taken username email w ->
  find (fun r => String.eqb (row_username r) username) (table w) = None /\
  existsb (fun r => String.eqb (row_username r) username) (table w) = false.
Proof.
  intros N. unfold not_taken in N.
  induction (table w) as [|r t IH]; [split; reflexivity|]. simpl.
  destruct (N r (or_introl eq_refl)) as [_ Hu].
  apply String.eqb_neq in Hu. rewrite Hu.
  apply IH. intros x Hx. apply N. now right.
Qed.

Lemma query_up (w : World) : faults w = [] -> query w = (Ok tt, w).
Proof. intros F. unfold query. now rewrite F. Qed.

Lemma bcrypt_hash_run (plaintext : string) (rounds : Z) (w : World) :
  bcrypt_hash bcrypt (Text plaintext) rounds w =
    (Ok (bcrypt_digest bcrypt (entropy w) plaintext rounds),
     set_entropy (entropy w + 1) w).
Proof. reflexivity. Qed.

Lemma validate_ok (username email : string) :
  3 <= js_length username <= 100 -> isEmail email = true ->
  Sequelize.validate isEmail username email = None.
Proof.
  intros [H1 H2] He. unfold Sequelize.validate.
  apply Z.leb_le in H1, H2. now rewrite H1, H2, He.
Qed.

Lemma lengths_ok (username email digest : string) :
  storable isEmail username email digest ->
  Sequelize.lengths username email digest = None.
Proof.
  intros ((_ & Hu) & _ & He & Hd). unfold Sequelize.lengths.
  apply Z.ltb_ge in Hu, He, Hd. now rewrite Hu, He, Hd.
Qed.

Lemma uniques_ok (username email : string) (w : World) :
  not_taken username email w ->
  Sequelize.uniques (table w) username email = None.
Proof.
  intros N. unfold Sequelize.uniques.
  destruct (not_taken_email _ _ _ N) as [_ Xe].
  destruct (not_taken_username _ _ _ N) as [_ Xu].
  now rewrite Xe, Xu.
Qed.

Lemma createUser_up (username email digest : string) (w : World) :
  faults w = [] ->
  not_taken username email w ->
  storable isEmail username email digest ->
  UserModel.createUser orm_error isEmail username email digest w =
    (Ok (UserModel.mkNewUser (next_id w) username email (clock w)),
     set_next_id (next_id w + 1)
       (set_table
          (table w ++ [mkRow (next_id w) username email digest (clock w) (clock w)])
          w)).
Proof.
  intros F N S. unfold UserModel.createUser, Sequelize.create.
  rewrite validate_ok by apply S.
  unfold bind at 1. unfold bind at 1. rewrite (query_up w F).
  rewrite (lengths_ok _ _ _ S).
  unfold bind, gets, modify. cbn [table set_next_id].
  rewrite (uniques_ok _ _ w N). reflexivity.
Qed.

(** With the database up, an input that passes the checks, is not taken
    and fits the model is stored, and the answer is 201. *)
Lemma register_succeeds (req : Request) (w : World) (plaintext : string) :
  body_password req = Some (Text plaintext) ->
  passes_validation req = true ->
  faults w = [] ->
  not_taken (the (body_username req)) (the (body_email req)) w ->
  storable isEmail (the (body_username req)) (the (body_email req))
    (bcrypt_digest bcrypt (entropy w) plaintext 10) ->
  register req w =
    (Ok (registered (new_row bcrypt req w)),
     after_insert (new_row bcrypt req w) w).
Proof.
  intros P V F N ((Hu1 & Hu2) & He & Hl & Hd). validated V.
  unfold new_row. rewrite P. cbn [the_password text].
  destruct (not_taken_email _ _ _ N) as [Fe Xe].
  destruct (not_taken_username _ _ _ N) as [Fu Xu].
  unfold try_catch, bind at 1. rewrite (findUserByEmail_up _ w F), Fe.
  unfold bind at 1. rewrite (findUserByUsername_up _ w F), Fu.
  unfold bind at 1. rewrite bcrypt_hash_run.
  unfold bind at 1. rewrite createUser_up.
  - reflexivity.
  - exact F.
  - exact N.
  - repeat split; assumption.
Qed.

End Register.

Lemma C4_register_persistence_errors_witness :
  fst (registerUser Demo.orm_error emailRegex_test Demo.hasher Demo.signup
         Demo.racing) = Ok internal_error
  /\ fst (registerUser Demo.orm_error emailRegex_test Demo.hasher Demo.signup
            Demo.failing) = Ok internal_error.
Proof.
  split.
  - destruct (C4_register_persistence_errors Demo.orm_error emailRegex_test
                Demo.hasher Demo.signup Demo.racing eq_refl) as (_ & Inside & _).
    rewrite (Inside
               ltac:(split; [intros []; discriminate
                            | intros e [E|[E|[E|[]]]]; try discriminate E;
                              injection E as <-; discriminate])
               Demo.duplicate_key
               (mkWorld [] 1 1000 1 [] [])); [reflexivity|].
    apply (throws_at_insert _ _ _ _ _ _ _ "$wonderland"
             (mkWorld [] 1 1000 1 [Some Demo.duplicate_key] [])).
    + exists (mkWorld [] 1 1000 0 [None; Some Demo.duplicate_key] []),
             (mkWorld [] 1 1000 0 [Some Demo.duplicate_key] []).
      repeat split.
    + reflexivity.
  - destruct (C4_register_persistence_errors Demo.orm_error emailRegex_test
                Demo.hasher Demo.signup Demo.failing eq_refl) as (Catch & _).
    rewrite (Catch Demo.connection_lost (mkWorld [] 1 1000 0 [] []));
      [reflexivity|].
    apply throws_at_email_lookup. reflexivity.
Defined.

Lemma find_In (p : Row -> bool) (rows : list Row) (r : Row) :
  In r rows -> p r = true -> exists r', find p rows = Some r' /\ p r' = true.
Proof.
  induction rows as [|x rows IH]; simpl; [tauto|].
  intros [->|I] P.
  - rewrite P. eauto.
  - destruct (p x) eqn:Px; [eauto | now apply IH].
Qed.

Lemma find_snoc (p : Row -> bool) (rows : list Row) (r : Row) :
  find p rows = None -> p r = true -> find p (rows ++ [r]) = Some r.
Proof.
  induction rows as [|x rows IH]; simpl; intros F P; [now rewrite P|].
  destruct (p x); [discriminate | now apply IH].
Qed.


Section Boundary.

Variable orm_error : Sequelize.Refusal -> JsError.
Variable isEmail : string -> bool.
Variable bcrypt : Hasher.

Local Abbreviation register := (registerUser orm_error isEmail bcrypt).

(** C6. For a registration whose username and email are present, whose
    email has the shape the controller checks, that the model accepts
    (username of 3 to 100 characters, email accepted by isEmail and of at
    most 150) and that are not taken: a password of length 5 is answered
    400; a password of length 6 passes the three checks and, with the
    database up and a digest that fits its column, the user is stored and
    the answer is 201. *)
Theorem C6_password_length_boundary (req : Request) (w : World) (password : string) :
  body_password req = Some (Text password) ->
  falsy (body_username req) = false ->
  falsy (body_email req) = false ->
  emailRegex_test (the (body_email req)) = true ->
  not_taken (the (body_username req)) (the (body_email req)) w ->
  3 <= js_length (the (body_username req)) <= 100 ->
  isEmail (the (body_email req)) = true ->
  js_length (the (body_email req)) <= 150 ->
  (js_length password = 5 ->
     register req w =
       (Ok (mkResponse 400
              (JObj [("error", JStr "Password must be at least 6 characters long")])),
        w))
  /\ (js_length password = 6 ->
      passes_validation req = true /\
      (faults w = [] ->
       js_length (bcrypt_digest bcrypt (entropy w) password 10) <= 255 ->
       register req w =
         (Ok (registered (new_row bcrypt req w)),
          after_insert (new_row bcrypt req w) w) /\
       status (registered (new_row bcrypt req w)) = 201)).
Proof.
  intros P U E R N L I L'.
  assert (Fp : js_length password = 5 \/ js_length password = 6 ->
               falsy_password (body_password req) = false).
  { rewrite P. destruct password; [cbv; lia | reflexivity]. }
  split.
  - intros H5. unfold registerUser. rewrite U, E, (Fp (or_introl H5)), R, P.
    cbn [orb negb the_password shorter_than_6]. rewrite H5. reflexivity.
  - intros H6.
    assert (V : passes_validation req = true).
    { unfold passes_validation. rewrite U, E, (Fp (or_intror H6)), R, P.
      cbn [orb negb andb the_password shorter_than_6]. rewrite H6. reflexivity. }
    split; [exact V|]. intros F D. split; [|reflexivity].
    apply (register_succeeds orm_error isEmail bcrypt req w password);
      try assumption.
    repeat split; try assumption; apply L.
Qed.

(** A lookup answers with a row carrying exactly the string asked for. *)
Lemma findUserByEmail_exact (email : string) (w w' : World) (r : Row) :
  UserModel.findUserByEmail email w = (Ok (Some r), w') ->
  row_email r = email /\ In r (table w).
Proof.
  unfold UserModel.findUserByEmail, Sequelize.findOne_email, query.
  unfold bind, gets, ret.
  destruct (faults w) as [|[e|] rest]; intros H; try discriminate;
    injection H as H _; apply find_some in H; destruct H as [I E];
    (split; [now apply String.eqb_eq | exact I]).
Qed.

Lemma findUserByUsername_exact (username : string) (w w' : World) (r : Row) :
  UserModel.findUserByUsername username w = (Ok (Some r), w') ->
  row_username r = username /\ In r (table w).
Proof.
  unfold UserModel.findUserByUsername, Sequelize.findOne_username, query.
  unfold bind, gets, ret.
  destruct (faults w) as [|[e|] rest]; intros H; try discriminate;
    injection H as H _; apply find_some in H; destruct H as [I E];
    (split; [now apply String.eqb_eq | exact I]).
Qed.


End Boundary.

Lemma C6_password_length_boundary_witness :
  registerUser Demo.orm_error emailRegex_test Demo.hasher
    (Demo.signup_with "12345") Demo.empty
  = (Ok (mkResponse 400
           (JObj [("error", JStr "Password must be at least 6 characters long")])),
     Demo.empty)
  /\ registerUser Demo.orm_error emailRegex_test Demo.hasher
       (Demo.signup_with "123456") Demo.empty
     = (Ok (registered (mkRow 1 "alice" "alice@example.com" "$123456" 1000 1000)),
        mkWorld [mkRow 1 "alice" "alice@example.com" "$123456" 1000 1000]
          2 1000 1 [] []).
Proof.
  split.
  - apply (C6_password_length_boundary Demo.orm_error emailRegex_test Demo.hasher
             (Demo.signup_with "12345") Demo.empty "12345");
      try reflexivity; try (intros r []); try (unfold js_length; simpl; lia).
  - apply (C6_password_length_boundary Demo.orm_error emailRegex_test Demo.hasher
             (Demo.signup_with "123456") Demo.empty "123456");
      try reflexivity; try (intros r []); try (unfold js_length; simpl; lia).
Defined.


(** ** The listing *)

Section Listing.

(** C5, as the code has it.  When the query for the users returns, the
    controller answers 200 and its body is the array of users itself, one
    element per user, with no message and no count beside it; the earlier
    copy of the controller answers 200 with the object
    [{message, count, users}], where count is the number of users. *)
Theorem C5_listing_body (req : Request) (w w' : World)
    (users : list Sequelize.Instance) :
  UserModel.getAllUsers w = (Ok users, w') ->
  getAllUsers req w = (Ok (mkResponse 200 (JArr (map JObj users))), w')
  /\ ~ envelope (JArr (map JObj users))
  /\ getAllUsers_v1 UserModel.getAllUsers req w =
       (Ok (mkResponse 200
              (JObj [("message", JStr "Users retrieved successfully");
                     ("count", JNum (Z.of_nat (length users)));
                     ("users", JArr (map JObj users))])), w')
  /\ envelope (JObj [("message", JStr "Users retrieved successfully");
                     ("count", JNum (Z.of_nat (length users)));
                     ("users", JArr (map JObj users))]).
Proof.
  intros H. repeat split.
  - unfold getAllUsers, try_catch, bind. now rewrite H.
  - intros (m & us & Hm & _). discriminate Hm.
  - unfold getAllUsers_v1, try_catch, bind. now rewrite H.
  - exists "Users retrieved successfully", (map JObj users).
    repeat split. simpl. now rewrite length_map.
Qed.

End Listing.

Lemma C5_listing_body_witness :
  getAllUsers Demo.listing Demo.populated =
    (Ok (mkResponse 200 (JArr [listed Demo.carol; listed Demo.bob; listed Demo.alice])),
     Demo.populated).
Proof.
  apply (C5_listing_body Demo.listing Demo.populated Demo.populated
           (map (Sequelize.select UserModel.public_attributes)
              [Demo.carol; Demo.bob; Demo.alice])).
  reflexivity.
Defined.

(** The current controller answers a successful listing with a bare array:
    there is no [count] field, nor [message], nor [users]. *)
Lemma C5_counterexample :
  exists res,
    getAllUsers Demo.listing Demo.populated = (Ok res, Demo.populated) /\
    status res = 200 /\
    json_field "count" (body res) = None /\
    ~ envelope (body res).
Proof.
  exists (mkResponse 200 (JArr [listed Demo.carol; listed Demo.bob; listed Demo.alice])).
  repeat split.
  intros (m & us & Hm & _). discriminate Hm.
Qed.

(** ** The order of the listing *)

Lemma insert_desc_perm (r : Row) (rows : list Row) :
  Permutation (Sequelize.insert_desc r rows) (r :: rows).
Proof.
  induction rows as [|x rows IH]; simpl; [reflexivity|].
  destruct (_ <=? _); [reflexivity|].
  rewrite IH. apply perm_swap.
Qed.

Lemma order_by_perm (rows : list Row) :
  Permutation (Sequelize.order_by_createdAt_desc rows) rows.
Proof.
  induction rows as [|r rows IH]; simpl; [reflexivity|].
  rewrite insert_desc_perm. now apply perm_skip.
Qed.

Lemma insert_desc_sorted (r : Row) (rows : list Row) :
  StronglySorted newer_first rows ->
  StronglySorted newer_first (Sequelize.insert_desc r rows).
Proof.
  induction 1 as [|x rows S IH F]; simpl.
  - constructor; constructor.
  - destruct (row_createdAt x <=? row_createdAt r) eqn:C.
    + apply Z.leb_le in C. constructor; [now constructor|].
      constructor; [exact C|].
      apply (List.Forall_impl (P := newer_first x)); [|exact F].
      unfold newer_first. intros y Hy. lia.
    + apply Z.leb_gt in C. constructor; [exact IH|].
      eapply Permutation_Forall; [symmetry; apply insert_desc_perm|].
      constructor; [unfold newer_first; lia | exact F].
Qed.

Lemma order_by_sorted (rows : list Row) :
  StronglySorted newer_first (Sequelize.order_by_createdAt_desc rows).
Proof.
  induction rows as [|r rows IH]; simpl; [constructor|].
  now apply insert_desc_sorted.
Qed.

(** Three rows created at increasing times are listed newest first. *)
Lemma order_by_three (a b c : Row) :
  row_createdAt a < row_createdAt b < row_createdAt c ->
  Sequelize.order_by_createdAt_desc [a; b; c] = [c; b; a].
Proof.
  intros [Hab Hbc]. unfold Sequelize.order_by_createdAt_desc. simpl.
  assert (E1 : (row_createdAt c <=? row_createdAt b) = false) by (apply Z.leb_gt; lia).
  assert (E2 : (row_createdAt c <=? row_createdAt a) = false) by (apply Z.leb_gt; lia).
  assert (E3 : (row_createdAt b <=? row_createdAt a) = false) by (apply Z.leb_gt; lia).
  rewrite E1. simpl. rewrite E2, E3. reflexivity.
Qed.

Lemma map_select_listed (rows : list Row) :
  map JObj (map (Sequelize.select UserModel.public_attributes) rows) =
  map listed rows.
Proof. rewrite map_map. reflexivity. Qed.

(** What the query for the users returns, when it returns. *)
Lemma getAllUsers_returns (w w' : World) (users : list Sequelize.Instance) :
  UserModel.getAllUsers w = (Ok users, w') ->
  table w' = table w /\
  users = map (Sequelize.select UserModel.public_attributes)
            (Sequelize.order_by_createdAt_desc (table w)).
Proof.
  unfold UserModel.getAllUsers, Sequelize.findAll_createdAt_desc, query.
  unfold bind, gets, ret.
  destruct (faults w) as [|[e|] rest]; intros H; try discriminate;
    injection H as <- <-; split; reflexivity.
Qed.

Lemma getAllUsers_up (w : World) :
  faults w = [] ->
  UserModel.getAllUsers w =
    (Ok (map (Sequelize.select UserModel.public_attributes)
           (Sequelize.order_by_createdAt_desc (table w))), w).
Proof.
  intros F. unfold UserModel.getAllUsers, Sequelize.findAll_createdAt_desc, query.
  unfold bind, gets, ret. now rewrite F.
Qed.

(** The listing controller answers 200 exactly when the query returned. *)
Lemma listing_200 (req : Request) (w w' : World) (res : Response) :
  getAllUsers req w = (Ok res, w') -> status res = 200 ->
  exists users, UserModel.getAllUsers w = (Ok users, w') /\
                res = mkResponse 200 (JArr (map JObj users)).
Proof.
  unfold getAllUsers, try_catch, bind.
  destruct (UserModel.getAllUsers w) as [[users|e] w1].
  - intros H _. injection H as <- <-. now exists users.
  - intros H S. injection H as <- _. discriminate S.
Qed.

(** ** What a successful registration leaves behind *)

Lemma bind_Ok {S A B : Type} (m : M S A) (k : A -> M S B) (s s' : S) (b : B) :
  bind m k s = (Ok b, s') ->
  exists a s1, m s = (Ok a, s1) /\ k a s1 = (Ok b, s').
Proof.
  unfold bind. destruct (m s) as [[a|e] s1]; intros H; [|discriminate].
  now exists a, s1.
Qed.

(** [bcrypt.hash] resolves for a string only, with the digest for the salt
    it drew. *)
Lemma bcrypt_hash_returns (h : Hasher) (password : Password) (rounds : Z)
    (w w' : World) (d : string) :
  bcrypt_hash h password rounds w = (Ok d, w') ->
  exists plaintext,
    password = Text plaintext /\
    d = bcrypt_digest h (entropy w) plaintext rounds /\
    w' = set_entropy (entropy w + 1) w.
Proof.
  unfold bcrypt_hash. destruct password as [plaintext|n|b|items];
    try discriminate.
  unfold bind, gets, modify, ret. intros H. injection H as <- <-.
  now exists plaintext.
Qed.

Lemma query_returns (w w' : World) : query w = (Ok tt, w') -> same_data w w'.
Proof.
  unfold query. destruct (faults w) as [|[e|] rest]; intros H; try discriminate;
    injection H as <-; repeat split.
Qed.

Lemma findUserByEmail_returns (email : string) (w w' : World) (o : option Row) :
  UserModel.findUserByEmail email w = (Ok o, w') -> same_data w w'.
Proof.
  unfold UserModel.findUserByEmail, Sequelize.findOne_email. intros H.
  apply bind_Ok in H. destruct H as ([] & w1 & Hq & H).
  injection H as _ <-. now apply query_returns.
Qed.

Lemma findUserByUsername_returns (username : string) (w w' : World) (o : option Row) :
  UserModel.findUserByUsername username w = (Ok o, w') -> same_data w w'.
Proof.
  unfold UserModel.findUserByUsername, Sequelize.findOne_username. intros H.
  apply bind_Ok in H. destruct H as ([] & w1 & Hq & H).
  injection H as _ <-. now apply query_returns.
Qed.

Section Registered.

Variable orm_error : Sequelize.Refusal -> JsError.
Variable isEmail : string -> bool.
Variable bcrypt : Hasher.

Local Abbreviation register := (registerUser orm_error isEmail bcrypt).

Lemma createUser_returns (username email digest : string) (w w' : World)
    (u : UserModel.NewUser) :
  UserModel.createUser orm_error isEmail username email digest w = (Ok u, w') ->
  u = UserModel.mkNewUser (next_id w) username email (clock w) /\
  table w' =
    (table w ++ [mkRow (next_id w) username email digest (clock w) (clock w)])%list /\
  clock w' = clock w.
Proof.
  unfold UserModel.createUser, Sequelize.create. intros H.
  apply bind_Ok in H. destruct H as (r & w1 & H & Hu).
  injection Hu as <- <-.
  destruct (Sequelize.validate _ _ _); [discriminate|].
  apply bind_Ok in H. destruct H as ([] & wq & Hq & H).
  destruct (query_returns _ _ Hq) as (Ht & Hn & Hc).
  destruct (Sequelize.lengths _ _ _); [discriminate|].
  unfold bind, gets, modify in H. cbn [table set_next_id] in H.
  destruct (Sequelize.uniques _ _ _); [discriminate|].
  unfold ret in H. injection H as <- <-.
  simpl. rewrite Ht, Hn, Hc. repeat split.
Qed.

(** A registration answered 201 has appended one row, created at the time
    of the request and carrying the username and email of the request. *)
Lemma register_201 (req : Request) (w w' : World) (res : Response) :
  register req w = (Ok res, w') -> status res = 201 ->
  exists digest,
    let r := mkRow (next_id w) (the (body_username req)) (the (body_email req))
               digest (clock w) (clock w) in
    res = registered r /\ table w' = (table w ++ [r])%list /\ clock w' = clock w.
Proof.
  unfold registerUser. intros H S.
  destruct (_ || _); [injection H as <- _; discriminate S|].
  destruct (negb _); [injection H as <- _; discriminate S|].
  destruct (shorter_than_6 _); [injection H as <- _; discriminate S|].
  unfold try_catch in H.
  match type of H with
  | match ?body w with _ => _ end = _ => destruct (body w) as [[r|e] wb] eqn:B
  end.
  - injection H as -> ->.
    apply bind_Ok in B. destruct B as (o1 & w1 & F1 & B).
    destruct o1; [injection B as <- _; discriminate S|].
    apply bind_Ok in B. destruct B as (o2 & w2 & F2 & B).
    destruct o2; [injection B as <- _; discriminate S|].
    apply bind_Ok in B. destruct B as (d & w3 & Hh & B).
    apply bind_Ok in B. destruct B as (u & w4 & C & B).
    apply bcrypt_hash_returns in Hh. destruct Hh as (plaintext & _ & -> & ->).
    injection B as <- <-.
    destruct (findUserByEmail_returns _ _ _ _ F1) as (T1 & N1 & C1).
    destruct (findUserByUsername_returns _ _ _ _ F2) as (T2 & N2 & C2).
    destruct (createUser_returns _ _ _ _ _ _ C) as (-> & T4 & C4).
    simpl in T4, C4. rewrite T2, T1, N2, N1, C2, C1 in T4. rewrite C2, C1 in C4.
    eexists. simpl. rewrite N2, N1, C2, C1. repeat split; eassumption.
  - unfold bind, console_error, modify in H.
    destruct (strict_eq _ _); injection H as <- _; discriminate S.
Qed.

(** C7. Whenever the listing is answered 200, its body shows the stored
    users, all of them and each once, most recent first.  After three
    registrations answered 201, of A, then B at a later time, then C at a
    later time still, into an empty table, the listing is [C, B, A]. *)
Theorem C7_listing_order :
  (forall req w w' res,
      getAllUsers req w = (Ok res, w') -> status res = 200 ->
      exists rows,
        Permutation rows (table w) /\
        StronglySorted newer_first rows /\
        body res = JArr (map listed rows))
  /\ (forall req w, faults w = [] ->
      getAllUsers req w =
        (Ok (mkResponse 200
               (JArr (map listed (Sequelize.order_by_createdAt_desc (table w))))),
         w))
  /\ (forall reqA reqB reqC resA resB resC w0 w1 w2 w3 tB tC,
      table w0 = [] ->
      register reqA w0 = (Ok resA, w1) -> status resA = 201 ->
      clock w1 < tB ->
      register reqB (set_clock tB w1) = (Ok resB, w2) -> status resB = 201 ->
      clock w2 < tC ->
      register reqC (set_clock tC w2) = (Ok resC, w3) -> status resC = 201 ->
      exists a b c,
        table w3 = [a; b; c] /\
        resA = registered a /\ resB = registered b /\ resC = registered c /\
        row_username a = the (body_username reqA) /\
        row_username b = the (body_username reqB) /\
        row_username c = the (body_username reqC) /\
        forall req t w4 res,
          getAllUsers req (set_clock t w3) = (Ok res, w4) -> status res = 200 ->
          body res = JArr [listed c; listed b; listed a]).
Proof.
  split; [|split].
  - intros req w w' res H S.
    destruct (listing_200 _ _ _ _ H S) as (users & Hq & ->).
    destruct (getAllUsers_returns _ _ _ Hq) as (_ & ->).
    exists (Sequelize.order_by_createdAt_desc (table w)).
    split; [apply order_by_perm|]. split; [apply order_by_sorted|].
    simpl. now rewrite map_select_listed.
  - intros req w F. unfold getAllUsers, try_catch, bind.
    rewrite (getAllUsers_up w F). unfold respond, ret.
    now rewrite map_select_listed.
  - intros reqA reqB reqC resA resB resC w0 w1 w2 w3 tB tC
      T0 RA SA HB RB SB HC RC SC.
    destruct (register_201 _ _ _ _ RA SA) as (dA & -> & TA & CA).
    destruct (register_201 _ _ _ _ RB SB) as (dB & -> & TB & CB).
    destruct (register_201 _ _ _ _ RC SC) as (dC & -> & TC & CC).
    simpl in TB, CB, TC, CC. rewrite T0 in TA. simpl in TA.
    rewrite TA in TB. simpl in TB. rewrite TB in TC. simpl in TC.
    eexists _, _, _. split; [exact TC|].
    repeat (split; [reflexivity|]).
    intros req t w4 res H S.
    destruct (listing_200 _ _ _ _ H S) as (users & Hq & ->).
    destruct (getAllUsers_returns _ _ _ Hq) as (_ & ->).
    simpl table. rewrite TC, order_by_three; [reflexivity|].
    simpl. lia.
Qed.

End Registered.

(** ** The authorization header *)

Lemma split_space_word (s : string) : has_space s = false -> split_space s = [s].
Proof.
  induction s as [|c s IH]; simpl; [reflexivity|].
  destruct (Ascii.eqb c " "); [discriminate|]. simpl. intros H.
  now rewrite (IH H).
Qed.

Lemma split_space_scheme (scheme rest : string) :
  has_space scheme = false ->
  split_space (scheme +:+ " " +:+ rest) = scheme :: split_space rest.
Proof.
  induction scheme as [|c s IH]; simpl; [reflexivity|].
  destruct (Ascii.eqb c " "); [discriminate|]. simpl. intros H.
  now rewrite (IH H).
Qed.

Lemma scheme_header_nonempty (scheme rest : string) :
  String.eqb (scheme +:+ " " +:+ rest) "" = false.
Proof. destruct scheme; reflexivity. Qed.

Section Header.

Variable JWT_SECRET : string.
Context {codec : Jwt.TokenCodec}.

(** Whatever the scheme word, the second word of the header is the token. *)
Lemma token_of_scheme (scheme token : string) :
  has_space scheme = false -> has_space token = false ->
  token_of (Some (scheme +:+ " " +:+ token)) = Some token.
Proof.
  intros Hs Ht. unfold token_of. rewrite scheme_header_nonempty.
  rewrite (split_space_scheme _ _ Hs), (split_space_word _ Ht). reflexivity.
Qed.

(** The gate reads nothing of the request but the token. *)
Lemma gate_reads_token (req1 req2 : Request) (w : World) :
  token_of (headers_authorization req1) = token_of (headers_authorization req2) ->
  decision (authenticateToken JWT_SECRET req1 w) =
  decision (authenticateToken JWT_SECRET req2 w).
Proof.
  intros E. unfold authenticateToken. rewrite E.
  destruct (falsy _); [reflexivity|].
  unfold try_catch, bind.
  destruct (Jwt.verify _ _ w) as [[d|e] w1]; [|reflexivity].
  destruct (UserModel.findUserById _ w1) as [[[u|]|e] w2]; reflexivity.
Qed.

(** C9. The token is the second word of the authorization header and the
    first word is not looked at.  For a header [<scheme> <token>], whatever
    the scheme word is, the gate hands that token to [verify] and goes by
    its answer: 401 when [verify] throws a JsonWebTokenError or a
    TokenExpiredError, 401 when the userId of the verified claims is not
    known, and [next()] with the stored row as [req.user] when the
    Directory returns the user; in every case it decides as for
    [Bearer <token>].  A header that is not empty and has no space in it is
    answered 401, no token provided, and the world is left as it was,
    whatever the secret and the codec. *)
Theorem C9_scheme_not_checked :
  (forall scheme token req w,
      has_space scheme = false -> has_space token = false -> token <> "" ->
      let presented := set_authorization (Some (scheme +:+ " " +:+ token)) req in
      let gate := authenticateToken JWT_SECRET presented w in
      token_of (Some (scheme +:+ " " +:+ token)) = Some token
      /\ (forall e w1,
            Jwt.verify token JWT_SECRET w = (Throw e, w1) ->
            err_name e = "JsonWebTokenError" ->
            gate = (Ok (unauthenticated "Invalid token"), w1))
      /\ (forall e w1,
            Jwt.verify token JWT_SECRET w = (Throw e, w1) ->
            err_name e = "TokenExpiredError" ->
            gate =
              (Ok (unauthenticated "Token has expired. Please login again."), w1))
      /\ (forall d w1 w2,
            Jwt.verify token JWT_SECRET w = (Ok d, w1) ->
            UserModel.findUserById (Jwt.userId (Jwt.claims d)) w1 = (Ok None, w2) ->
            gate = (Ok (unauthenticated "User not found. Token invalid."), w2))
      /\ (forall d w1 w2 u,
            Jwt.verify token JWT_SECRET w = (Ok d, w1) ->
            UserModel.findUserById (Jwt.userId (Jwt.claims d)) w1 =
              (Ok (Some u), w2) ->
            exists r req',
              In r (table w1) /\ row_id r = Jwt.userId (Jwt.claims d) /\
              gate = (Ok (Next req'), w2) /\
              attaches (user_of_row r) presented req')
      /\ decision gate =
         decision (authenticateToken JWT_SECRET
                     (set_authorization (Some ("Bearer " +:+ token)) req) w))
  /\ (forall header req w,
      header <> "" -> has_space header = false ->
      token_of (Some header) = None /\
      authenticateToken JWT_SECRET (set_authorization (Some header) req) w =
        (Ok (unauthenticated "Access denied. No token provided."), w)).
Proof.
  split.
  - intros scheme token req w Hs Ht Hn presented gate. subst gate.
    pose proof (token_of_scheme scheme token Hs Ht) as T.
    assert (Tp : token_of (headers_authorization presented) = Some token)
      by exact T.
    assert (Fz : falsy (token_of (headers_authorization presented)) = false)
      by (rewrite Tp; now apply String.eqb_neq).
    split; [exact T|].
    split.
    { intros e w1 V N. apply (gate_rejects_invalid _ presented w w1 e);
        [exact Fz | now rewrite Tp | exact N]. }
    split.
    { intros e w1 V N. apply (gate_rejects_expired _ presented w w1 e);
        [exact Fz | now rewrite Tp | exact N]. }
    split.
    { intros d w1 w2 V F. apply (gate_rejects_unknown _ presented w w1 w2 d);
        [exact Fz | now rewrite Tp | exact F]. }
    split.
    { intros d w1 w2 u V F. apply (gate_attaches _ presented w w1 w2 d u);
        [exact Fz | now rewrite Tp | exact F]. }
    apply gate_reads_token. rewrite Tp.
    symmetry. now apply (token_of_scheme "Bearer" token).
  - intros header req w Hn Hs.
    assert (T : token_of (Some header) = None).
    { unfold token_of. apply String.eqb_neq in Hn. rewrite Hn.
      now rewrite (split_space_word _ Hs). }
    split; [exact T|]. unfold authenticateToken, set_authorization.
    cbn [headers_authorization]. now rewrite T.
Qed.

End Header.

(** ** The lifetime of a token *)

Section Lifetime.

Variable bcrypt : Hasher.
Variable JWT_SECRET : string.
Context {codec : Jwt.TokenCodec}.

(** A login answered 200 found a stored user, passed the comparison and
    issued a token for that user at the time of the request. *)
Lemma login_200 (req : Request) (w w' : World) (res : Response) :
  loginUser bcrypt JWT_SECRET req w = (Ok res, w') -> status res = 200 ->
  exists user,
    In user (table w) /\
    bcrypt_compare bcrypt (text (body_password req)) (row_password user) = true /\
    json_field "token" (body res) =
      Some (JStr (Jwt.tc_encode JWT_SECRET (issued user (clock w)))).
Proof.
  unfold loginUser. intros H S.
  destruct (_ || _); [injection H as <- _; discriminate S|].
  unfold try_catch in H.
  match type of H with
  | match ?body w with _ => _ end = _ => destruct (body w) as [[r|e] wb] eqn:B
  end.
  - injection H as -> ->.
    apply bind_Ok in B. destruct B as (o & w1 & F & B).
    destruct (findUserByEmail_returns _ _ _ _ F) as (T1 & _ & C1).
    destruct o as [user|]; [|injection B as <- _; discriminate S].
    unfold UserModel.findUserByEmail, Sequelize.findOne_email in F.
    apply bind_Ok in F. destruct F as ([] & wq & Hq & F).
    injection F as F _. apply find_some in F. destruct F as [Hin _].
    destruct (query_returns _ _ Hq) as (Tq & _).
    rewrite Tq in Hin.
    apply bind_Ok in B. destruct B as (v & w2 & Cmp & B).
    assert (V : v = bcrypt_compare bcrypt (text (body_password req))
                      (row_password user) /\ w2 = w1).
    { unfold compare in Cmp.
      destruct (body_password req) as [[s|n|b|items]|];
        cbn [the_password text] in *; try discriminate Cmp;
        now injection Cmp as <- <-. }
    destruct V as [-> ->].
    destruct (bcrypt_compare _ _ _) eqn:V;
      [|injection B as <- _; discriminate S].
    simpl in B. unfold bind, Jwt.sign, gets, ret, respond in B.
    injection B as <- _. exists user. rewrite C1.
    repeat split; assumption.
  - unfold bind, console_error, modify in H.
    injection H as <- _. discriminate S.
Qed.

Lemma bearer_token (secret : string) (d : Jwt.Decoded) :
  token_of (Some ("Bearer " +:+ Jwt.tc_encode secret d)) =
    Some (Jwt.tc_encode secret d) /\
  falsy (Some (Jwt.tc_encode secret d)) = false.
Proof.
  destruct (Jwt.tc_compact secret d) as [Hn Hs]. split.
  - now apply (token_of_scheme "Bearer").
  - now apply String.eqb_neq.
Qed.

(** C8. The token of a login answered 200 is issued for the user found, at
    the time of the request, and expires 24 hours later.  Presented to the
    gate at any time up to that instant, in a world where the Directory
    still returns the account, it is let through with the stored row as
    [req.user]; presented at any later time it is answered 401, token
    expired. *)
Theorem C8_token_lifetime (req : Request) (w w' : World) (res : Response) :
  loginUser bcrypt JWT_SECRET req w = (Ok res, w') -> status res = 200 ->
  exists user token,
    In user (table w) /\
    json_field "token" (body res) = Some (JStr token) /\
    Jwt.tc_decode JWT_SECRET token = Some (issued user (clock w)) /\
    Jwt.expiresAt (issued user (clock w)) =
      Jwt.issuedAt (issued user (clock w)) + 24 * 60 * 60 * 1000 /\
    forall (greq : Request) (wv : World),
      let presented := set_authorization (Some ("Bearer " +:+ token)) greq in
      (clock wv <= clock w + Jwt.hours24 ->
       forall u wv',
         UserModel.findUserById (row_id user) wv = (Ok (Some u), wv') ->
         exists r,
           In r (table wv) /\ row_id r = row_id user /\
           authenticateToken JWT_SECRET presented wv =
             (Ok (Next (set_req_user
                          (mkReqUser (Some (JNum (row_id r)))
                                     (Some (JStr (row_email r)))
                                     (Some (JStr (row_username r))))
                          presented)), wv'))
      /\ (clock w + Jwt.hours24 < clock wv ->
          authenticateToken JWT_SECRET presented wv =
            (Ok (unauthenticated "Token has expired. Please login again."), wv)).
Proof.
  intros H S. destruct (login_200 req w w' res H S) as (user & Hin & _ & Ht).
  exists user, (Jwt.tc_encode JWT_SECRET (issued user (clock w))).
  split; [exact Hin|]. split; [exact Ht|].
  split; [apply Jwt.tc_decode_encode|]. split; [reflexivity|].
  intros greq wv presented.
  destruct (bearer_token JWT_SECRET (issued user (clock w))) as [T Fz].
  assert (Tp : token_of (headers_authorization presented) =
               Some (Jwt.tc_encode JWT_SECRET (issued user (clock w))))
    by exact T.
  split.
  - intros Hc u wv' F.
    apply (gate_lets_through JWT_SECRET presented wv wv wv' (issued user (clock w)) u).
    + now rewrite Tp.
    + rewrite Tp. cbn [the]. unfold Jwt.verify.
      rewrite Jwt.tc_decode_encode. unfold bind, gets.
      assert (E : (Jwt.expiresAt (issued user (clock w)) <? clock wv) = false)
        by (apply Z.ltb_ge; exact Hc).
      now rewrite E.
    + exact F.
  - intros Hc. apply (gate_rejects_expired _ _ _ _ Jwt.TokenExpiredError).
    + now rewrite Tp.
    + rewrite Tp. cbn [the]. unfold Jwt.verify.
      rewrite Jwt.tc_decode_encode. unfold bind, gets.
      assert (E : (Jwt.expiresAt (issued user (clock w)) <? clock wv) = true)
        by (apply Z.ltb_lt; exact Hc).
      now rewrite E.
    + reflexivity.
Qed.

End Lifetime.

(** ** The service at work *)

Lemma C1_auth_gate_witness :
  let token := Jwt.tc_encode (TokenCodec := Reference.codec) Demo.secret
                 (issued Demo.alice 5000) in
  authenticateToken (codec := Reference.codec) Demo.secret
    (Demo.with_header token) Demo.populated
  = (Ok (unauthenticated "Access denied. No token provided."), Demo.populated)
  /\ exists r req',
      In r (table Demo.populated) /\ row_id r = 1 /\
      authenticateToken (codec := Reference.codec) Demo.secret
        (Demo.with_header ("Bearer " +:+ token)) Demo.populated
      = (Ok (Next req'), Demo.populated) /\
      attaches (user_of_row r) (Demo.with_header ("Bearer " +:+ token)) req'.
Proof.
  intros token. split.
  - destruct (C1_auth_gate (codec := Reference.codec) Demo.secret
                (Demo.with_header token) Demo.populated) as (NoToken & _).
    apply NoToken. vm_compute. reflexivity.
  - destruct (C1_auth_gate (codec := Reference.codec) Demo.secret
                (Demo.with_header ("Bearer " +:+ token)) Demo.populated)
      as (_ & _ & _ & _ & _ & Through).
    apply (Through ltac:(vm_compute; reflexivity) (issued Demo.alice 5000)
             Demo.populated Demo.populated
             (Sequelize.select UserModel.public_attributes Demo.alice));
      vm_compute; reflexivity.
Defined.

(** The claim's four refusals do not exhaust what the gate refuses.  Here
    the header carries a token, the token verifies and is not expired, and
    the userId of its claims is the id of a stored user; the lookup in the
    Directory throws, and the gate answers 500 without calling [next()]. *)
Lemma C1_counterexample :
  let d := issued Demo.alice 5000 in
  let token := Jwt.tc_encode (TokenCodec := Reference.codec) Demo.secret d in
  let req := Demo.with_header ("Bearer " +:+ token) in
  let w := set_faults [Some Demo.connection_lost] Demo.populated in
  token_of (headers_authorization req) = Some token /\
  Jwt.verify (codec := Reference.codec) token Demo.secret w = (Ok d, w) /\
  In Demo.alice (table w) /\
  row_id Demo.alice = Jwt.userId (Jwt.claims d) /\
  authenticateToken (codec := Reference.codec) Demo.secret req w =
    (Ok (Responded
           (mkResponse 500
              (JObj [("error", JStr "Server error during authentication")]))),
     logged AuthenticationError Demo.connection_lost Demo.populated).
Proof.
  repeat split; try (vm_compute; reflexivity). now left.
Qed.

Lemma C7_listing_order_witness :
  exists w3,
    table w3 =
      [mkRow 1 "alice" "alice@example.com" "$wonderland" 1000 1000;
       mkRow 2 "bob" "bob@example.com" "%builder" 2000 2000;
       mkRow 3 "carol" "carol@example.com" "$singer" 3000 3000] /\
    getAllUsers Demo.listing (set_clock 4000 w3) =
      (Ok (mkResponse 200
             (JArr [listed (mkRow 3 "carol" "carol@example.com" "$singer" 3000 3000);
                    listed (mkRow 2 "bob" "bob@example.com" "%builder" 2000 2000);
                    listed (mkRow 1 "alice" "alice@example.com" "$wonderland"
                              1000 1000)])),
       set_clock 4000 w3).
Proof.
  pose (ra := mkRow 1 "alice" "alice@example.com" "$wonderland" 1000 1000).
  pose (rb := mkRow 2 "bob" "bob@example.com" "%builder" 2000 2000).
  pose (rc := mkRow 3 "carol" "carol@example.com" "$singer" 3000 3000).
  pose (w1 := mkWorld [ra] 2 1000 1 [] []).
  pose (w2 := mkWorld [ra; rb] 3 2000 2 [] []).
  pose (w3 := mkWorld [ra; rb; rc] 4 3000 3 [] []).
  exists w3. split; [reflexivity|].
  destruct (C7_listing_order Demo.orm_error emailRegex_test Demo.hasher)
    as (_ & Up & Three).
  destruct (Three Demo.signup Demo.signup_bob Demo.signup_carol
              (registered ra) (registered rb) (registered rc)
              Demo.empty w1 w2 w3 2000 3000
              eq_refl eq_refl eq_refl ltac:(simpl; lia)
              eq_refl eq_refl ltac:(simpl; lia) eq_refl eq_refl)
    as (a & b & c & T & _ & _ & _ & _ & _ & _ & L).
  injection T as <- <- <-.
  assert (R := Up Demo.listing (set_clock 4000 w3) eq_refl).
  rewrite R.
  exact (f_equal (fun b => (Ok (mkResponse 200 b), set_clock 4000 w3))
           (L _ _ _ _ R eq_refl)).
Defined.

Lemma C8_token_lifetime_witness :
  let token := Jwt.tc_encode (TokenCodec := Reference.codec) Demo.secret
                 (issued Demo.alice 5000) in
  let presented := Demo.with_header ("Bearer " +:+ token) in
  authenticateToken (codec := Reference.codec) Demo.secret presented
    (set_clock (5000 + Jwt.hours24 + 1) Demo.populated)
  = (Ok (unauthenticated "Token has expired. Please login again."),
     set_clock (5000 + Jwt.hours24 + 1) Demo.populated)
  /\ exists r,
      authenticateToken (codec := Reference.codec) Demo.secret presented
        (set_clock (5000 + Jwt.hours24) Demo.populated)
      = (Ok (Next (set_req_user
                     (mkReqUser (Some (JNum (row_id r))) (Some (JStr (row_email r)))
                        (Some (JStr (row_username r))))
                     presented)),
         set_clock (5000 + Jwt.hours24) Demo.populated).
Proof.
  intros token presented.
  pose (res := mkResponse 200
                 (JObj [("message", JStr "Login successful");
                        ("token", JStr token);
                        ("user", JObj [("id", JNum 1); ("username", JStr "alice");
                                       ("email", JStr "alice@example.com")])])).
  assert (H : loginUser (codec := Reference.codec) Demo.hasher Demo.secret
                Demo.login_alice Demo.populated = (Ok res, Demo.populated))
    by (vm_compute; reflexivity).
  destruct (C8_token_lifetime (codec := Reference.codec) Demo.hasher
              Demo.secret Demo.login_alice Demo.populated Demo.populated res
              H eq_refl)
    as (user & tok & _ & Ht & Hd & _ & G).
  change (Some (JStr token) = Some (JStr tok)) in Ht.
  injection Ht as <-.
  assert (Eu : row_id user = 1).
  { unfold token in Hd. rewrite Jwt.tc_decode_encode in Hd.
    injection Hd as Hid _ _. symmetry. exact Hid. }
  specialize (G (Demo.with_header "") ). split.
  - destruct (G (set_clock (5000 + Jwt.hours24 + 1) Demo.populated)) as (_ & Late).
    apply Late. simpl. lia.
  - destruct (G (set_clock (5000 + Jwt.hours24) Demo.populated)) as (Early & _).
    destruct (Early ltac:(simpl; lia)
                (Sequelize.select UserModel.public_attributes Demo.alice)
                (set_clock (5000 + Jwt.hours24) Demo.populated))
      as (r & _ & _ & Hr).
    + rewrite Eu. reflexivity.
    + exists r. exact Hr.
Defined.

Lemma C9_scheme_not_checked_witness :
  let token := Jwt.tc_encode (TokenCodec := Reference.codec) Demo.secret
                 (issued Demo.alice 5000) in
  let presented :=
    set_authorization (Some ("Token" +:+ " " +:+ token))
      (Demo.with_header "") in
  (exists r req',
      In r (table Demo.populated) /\ row_id r = 1 /\
      authenticateToken (codec := Reference.codec) Demo.secret presented
        Demo.populated = (Ok (Next req'), Demo.populated) /\
      attaches (user_of_row r) presented req')
  /\ authenticateToken (codec := Reference.codec) Demo.secret
       (set_authorization (Some ("Token" +:+ " " +:+ "abc")) (Demo.with_header ""))
       Demo.populated
     = (Ok (unauthenticated "Invalid token"), Demo.populated)
  /\ authenticateToken (codec := Reference.codec) Demo.secret
       (set_authorization (Some "abc") Demo.listing) Demo.populated
     = (Ok (unauthenticated "Access denied. No token provided."), Demo.populated).
Proof.
  intros token presented.
  destruct (C9_scheme_not_checked (codec := Reference.codec) Demo.secret)
    as (Scheme & Bare).
  split; [|split].
  - destruct (Scheme "Token" token (Demo.with_header "") Demo.populated)
      as (_ & _ & _ & _ & Through & _);
      [reflexivity | vm_compute; reflexivity
      | apply (Jwt.tc_compact (TokenCodec := Reference.codec)) |].
    apply (Through (issued Demo.alice 5000) Demo.populated Demo.populated
             (Sequelize.select UserModel.public_attributes Demo.alice));
      vm_compute; reflexivity.
  - destruct (Scheme "Token" "abc" (Demo.with_header "") Demo.populated)
      as (_ & Invalid & _); [reflexivity | reflexivity | discriminate |].
    apply (Invalid Jwt.JsonWebTokenError Demo.populated);
      vm_compute; reflexivity.
  - apply (Bare "abc" Demo.listing Demo.populated); [discriminate | reflexivity].
Defined.

Lemma C2_password_never_exposed_witness :
  fst (getAllUsers Demo.listing (scrub (fun _ => "") Demo.populated)) =
  fst (getAllUsers Demo.listing Demo.populated)
  /\ fst (registerUser Demo.orm_error emailRegex_test Demo.hasher Demo.signup_Alice
            (scrub (fun r => row_username r) Demo.populated)) =
     fst (registerUser Demo.orm_error emailRegex_test Demo.hasher Demo.signup_Alice
            Demo.populated).
Proof.
  destruct (C2_password_never_exposed Demo.orm_error emailRegex_test Demo.hasher
              Demo.secret Reference.codec Demo.listing) as (_ & _ & _ & Listing).
  destruct (C2_password_never_exposed Demo.orm_error emailRegex_test Demo.hasher
              Demo.secret Reference.codec Demo.signup_Alice)
    as (_ & Registration & _).
  split.
  - apply Listing, scrub_low_eq.
  - apply Registration; [reflexivity | apply scrub_low_eq].
Defined.

(** * Further properties of the code *)

(** ** Frames: what a computation leaves alone *)

Lemma same_store_refl (w : World) : same_store w w.
Proof. repeat split. Qed.

Lemma same_store_trans (w1 w2 w3 : World) :
  same_store w1 w2 -> same_store w2 w3 -> same_store w1 w3.
Proof.
  intros (T1 & N1 & C1 & E1) (T2 & N2 & C2 & E2).
  repeat split; congruence.
Qed.

Section Keeps.

Variable R : World -> World -> Prop.
Hypothesis R_refl : forall w, R w w.
Hypothesis R_trans : forall w1 w2 w3, R w1 w2 -> R w2 w3 -> R w1 w3.

Lemma keeps_ret {A : Type} (a : A) : keeps R (ret a).
Proof. intros w. apply R_refl. Qed.

Lemma keeps_throw {A : Type} (e : JsError) : keeps R (throw e : M World A).
Proof. intros w. apply R_refl. Qed.

Lemma keeps_gets {A : Type} (f : World -> A) : keeps R (gets f).
Proof. intros w. apply R_refl. Qed.

Lemma keeps_bind {A B : Type} (m : M World A) (k : A -> M World B) :
  keeps R m -> (forall a, keeps R (k a)) -> keeps R (bind m k).
Proof.
  intros Hm Hk w. unfold bind. specialize (Hm w).
  destruct (m w) as [[a|e] w1]; simpl in *.
  - eapply R_trans; [exact Hm | apply Hk].
  - exact Hm.
Qed.

Lemma keeps_try_catch {A : Type} (body : M World A) (handler : JsError -> M World A) :
  keeps R body -> (forall e, keeps R (handler e)) -> keeps R (try_catch body handler).
Proof.
  intros Hb Hh w. unfold try_catch. specialize (Hb w).
  destruct (body w) as [[a|e] w1]; simpl in *.
  - exact Hb.
  - eapply R_trans; [exact Hb | apply Hh].
Qed.

End Keeps.

Lemma query_same_store : keeps same_store query.
Proof.
  intros w. unfold query. destruct (faults w) as [|[e|] rest]; repeat split.
Qed.

Lemma console_error_same_store (tag : LogTag) (e : JsError) :
  keeps same_store (console_error tag e).
Proof. intros w. repeat split. Qed.

(** One step of frame reasoning for [same_store]. *)
Ltac frame_step :=
  first
    [ apply (keeps_bind same_store same_store_trans); [|intro]
    | apply (keeps_try_catch same_store same_store_trans); [|intro]
    | apply (keeps_ret same_store same_store_refl)
    | apply (keeps_throw same_store same_store_refl)
    | apply (keeps_gets same_store same_store_refl)
    | apply query_same_store
    | apply console_error_same_store ].

Ltac frame := repeat frame_step.

Lemma findUserByEmail_same_store (email : string) :
  keeps same_store (UserModel.findUserByEmail email).
Proof. unfold UserModel.findUserByEmail, Sequelize.findOne_email. frame. Qed.

Lemma findUserByUsername_same_store (username : string) :
  keeps same_store (UserModel.findUserByUsername username).
Proof. unfold UserModel.findUserByUsername, Sequelize.findOne_username. frame. Qed.

Lemma findUserById_same_store (id : Z) : keeps same_store (UserModel.findUserById id).
Proof. unfold UserModel.findUserById, Sequelize.findByPk. frame. Qed.

Lemma getAllUsers_same_store : keeps same_store UserModel.getAllUsers.
Proof. unfold UserModel.getAllUsers, Sequelize.findAll_createdAt_desc. frame. Qed.

Section ReadOnly.

Variable bcrypt : Hasher.
Variable JWT_SECRET : string.
Context {codec : Jwt.TokenCodec}.

Lemma loginUser_same_store (req : Request) :
  keeps same_store (loginUser bcrypt JWT_SECRET req).
Proof.
  unfold loginUser. destruct (_ || _); [unfold respond_error, respond; frame|].
  frame_step.
  - frame_step; [apply findUserByEmail_same_store|].
    destruct a as [user|]; [|unfold respond_error, respond; frame].
    frame_step; [unfold compare; destruct (the_password _); frame|].
    destruct (negb _); [unfold respond_error, respond; frame|].
    unfold Jwt.sign, respond. frame.
  - unfold respond_error, respond. frame.
Qed.

Lemma authenticateToken_same_store (req : Request) :
  keeps same_store (authenticateToken JWT_SECRET req).
Proof.
  unfold authenticateToken. destruct (falsy _); [unfold deny; frame|].
  frame_step.
  - frame_step.
    + unfold Jwt.verify. destruct (Jwt.tc_decode _ _); [|frame].
      frame_step; [frame|]. destruct (_ <? _); frame.
    + frame_step; [apply findUserById_same_store|].
      destruct a0; unfold deny; frame.
  - destruct (String.eqb _ _); [unfold deny; frame|].
    destruct (String.eqb _ _); unfold deny; frame.
Qed.

Lemma getAllUsers_handler_same_store (req : Request) :
  keeps same_store (getAllUsers req).
Proof.
  unfold getAllUsers. frame_step.
  - frame_step; [apply getAllUsers_same_store|]. unfold respond. frame.
  - unfold respond_error, respond. frame.
Qed.

(** X1. Login, the listing and the gate only read: whatever the request and
    whatever happens, they leave the rows, the id sequence, the clock and
    the salt source as they found them. *)
Theorem X1_readers_leave_the_store (req : Request) (w : World) :
  same_store w (snd (loginUser bcrypt JWT_SECRET req w)) /\
  same_store w (snd (getAllUsers req w)) /\
  same_store w (snd (authenticateToken JWT_SECRET req w)).
Proof.
  split; [|split].
  - apply loginUser_same_store.
  - apply getAllUsers_handler_same_store.
  - apply authenticateToken_same_store.
Qed.

End ReadOnly.

(** ** Every run of a registration *)

Lemma bind_inv {S A B : Type} (m : M S A) (k : A -> M S B) (s s' : S)
    (o : outcome B) :
  bind m k s = (o, s') ->
  (exists e, m s = (Throw e, s') /\ o = Throw e) \/
  (exists a s1, m s = (Ok a, s1) /\ k a s1 = (o, s')).
Proof.
  unfold bind. destruct (m s) as [[a|e] s1]; intros H.
  - right. now exists a, s1.
  - left. injection H as <- <-. now exists e.
Qed.

Lemma same_store_of_run {A : Type} (m : M World A) (w w' : World) (o : outcome A) :
  keeps same_store m -> m w = (o, w') -> same_store w w'.
Proof. intros K H. specialize (K w). now rewrite H in K. Qed.

Lemma findUserByEmail_found (email : string) (w w' : World) (o : option Row) :
  UserModel.findUserByEmail email w = (Ok o, w') ->
  o = find (fun r => String.eqb (row_email r) email) (table w).
Proof.
  unfold UserModel.findUserByEmail, Sequelize.findOne_email, query.
  unfold bind, gets, ret.
  destruct (faults w) as [|[e|] rest]; intros H; try discriminate;
    now injection H as <- _.
Qed.

Lemma findUserByUsername_found (username : string) (w w' : World) (o : option Row) :
  UserModel.findUserByUsername username w = (Ok o, w') ->
  o = find (fun r => String.eqb (row_username r) username) (table w).
Proof.
  unfold UserModel.findUserByUsername, Sequelize.findOne_username, query.
  unfold bind, gets, ret.
  destruct (faults w) as [|[e|] rest]; intros H; try discriminate;
    now injection H as <- _.
Qed.

Section Runs.

Variable orm_error : Sequelize.Refusal -> JsError.
Variable isEmail : string -> bool.
Variable bcrypt : Hasher.

Local Abbreviation register := (registerUser orm_error isEmail bcrypt).

(** Every run of [User.create]: it throws and stores nothing, or it passes
    the validators and the constraints and appends the row. *)
Lemma create_inv (username email digest : string) (w w' : World) (o : outcome Row) :
  Sequelize.create orm_error isEmail username email digest w = (o, w') ->
  (nothing_stored w w' /\ entropy w' = entropy w /\ exists err, o = Throw err) \/
  (let r := mkRow (next_id w) username email digest (clock w) (clock w) in
   o = Ok r /\ table w' = (table w ++ [r])%list /\ next_id w' = next_id w + 1 /\
   clock w' = clock w /\ entropy w' = entropy w /\
   Sequelize.validate isEmail username email = None /\
   Sequelize.constraints (table w) username email digest = None).
Proof.
  unfold Sequelize.create. intros H.
  destruct (Sequelize.validate _ _ _) eqn:V.
  { left. injection H as <- <-. repeat split; eauto; lia. }
  apply bind_inv in H. destruct H as [(e & Hq & ->) | ([] & wq & Hq & H)].
  { left. destruct (same_store_of_run _ _ _ _ query_same_store Hq)
      as (Tq & Nq & Cq & Eq).
    repeat split; eauto; lia. }
  pose proof (same_store_of_run _ _ _ _ query_same_store Hq) as (Tq & Nq & Cq & Eq).
  unfold Sequelize.constraints.
  destruct (Sequelize.lengths _ _ _) eqn:L.
  { left. injection H as <- <-. repeat split; eauto; lia. }
  unfold bind, gets, modify in H. cbn [table set_next_id] in H.
  destruct (Sequelize.uniques _ _ _) eqn:U.
  { left. injection H as <- <-. unfold nothing_stored.
    cbn [table clock next_id entropy set_next_id]. rewrite Tq, Nq, Cq, Eq.
    repeat split; eauto; lia. }
  right. unfold ret in H. injection H as <- <-.
  cbn. rewrite Tq, Nq, Cq, Eq in *. rewrite U. repeat split; assumption.
Qed.

(** Every run of [registerUser]: it answers, and either the answer is not
    201 and nothing was stored, or the input passed the checks, both lookups
    found nothing, the model accepted the row, and the answer is 201 for the
    one row appended. *)
Lemma register_runs (req : Request) (w w' : World) (o : outcome Response) :
  register req w = (o, w') ->
  exists res, o = Ok res /\
    ((status res <> 201 /\ nothing_stored w w') \/
     (passes_validation req = true /\
      (exists plaintext, body_password req = Some (Text plaintext)) /\
      find (fun r => String.eqb (row_email r) (the (body_email req))) (table w)
        = None /\
      find (fun r => String.eqb (row_username r) (the (body_username req))) (table w)
        = None /\
      Sequelize.validate isEmail (the (body_username req)) (the (body_email req))
        = None /\
      Sequelize.constraints (table w) (the (body_username req))
        (the (body_email req)) (row_password (new_row bcrypt req w)) = None /\
      res = registered (new_row bcrypt req w) /\
      table w' = (table w ++ [new_row bcrypt req w])%list /\
      next_id w' = next_id w + 1 /\ clock w' = clock w)).
Proof.
  assert (Same : nothing_stored w w) by (repeat split; lia).
  unfold registerUser, passes_validation. intros H.
  destruct (_ || _) eqn:P0;
    [injection H as <- <-; eexists; split; [reflexivity|];
     left; split; [discriminate | exact Same]|].
  destruct (emailRegex_test _);
    [|injection H as <- <-; eexists; split; [reflexivity|];
      left; split; [discriminate | exact Same]].
  destruct (shorter_than_6 _);
    [injection H as <- <-; eexists; split; [reflexivity|];
     left; split; [discriminate | exact Same]|].
  cbn [negb andb] in *. unfold try_catch in H.
  match type of H with
  | match ?body w with _ => _ end = _ => destruct (body w) as [[r|e] wb] eqn:B
  end.
  - injection H as <- <-. exists r. split; [reflexivity|].
    apply bind_inv in B. destruct B as [(e & _ & E) | (o1 & w1 & F1 & B)];
      [discriminate E|].
    pose proof (same_store_of_run _ _ _ _ (findUserByEmail_same_store _) F1)
      as (T1 & N1 & C1 & E1).
    apply findUserByEmail_found in F1.
    destruct o1 as [row|].
    { injection B as <- <-. left.
      split; [discriminate | repeat split; try assumption; lia]. }
    apply bind_inv in B. destruct B as [(e & _ & E) | (o2 & w2 & F2 & B)];
      [discriminate E|].
    pose proof (same_store_of_run _ _ _ _ (findUserByUsername_same_store _) F2)
      as (T2 & N2 & C2 & E2).
    apply findUserByUsername_found in F2. rewrite T1 in F2.
    destruct o2 as [row|].
    { injection B as <- <-. left.
      split; [discriminate | repeat split; try congruence; lia]. }
    apply bind_inv in B. destruct B as [(e & _ & E) | (d & w3 & Hh & B)];
      [discriminate E|].
    apply bcrypt_hash_returns in Hh. destruct Hh as (plaintext & Hp & -> & ->).
    assert (Pw : body_password req = Some (Text plaintext)).
    { destruct (body_password req) as [p|]; cbn [the_password] in Hp.
      - now rewrite Hp.
      - injection Hp as <-. apply orb_false_iff in P0. destruct P0 as [_ P0].
        discriminate P0. }
    apply bind_inv in B. destruct B as [(e & _ & E) | (u & w4 & C & B)];
      [discriminate E|].
    injection B as <- <-.
    unfold UserModel.createUser in C.
    apply bind_inv in C. destruct C as [(e & _ & E) | (row & w5 & C & Hu)];
      [discriminate E|].
    injection Hu as <- <-.
    apply create_inv in C. destruct C as [(_ & _ & err & E) | C]; [discriminate E|].
    cbv zeta in C. destruct C as (Er & T & N & Ck & _ & V & K).
    injection Er as ->. simpl in T, N, Ck, K.
    rewrite T2, T1 in T, K. rewrite N2, N1 in *. rewrite C2, C1 in *.
    rewrite E2, E1 in *.
    right. unfold new_row. rewrite Pw. cbn [text row_password].
    repeat split; try assumption; try (symmetry; assumption).
    now exists plaintext.
  - assert (S : nothing_stored w wb).
    { apply bind_inv in B. destruct B as [(e0 & F1 & _) | (o1 & w1 & F1 & B)].
      { pose proof (same_store_of_run _ _ _ _ (findUserByEmail_same_store _) F1)
          as (T1 & N1 & C1 & _). repeat split; try assumption; lia. }
      pose proof (same_store_of_run _ _ _ _ (findUserByEmail_same_store _) F1)
        as (T1 & N1 & C1 & E1).
      destruct o1 as [row|]; [discriminate B|].
      apply bind_inv in B. destruct B as [(e0 & F2 & _) | (o2 & w2 & F2 & B)].
      { pose proof (same_store_of_run _ _ _ _ (findUserByUsername_same_store _) F2)
          as (T2 & N2 & C2 & _). repeat split; try congruence; lia. }
      pose proof (same_store_of_run _ _ _ _ (findUserByUsername_same_store _) F2)
        as (T2 & N2 & C2 & E2).
      destruct o2 as [row|]; [discriminate B|].
      apply bind_inv in B. destruct B as [(e0 & Hh & _) | (d & w3 & Hh & B)].
      { unfold bcrypt_hash in Hh.
        destruct (the_password _); try discriminate Hh;
          injection Hh as _ <-; repeat split; try congruence; lia. }
      apply bcrypt_hash_returns in Hh. destruct Hh as (plaintext & _ & -> & ->).
      apply bind_inv in B. destruct B as [(e0 & C & _) | (u & w4 & _ & B)];
        [|discriminate B].
      unfold UserModel.createUser in C.
      apply bind_inv in C. destruct C as [(e1 & C & _) | (row & w5 & _ & Hu)];
        [|discriminate Hu].
      apply create_inv in C. destruct C as [((T & Ck & N) & _) | C];
        [|cbv zeta in C; destruct C as (E & _); discriminate E].
      simpl in T, N, Ck. repeat split; try congruence; lia. }
    unfold bind, console_error, modify in H.
    destruct (strict_eq _ _); injection H as <- <-; eexists;
      (split; [reflexivity|]); left;
      (split; [discriminate | exact S]).
Qed.

End Runs.

(** ** What a registration stores, and when *)

Lemma existsb_false_not_In {A : Type} (f : Row -> A) (eqb : A -> A -> bool)
    (a : A) (rows : list Row) :
  (forall x y, eqb x y = true <-> x = y) ->
  existsb (fun r => eqb (f r) a) rows = false -> ~ In a (map f rows).
Proof.
  intros Heq. induction rows as [|r rows IH]; simpl; [tauto|].
  intros H. apply orb_false_iff in H. destruct H as [H1 H2].
  intros [E|I]; [|now apply IH].
  apply Heq in E. congruence.
Qed.

Lemma NoDup_snoc {A : Type} (l : list A) (a : A) :
  List.NoDup l -> ~ In a l -> List.NoDup (l ++ [a]).
Proof.
  induction 1 as [|x l Hx Hl IH]; simpl; intros Ha.
  - apply List.NoDup_cons; [intros I; exact I | apply List.NoDup_nil].
  - constructor.
    + intros I. apply in_app_or in I. destruct I as [I|[E|[]]]; [contradiction|].
      apply Ha. now left.
    + apply IH. intros I. apply Ha. now right.
Qed.

Lemma constraints_None (rows : list Row) (username email digest : string) :
  Sequelize.constraints rows username email digest = None ->
  js_length username <= 100 /\ js_length email <= 150 /\ js_length digest <= 255 /\
  ~ In username (map row_username rows) /\ ~ In email (map row_email rows).
Proof.
  unfold Sequelize.constraints, Sequelize.lengths, Sequelize.uniques.
  destruct (100 <? _) eqn:B1; [discriminate|].
  destruct (150 <? _) eqn:B2; [discriminate|].
  destruct (255 <? _) eqn:B3; [discriminate|].
  destruct (existsb _ rows) eqn:X1; [discriminate|].
  destruct (existsb _ rows) eqn:X2 in |- *; [discriminate|]. intros _.
  apply Z.ltb_ge in B1, B2, B3. repeat split; try assumption.
  - apply (existsb_false_not_In row_username String.eqb); [|exact X1].
    intros x y. apply String.eqb_eq.
  - apply (existsb_false_not_In row_email String.eqb); [|exact X2].
    intros x y. apply String.eqb_eq.
Qed.

Lemma validate_None (isEmail : string -> bool) (username email : string) :
  Sequelize.validate isEmail username email = None ->
  3 <= js_length username <= 100 /\ isEmail email = true.
Proof.
  unfold Sequelize.validate.
  destruct (3 <=? _) eqn:B1; [|discriminate].
  destruct (_ <=? 100) eqn:B2; [|discriminate]. simpl.
  destruct (isEmail email); [|discriminate]. intros _.
  apply Z.leb_le in B1, B2. repeat split; assumption.
Qed.

Section Stores.

Variable orm_error : Sequelize.Refusal -> JsError.
Variable isEmail : string -> bool.
Variable bcrypt : Hasher.

Local Abbreviation register := (registerUser orm_error isEmail bcrypt).

(** X2. A registration always answers, and it stores a row only when it
    answers 201.  After any other answer the rows and the clock are as
    before and the id sequence has given out one id at most; after 201
    exactly one row was appended, with the next id of the sequence, the time
    of the request, and as password the bcrypt digest, at cost 10, of the
    submitted password, which was a string. *)
Theorem X2_register_stores_only_on_201 (req : Request) (w w' : World)
    (o : outcome Response) :
  register req w = (o, w') ->
  exists res, o = Ok res /\
    ((status res <> 201 /\ nothing_stored w w') \/
     (status res = 201 /\ res = registered (new_row bcrypt req w) /\
      table w' = (table w ++ [new_row bcrypt req w])%list /\
      next_id w' = next_id w + 1 /\
      row_id (new_row bcrypt req w) = next_id w /\
      row_createdAt (new_row bcrypt req w) = clock w /\
      exists plaintext,
        body_password req = Some (Text plaintext) /\
        row_password (new_row bcrypt req w) =
          bcrypt_digest bcrypt (entropy w) plaintext 10)).
Proof.
  intros H. destruct (register_runs _ _ _ _ _ _ _ H) as (res & -> & [L|R]).
  - exists res. split; [reflexivity|]. now left.
  - destruct R as (_ & (plaintext & P) & _ & _ & _ & _ & -> & T & N & _).
    eexists. split; [reflexivity|]. right. repeat split; try assumption.
    exists plaintext. split; [exact P|]. unfold new_row. now rewrite P.
Qed.

(** X3. A registration is answered 201 only for an input that passes the
    three checks of the controller, whose email and username no stored row
    carries, and that the model accepts: a username of 3 to 100 characters,
    an email that isEmail accepts and of at most 150 characters. *)
Theorem X3_registered_only_if_valid_and_fresh (req : Request) (w w' : World)
    (res : Response) :
  register req w = (Ok res, w') -> status res = 201 ->
  passes_validation req = true /\
  not_taken (the (body_username req)) (the (body_email req)) w /\
  3 <= js_length (the (body_username req)) <= 100 /\
  isEmail (the (body_email req)) = true /\
  js_length (the (body_email req)) <= 150.
Proof.
  intros H S. destruct (register_runs _ _ _ _ _ _ _ H) as (res' & E & [L|R]).
  - injection E as <-. now destruct L.
  - destruct R as (V & _ & _ & _ & Hv & Hc & _).
    apply validate_None in Hv. apply constraints_None in Hc.
    destruct Hv as (Hu & He). destruct Hc as (_ & Hl & _ & Nu & Ne).
    repeat split; try assumption; try apply Hu.
    + intros E'. apply Ne. rewrite <- E'. now apply in_map.
    + intros E'. apply Nu. rewrite <- E'. now apply in_map.
Qed.

(** X4. Registration keeps the directory consistent: if emails, usernames
    and ids are unique and every id is below the next id of the sequence,
    they still are after any run of a registration. *)
Theorem X4_register_keeps_consistency (req : Request) (w w' : World)
    (o : outcome Response) :
  consistent w -> register req w = (o, w') -> consistent w'.
Proof.
  intros (Ne & Nu & Ni & Fi) H.
  destruct (register_runs _ _ _ _ _ _ _ H) as (res & _ & [L|R]).
  - destruct L as (_ & T & _ & N). unfold consistent. rewrite T.
    repeat split; try assumption.
    eapply List.Forall_impl; [|exact Fi]. simpl. intros r Hr. lia.
  - destruct R as (_ & _ & _ & _ & _ & Hc & _ & T & N & _).
    apply constraints_None in Hc. destruct Hc as (_ & _ & _ & Hu & He).
    unfold consistent. rewrite T, N, !map_app. simpl. repeat split.
    + now apply NoDup_snoc.
    + now apply NoDup_snoc.
    + apply NoDup_snoc; [exact Ni|]. intros I. apply in_map_iff in I.
      destruct I as (r & E & I). rewrite List.Forall_forall in Fi.
      specialize (Fi r I). lia.
    + apply Forall_app. split.
      * eapply List.Forall_impl; [|exact Fi]. simpl. intros r Hr. lia.
      * constructor; [simpl; lia | constructor].
Qed.

End Stores.

(** ** Duplicates, and finding what was stored *)

Lemma find_unique {A : Type} (f : Row -> A) (eqb : A -> A -> bool)
    (rows : list Row) (r : Row) :
  (forall x y, eqb x y = true <-> x = y) ->
  List.NoDup (map f rows) -> In r rows ->
  find (fun x => eqb (f x) (f r)) rows = Some r.
Proof.
  intros Heq. induction rows as [|x rows IH]; simpl; [tauto|].
  intros N I. inversion N as [|? ? Hx Hn]; subst.
  destruct I as [->|I].
  - now rewrite (proj2 (Heq (f r) (f r)) eq_refl).
  - destruct (eqb (f x) (f r)) eqn:E; [|now apply IH].
    apply Heq in E. exfalso. apply Hx. rewrite E. now apply in_map.
Qed.

Lemma NoDup_map_eq {A : Type} (f : Row -> A) (rows : list Row) (r1 r2 : Row) :
  List.NoDup (map f rows) -> In r1 rows -> In r2 rows -> f r1 = f r2 -> r1 = r2.
Proof.
  induction rows as [|x rows IH]; simpl; [tauto|].
  intros N I1 I2 E. inversion N as [|? ? Hx Hn]; subst.
  destruct I1 as [->|I1], I2 as [->|I2]; try reflexivity.
  - exfalso. apply Hx. rewrite E. now apply in_map.
  - exfalso. apply Hx. rewrite <- E. now apply in_map.
  - now apply IH.
Qed.

Section Duplicates.

Variable orm_error : Sequelize.Refusal -> JsError.
Variable isEmail : string -> bool.
Variable bcrypt : Hasher.

Local Abbreviation register := (registerUser orm_error isEmail bcrypt).

(** X5. With the database up and an input that passes the checks: if a
    stored row carries the email, the answer is 409, email already
    registered, whether or not the username is taken too; if no row carries
    the email but one carries the username, the answer is 409, username
    taken.  In both cases the world is left as it was. *)
Theorem X5_duplicates_are_conflicts (req : Request) (w : World) (r : Row) :
  passes_validation req = true -> faults w = [] -> In r (table w) ->
  (row_email r = the (body_email req) ->
   register req w = (Ok email_registered, w))
  /\ ((forall x, In x (table w) -> row_email x <> the (body_email req)) ->
      row_username r = the (body_username req) ->
      register req w = (Ok username_taken, w)).
Proof.
  intros V F I. split.
  - intros E. validated V. unfold try_catch, bind at 1.
    rewrite (findUserByEmail_up _ w F).
    destruct (find_In (fun x => String.eqb (row_email x) (the (body_email req)))
                (table w) r I) as (r' & -> & _);
      [now apply String.eqb_eq | reflexivity].
  - intros Ne U. validated V. unfold try_catch, bind at 1.
    rewrite (findUserByEmail_up _ w F).
    assert (Fe : find (fun x => String.eqb (row_email x) (the (body_email req)))
                   (table w) = None).
    { destruct (find _ _) as [x|] eqn:Fx; [|reflexivity].
      apply find_some in Fx. destruct Fx as [Ix Ex].
      apply String.eqb_eq in Ex. now destruct (Ne x Ix). }
    rewrite Fe. unfold bind at 1. rewrite (findUserByUsername_up _ w F).
    destruct (find_In (fun x => String.eqb (row_username x) (the (body_username req)))
                (table w) r I) as (r' & -> & _);
      [now apply String.eqb_eq | reflexivity].
Qed.

End Duplicates.

Section RoundTrips.

Variable orm_error : Sequelize.Refusal -> JsError.
Variable isEmail : string -> bool.
Variable bcrypt : Hasher.
Variable JWT_SECRET : string.
Context {codec : Jwt.TokenCodec}.

Local Abbreviation register := (registerUser orm_error isEmail bcrypt).

(** X6. Register, then log in.  After a registration answered 201, and in
    any later world with the same rows and the database up, a login with the
    same email and password is answered 200: it carries the id, username
    and email stored by the registration and a token issued for them at the
    time of the login.  This needs the hasher to accept the digests it
    computes at cost 10. *)
Theorem X6_login_after_register (req : Request) (w w1 w2 : World) (res : Response) :
  accepts_own_digests bcrypt 10 ->
  register req w = (Ok res, w1) -> status res = 201 ->
  table w2 = table w1 -> faults w2 = [] ->
  loginUser bcrypt JWT_SECRET
    (post_json None (body_email req) (body_password req)) w2 =
    (Ok (logged_in
           (Jwt.tc_encode JWT_SECRET (issued (new_row bcrypt req w) (clock w2)))
           (new_row bcrypt req w)),
     w2).
Proof.
  intros Hh H S T F.
  destruct (register_runs _ _ _ _ _ _ _ H) as (res' & E & [L|R]).
  { injection E as <-. now destruct L. }
  destruct R as (V & (plaintext & Pw) & Fe & _ & _ & _ & _ & T1 & _).
  destruct (passes_validation_inv _ V) as (P & _ & _).
  apply orb_false_iff in P. destruct P as (P & Pp).
  apply orb_false_iff in P. destruct P as (_ & Pe).
  unfold loginUser, post_json. cbn [body_email body_password].
  rewrite Pe, Pp. cbn [orb]. unfold try_catch, bind at 1.
  rewrite (findUserByEmail_up _ w2 F), T, T1.
  rewrite (find_snoc _ _ (new_row bcrypt req w) Fe)
    by (simpl; apply String.eqb_refl).
  rewrite Pw. cbn [the_password compare bind ret row_password new_row text].
  rewrite Pw. cbn [text]. rewrite (Hh _ _). reflexivity.
Qed.

(** X7. In a consistent directory with the database up, the gate lets the
    bearer of an unexpired token through when a stored row has the userId of
    its claims: the request goes on with [req.user] set to the id, email and
    username of that very row, whatever email and username the claims
    themselves carry, and is otherwise unchanged. *)
Theorem X7_gate_identifies_the_row (req : Request) (w : World) (r : Row)
    (d : Jwt.Decoded) :
  consistent w -> faults w = [] -> In r (table w) ->
  Jwt.userId (Jwt.claims d) = row_id r ->
  clock w <= Jwt.expiresAt d ->
  let presented :=
    set_authorization (Some ("Bearer " +:+ Jwt.tc_encode JWT_SECRET d)) req in
  exists req',
    authenticateToken JWT_SECRET presented w = (Ok (Next req'), w) /\
    attaches (user_of_row r) presented req'.
Proof.
  intros (_ & _ & Ni & _) F I Hid Hc presented.
  destruct (bearer_token JWT_SECRET d) as [T Fz].
  assert (Tp : token_of (headers_authorization presented) =
               Some (Jwt.tc_encode JWT_SECRET d)) by exact T.
  destruct (gate_attaches JWT_SECRET presented w w w d
              (Sequelize.select UserModel.public_attributes r))
    as (r' & req' & I' & E' & G & A).
  - now rewrite Tp.
  - rewrite Tp. cbn [the]. unfold Jwt.verify.
    rewrite Jwt.tc_decode_encode. unfold bind, gets.
    assert (E : (Jwt.expiresAt d <? clock w) = false)
      by (apply Z.ltb_ge; exact Hc).
    now rewrite E.
  - unfold UserModel.findUserById, Sequelize.findByPk.
    unfold bind at 1. rewrite (query_up w F). unfold bind, gets, ret.
    rewrite Hid.
    now rewrite (find_unique row_id Z.eqb (table w) r Z.eqb_eq Ni I).
  - rewrite Hid in E'.
    assert (R : r' = r) by (now apply (NoDup_map_eq row_id (table w))).
    exists req'. rewrite <- R. split; assumption.
Qed.

(** X8. Store, then find.  In a consistent directory, after [createUser]
    returned a user and with the database up, [findUserById] of the returned
    id answers exactly the id, username, email and creation time that
    [createUser] returned, [findUserByEmail] answers the stored row with the
    digest, and the listing contains the user. *)
Theorem X8_created_user_is_found (username email digest : string) (w w' : World)
    (u : UserModel.NewUser) :
  consistent w ->
  UserModel.createUser orm_error isEmail username email digest w = (Ok u, w') ->
  faults w' = [] ->
  UserModel.findUserById (UserModel.id u) w' =
    (Ok (Some [("id", JNum (UserModel.id u));
               ("username", JStr (UserModel.username u));
               ("email", JStr (UserModel.email u));
               ("createdAt", JDate (UserModel.createdAt u))]), w')
  /\ UserModel.findUserByEmail email w' =
       (Ok (Some (mkRow (UserModel.id u) username email digest
                    (UserModel.createdAt u) (UserModel.createdAt u))), w')
  /\ exists users,
       UserModel.getAllUsers w' = (Ok users, w') /\
       In [("id", JNum (UserModel.id u));
           ("username", JStr (UserModel.username u));
           ("email", JStr (UserModel.email u));
           ("createdAt", JDate (UserModel.createdAt u))] users.
Proof.
  intros (_ & _ & _ & Fi) C F.
  unfold UserModel.createUser in C.
  apply bind_inv in C. destruct C as [(e & _ & E) | (row & w5 & C & Hu)];
    [discriminate E|].
  injection Hu as <- <-.
  apply create_inv in C. destruct C as [(_ & _ & err & E) | C]; [discriminate E|].
  cbv zeta in C. destruct C as (Er & T & _ & _ & _ & _ & K).
  injection Er as ->. cbn [row_id row_username row_email row_createdAt UserModel.id
    UserModel.username UserModel.email UserModel.createdAt].
  apply constraints_None in K. destruct K as (_ & _ & _ & _ & Ne).
  set (r := mkRow (next_id w) username email digest (clock w) (clock w)) in *.
  split; [|split].
  - unfold UserModel.findUserById, Sequelize.findByPk.
    unfold bind at 1. rewrite (query_up w5 F). unfold bind, gets, ret. rewrite T.
    rewrite (find_snoc (fun x => row_id x =? next_id w) (table w) r).
    + reflexivity.
    + destruct (find _ _) as [x|] eqn:Fx; [|reflexivity].
      apply find_some in Fx. destruct Fx as [Ix Ex]. apply Z.eqb_eq in Ex.
      rewrite List.Forall_forall in Fi. specialize (Fi x Ix). lia.
    + apply Z.eqb_refl.
  - rewrite (findUserByEmail_up _ w5 F), T.
    rewrite (find_snoc _ (table w) r); [reflexivity | | apply String.eqb_refl].
    destruct (find _ _) as [x|] eqn:Fx; [|reflexivity].
    apply find_some in Fx. destruct Fx as [Ix Ex]. apply String.eqb_eq in Ex.
    exfalso. apply Ne. rewrite <- Ex. now apply in_map.
  - eexists. split; [apply (getAllUsers_up w5 F)|].
    apply in_map_iff. exists r. split; [reflexivity|].
    apply (Permutation_in (l := table w5)); [symmetry; apply order_by_perm|].
    rewrite T. apply in_or_app. right. now left.
Qed.

End RoundTrips.

(** ** The unique indexes *)

Section Indexes.

Variable orm_error : Sequelize.Refusal -> JsError.
Variable isEmail : string -> bool.

(** X17. The unique indexes refuse what the lookups would have found: with
    the database up, [createUser] of a username or an email that a stored
    row already carries, and that the model and the columns accept
    otherwise, throws the error the ORM makes of a uniqueness violation.
    No row is stored, and the id drawn for the row is not given back: the
    sequence has moved by one. *)
Theorem X17_duplicate_insert_refused (username email digest : string)
    (w : World) (r : Row) :
  faults w = [] ->
  storable isEmail username email digest ->
  In r (table w) ->
  row_username r = username \/ row_email r = email ->
  exists attribute,
    (attribute = "username" \/ attribute = "email") /\
    UserModel.createUser orm_error isEmail username email digest w =
      (Throw (orm_error (Sequelize.UniqueViolation attribute)),
       set_next_id (next_id w + 1) w).
Proof.
  intros F S I D. unfold UserModel.createUser, Sequelize.create.
  rewrite (validate_ok isEmail) by apply S.
  unfold bind at 1. unfold bind at 1. rewrite (query_up w F).
  rewrite (lengths_ok isEmail _ _ _ S).
  unfold bind, gets, modify. cbn [table set_next_id].
  unfold Sequelize.uniques.
  destruct (existsb (fun x => String.eqb (row_username x) username) (table w))
    eqn:Xu.
  { exists "username". split; [now left | reflexivity]. }
  destruct (existsb (fun x => String.eqb (row_email x) email) (table w)) eqn:Xe.
  { exists "email". split; [now right | reflexivity]. }
  exfalso. destruct D as [D|D].
  - assert (X : existsb (fun x => String.eqb (row_username x) username)
                  (table w) = true)
      by (apply existsb_exists; exists r; split;
          [exact I | now apply String.eqb_eq]).
    congruence.
  - assert (X : existsb (fun x => String.eqb (row_email x) email)
                  (table w) = true)
      by (apply existsb_exists; exists r; split;
          [exact I | now apply String.eqb_eq]).
    congruence.
Qed.

End Indexes.

(** ** The email check *)

Lemma append_cons (x : ascii) (a b : string) :
  String x a +:+ b = String x (a +:+ b).
Proof. reflexivity. Qed.

Lemma append_nil (b : string) : "" +:+ b = b.
Proof. reflexivity. Qed.

Lemma append_assoc (a b c : string) : (a +:+ b) +:+ c = a +:+ (b +:+ c).
Proof.
  induction a as [|x a IH]; [reflexivity|].
  rewrite !append_cons. now rewrite IH.
Qed.

Lemma append_is_empty (a b : string) : a +:+ b = "" -> a = "" /\ b = "".
Proof.
  destruct a; [rewrite append_nil; auto | rewrite append_cons; discriminate].
Qed.

Lemma append_is_cons (a b s : string) (c : ascii) :
  a +:+ b = String c s ->
  (a = "" /\ b = String c s) \/ (exists a', a = String c a' /\ s = a' +:+ b).
Proof.
  destruct a as [|x a]; [rewrite append_nil; now left|].
  rewrite append_cons. intros H.
  injection H as -> <-. right. now exists a.
Qed.

(** Inversion of a membership, with the equations on strings solved. *)
Ltac split_append :=
  repeat match goal with
    | E : _ +:+ _ = "" |- _ =>
        apply append_is_empty in E; destruct E as [-> ->]
    | E : "" = _ +:+ _ |- _ => symmetry in E
    | E : String _ _ = _ +:+ _ |- _ => symmetry in E
    | E : _ +:+ _ = String _ _ |- _ =>
        apply append_is_cons in E;
        destruct E as [[-> ->] | (? & -> & ->)]
    end.

Ltac inv_matches H := inversion H; subst; clear H; split_append.

Lemma nullable_matches (r : Regex.regex) :
  Regex.nullable r = true <-> matches r "".
Proof.
  induction r as [| |p|r1 IH1 r2 IH2|r1 IH1 r2 IH2|r IH]; simpl.
  - split; [discriminate | intros H; inversion H].
  - split; [constructor | reflexivity].
  - split; [discriminate | intros H; inversion H].
  - rewrite andb_true_iff, IH1, IH2. split.
    + intros [H1 H2]. exact (matches_cat r1 r2 "" "" H1 H2).
    + intros H. inv_matches H. now split.
  - rewrite orb_true_iff, IH1, IH2. split.
    + intros [H|H]; [now apply matches_alt_l | now apply matches_alt_r].
    + intros H. inv_matches H; [now left | now right].
  - split; [constructor | reflexivity].
Qed.

(** A non-empty member of [r*] starts with a non-empty member of [r]. *)
Lemma star_cons_inv (r : Regex.regex) (c : ascii) (s : string) :
  matches (Regex.Star r) (String c s) ->
  exists s1 s2, s = s1 +:+ s2 /\ matches r (String c s1) /\ matches (Regex.Star r) s2.
Proof.
  intros H. remember (Regex.Star r) as q eqn:Q. remember (String c s) as t eqn:T.
  revert Q T. induction H as [| | | | | |r' s1 s2 H1 _ H2 IH2]; try discriminate.
  intros Q T. injection Q as ->.
  apply append_is_cons in T. destruct T as [[-> ->] | (a' & -> & ->)].
  - now apply IH2.
  - now exists a', s2.
Qed.

Lemma deriv_matches (r : Regex.regex) (c : ascii) (s : string) :
  matches (Regex.deriv c r) s <-> matches r (String c s).
Proof.
  revert s.
  induction r as [| |p|r1 IH1 r2 IH2|r1 IH1 r2 IH2|r IH]; intros s; simpl.
  - split; intros H; inversion H.
  - split; intros H; inversion H.
  - destruct (p c) eqn:P; split; intros H.
    + inv_matches H. now constructor.
    + inv_matches H. constructor.
    + inversion H.
    + inv_matches H. congruence.
  - assert (Fwd : forall t,
              matches (Regex.Cat (Regex.deriv c r1) r2) t ->
              matches (Regex.Cat r1 r2) (String c t)).
    { intros t H. inv_matches H.
      match goal with H1 : matches (Regex.deriv c r1) ?a |- _ =>
        apply IH1 in H1 end.
      rewrite <- append_cons. now apply matches_cat. }
    assert (Bwd : forall t,
              matches (Regex.Cat r1 r2) (String c t) ->
              (matches (Regex.Cat (Regex.deriv c r1) r2) t) \/
              (matches r1 "" /\ matches (Regex.deriv c r2) t)).
    { intros t H. inv_matches H.
      - right. split; [assumption | now apply IH2].
      - left. apply matches_cat; [now apply IH1 | assumption]. }
    destruct (Regex.nullable r1) eqn:N; split; intros H.
    + inv_matches H; [now apply Fwd|].
      match goal with H2 : matches (Regex.deriv c r2) _ |- _ =>
        apply IH2 in H2 end.
      apply nullable_matches in N.
      rewrite <- (append_nil (String c s)). now apply matches_cat.
    + destruct (Bwd s H) as [L|[_ R]];
        [now apply matches_alt_l | now apply matches_alt_r].
    + now apply Fwd.
    + destruct (Bwd s H) as [L|[E _]]; [exact L|].
      apply nullable_matches in E. congruence.
  - split; intros H; inv_matches H;
      solve [apply matches_alt_l; now apply IH1
            | apply matches_alt_r; now apply IH2].
  - split; intros H.
    + inv_matches H.
      match goal with H1 : matches (Regex.deriv c r) _ |- _ =>
        apply IH in H1 end.
      rewrite <- append_cons. now apply matches_star_cons.
    + apply star_cons_inv in H. destruct H as (s1 & s2 & -> & H1 & H2).
      apply matches_cat; [now apply IH | exact H2].
Qed.

(** The matcher decides the language. *)
Lemma test_matches (r : Regex.regex) (s : string) :
  Regex.test r s = true <-> matches r s.
Proof.
  revert r. induction s as [|c s IH]; intros r; simpl.
  - apply nullable_matches.
  - rewrite IH. apply deriv_matches.
Qed.

Lemma star_chars (p : ascii -> bool) (s : string) :
  matches (Regex.Star (Regex.Chars p)) s <-> all_chars p s = true.
Proof.
  split.
  - intros H. remember (Regex.Star (Regex.Chars p)) as q eqn:Q.
    induction H as [| | | | | |r s1 s2 H1 _ H2 IH2]; try discriminate.
    + reflexivity.
    + injection Q as ->. inv_matches H1. rewrite append_cons, append_nil.
      simpl. rewrite IH2 by reflexivity.
      match goal with P : p _ = true |- _ => now rewrite P end.
  - induction s as [|c s IH]; simpl; intros H; [constructor|].
    apply andb_true_iff in H. destruct H as [Pc Ps].
    change (String c s) with (String c "" +:+ s).
    apply matches_star_cons; [now constructor | now apply IH].
Qed.

Lemma plus_chars (p : ascii -> bool) (s : string) :
  matches (Regex.Plus (Regex.Chars p)) s <-> s <> "" /\ all_chars p s = true.
Proof.
  unfold Regex.Plus. split.
  - intros H. inv_matches H.
    match goal with H1 : matches (Regex.Chars p) _ |- _ => inv_matches H1 end.
    match goal with H2 : matches (Regex.Star _) _ |- _ =>
      apply star_chars in H2; rename H2 into Hs end.
    rewrite append_cons, append_nil. split; [discriminate|].
    simpl. rewrite Hs.
    match goal with P : p _ = true |- _ => now rewrite P end.
  - intros [Hn Ha]. destruct s as [|c s]; [contradiction|].
    simpl in Ha. apply andb_true_iff in Ha. destruct Ha as [Pc Ps].
    change (String c s) with (String c "" +:+ s).
    apply matches_cat; [now constructor | now apply star_chars].
Qed.

Lemma one_char (d : ascii) (s : string) :
  matches (Regex.Chars (Regex.is_char d)) s <-> s = String d "".
Proof.
  split.
  - intros H. inv_matches H.
    match goal with P : Regex.is_char _ _ = true |- _ =>
      apply Ascii.eqb_eq in P; now rewrite P end.
  - intros ->. constructor. apply Ascii.eqb_refl.
Qed.

Lemma emailRegex_matches (s : string) : matches emailRegex s <-> address_shape s.
Proof.
  unfold emailRegex, address_shape, address_part. split.
  - intros H.
    inversion H as [| |? ? t0 t H1 H2| | | |]; subst; clear H.
    inversion H2 as [| |? ? t1 t2 Hat H3| | | |]; subst; clear H2.
    inversion H3 as [| |? ? t3 t4 Hb H4| | | |]; subst; clear H3.
    inversion H4 as [| |? ? t5 t6 Hdot Hc| | | |]; subst; clear H4.
    apply one_char in Hat, Hdot. subst t1 t5.
    apply plus_chars in H1, Hb, Hc.
    exists t0, t3, t6. repeat split; tauto.
  - intros (a & b & c & -> & Ha & Hb & Hc).
    apply matches_cat; [now apply plus_chars|].
    apply (matches_cat _ _ "@"); [now apply one_char|].
    apply matches_cat; [now apply plus_chars|].
    apply (matches_cat _ _ "."); [now apply one_char|].
    now apply plus_chars.
Qed.

Section EmailCheck.

Variable orm_error : Sequelize.Refusal -> JsError.
Variable isEmail : string -> bool.
Variable bcrypt : Hasher.

(** X9. The email check of the controller accepts exactly the strings
    [local@domain.tld] in which the three parts are non-empty and contain
    neither whitespace nor [@]; so an email with a space, without [@], with
    two [@], or without a dot inside its domain is refused.  A registration
    that carries its three fields and an email of another shape is answered
    400, valid email required, and the world is left as it was. *)
Theorem X9_email_check_shape :
  (forall s, emailRegex_test s = true <-> address_shape s)
  /\ (forall req w,
        falsy (body_username req) || falsy (body_email req)
          || falsy_password (body_password req) = false ->
        ~ address_shape (the (body_email req)) ->
        registerUser orm_error isEmail bcrypt req w =
          (Ok (mkResponse 400
                 (JObj [("error", JStr "Please provide a valid email address")])),
           w)).
Proof.
  assert (Shape : forall s, emailRegex_test s = true <-> address_shape s).
  { intros s. unfold emailRegex_test. rewrite test_matches.
    apply emailRegex_matches. }
  split; [exact Shape|].
  intros req w P N. unfold registerUser. rewrite P.
  destruct (emailRegex_test _) eqn:T; [|reflexivity].
  apply Shape in T. contradiction.
Qed.

End EmailCheck.

(** ** The token in the header, continued *)

Lemma split_space_words (s : string) :
  Forall (fun word => has_space word = false) (split_space s).
Proof.
  induction s as [|c s IH]; simpl; [repeat constructor|].
  destruct (Ascii.eqb c " ") eqn:C; [constructor; [reflexivity | exact IH]|].
  destruct (split_space s) as [|word rest]; [repeat constructor; simpl; now rewrite C|].
  inversion IH as [|? ? Hw Hr]; subst.
  constructor; [simpl; now rewrite C | exact Hr].
Qed.

Section OneWord.

Variable JWT_SECRET : string.
Context {codec : Jwt.TokenCodec}.

(** X10. What the gate takes for the token never contains a space: it is
    the second word of the header and stops at the next space.  So a header
    with further words after the token is treated as the header without
    them. *)
Theorem X10_token_is_the_second_word :
  (forall header token, token_of header = Some token -> has_space token = false)
  /\ (forall scheme token rest req w,
        has_space scheme = false -> has_space token = false ->
        token_of (Some (scheme +:+ " " +:+ token +:+ " " +:+ rest)) = Some token /\
        decision (authenticateToken JWT_SECRET
                    (set_authorization
                       (Some (scheme +:+ " " +:+ token +:+ " " +:+ rest)) req) w) =
        decision (authenticateToken JWT_SECRET
                    (set_authorization (Some (scheme +:+ " " +:+ token)) req) w)).
Proof.
  split.
  - intros [h|] token; [|discriminate]. unfold token_of.
    destruct (String.eqb h "") eqn:Eh.
    { apply String.eqb_eq in Eh. subst h. intros E. now injection E as <-. }
    intros E. pose proof (split_space_words h) as W.
    rewrite List.Forall_forall in W. apply W.
    unfold index in E. now apply nth_error_In in E.
  - intros scheme token rest req w Hs Ht.
    assert (T : token_of (Some (scheme +:+ " " +:+ token +:+ " " +:+ rest))
                = Some token).
    { unfold token_of. rewrite scheme_header_nonempty.
      rewrite (split_space_scheme _ _ Hs), (split_space_scheme _ _ Ht).
      reflexivity. }
    split; [exact T|].
    apply gate_reads_token. unfold set_authorization.
    cbn [headers_authorization]. rewrite T.
    symmetry. now apply token_of_scheme.
Qed.

End OneWord.

(** ** Roles *)



Section Roles.

Variable JWT_SECRET : string.
Context {codec : Jwt.TokenCodec}.


End Roles.

Lemma existsb_eqb_In (s : string) (items : list string) :
  existsb (String.eqb s) items = true <-> In s items.
Proof.
  rewrite existsb_exists. split.
  - intros (x & I & E). apply String.eqb_eq in E. now subst.
  - intros I. exists s. split; [exact I | apply String.eqb_refl].
Qed.

(** X12. [authorizeRoles] calls [next()] exactly when [req.user] is defined
    and its role is a non-empty string that is one of the allowed roles; in
    every other case it answers 403.  With no allowed role nobody passes. *)
Theorem X12_authorized_iff_role_allowed (allowedRoles : list string)
    (user : option (list (string * Json))) (w : World) :
  (exists res, authorizeRoles allowedRoles user w = (Ok (Forbidden res), w) /\
               status res = 403 /\
               ~ exists u role, user = Some u /\ get "role" u = Some (JStr role) /\
                                role <> "" /\ In role allowedRoles)
  \/ (authorizeRoles allowedRoles user w = (Ok Authorized, w) /\
      exists u role, user = Some u /\ get "role" u = Some (JStr role) /\
                     role <> "" /\ In role allowedRoles).
Proof.
  unfold authorizeRoles.
  destruct user as [u|].
  2:{ left. eexists. split; [reflexivity|]. split; [reflexivity|].
      intros (u & role & E & _). discriminate E. }
  cbn [the_object].
  destruct (get "role" u) as [j|] eqn:R.
  2:{ left. eexists. split; [reflexivity|]. split; [reflexivity|].
      intros (u' & role & E & G & _). injection E as <-. congruence. }
  destruct (not_ (Some j)) eqn:N.
  { left. eexists. split; [reflexivity|]. split; [reflexivity|].
    intros (u' & role & E & G & Hn & _). injection E as <-.
    rewrite R in G. injection G as ->. simpl in N.
    apply negb_true_iff, negb_false_iff, String.eqb_eq in N. contradiction. }
  destruct (includes allowedRoles (Some j)) eqn:I; cbn [negb].
  - right. split; [reflexivity|].
    destruct j; try discriminate I. simpl in I. apply existsb_eqb_In in I.
    exists u, s. repeat split; try assumption.
    simpl in N. apply negb_false_iff, negb_true_iff, String.eqb_neq in N. exact N.
  - left. eexists. split; [reflexivity|]. split; [reflexivity|].
    intros (u' & role & E & G & _ & Hin). injection E as <-.
    rewrite R in G. injection G as ->. simpl in I.
    apply existsb_eqb_In in Hin. congruence.
Qed.

(** ** Cross-origin headers *)

Lemma allowedOrigins_In (FRONTEND_URL : option string) (v : string) :
  In v (Server.allowedOrigins FRONTEND_URL) <->
  In v ["http://localhost:3000"; "http://localhost:5500";
        "http://127.0.0.1:8000"; "http://127.0.0.1:5500"]
  \/ (FRONTEND_URL = Some v /\ v <> "").
Proof.
  unfold Server.allowedOrigins, Server.filter_Boolean. cbn [flat_map falsy].
  cbn [String.eqb Ascii.eqb Bool.eqb app the].
  destruct FRONTEND_URL as [u|]; cbn [falsy the].
  - destruct (String.eqb u "") eqn:E.
    + apply String.eqb_eq in E. subst u. cbn [app In]. split.
      * intros H. left. tauto.
      * intros [H|[H Hn]]; [tauto|]. injection H as <-. contradiction.
    + apply String.eqb_neq in E. cbn [app In]. split.
      * intros [H|[H|[H|[H|[H|[]]]]]]; try (left; tauto).
        right. subst. now split.
      * intros [H|[H Hn]]; [tauto|]. injection H as ->. tauto.
  - cbn [app In]. split.
    + intros H. left. tauto.
    + intros [H|[H _]]; [tauto | discriminate].
Qed.

(** X13. [cors] names an origin in [Access-Control-Allow-Origin] only in
    two cases: the request has no origin (or an empty one) and the header is
    the wildcard, or the origin is one of the four development origins or
    the non-empty [FRONTEND_URL], and the header repeats it.  Any other
    origin gets no such header.  A preflight ([OPTIONS]) is answered 200 by
    [cors] itself and every other method goes on to the next handler. *)
Theorem X13_cors_names_only_listed_origins (FRONTEND_URL origin : option string)
    (method : string) :
  let r := Server.cors FRONTEND_URL origin method in
  (forall v,
     Server.header "Access-Control-Allow-Origin" (Server.headers r) = Some v <->
     (falsy origin = true /\ v = "*") \/
     (origin = Some v /\
      (In v ["http://localhost:3000"; "http://localhost:5500";
             "http://127.0.0.1:8000"; "http://127.0.0.1:5500"]
       \/ (FRONTEND_URL = Some v /\ v <> ""))))
  /\ (Server.sent r = Some 200 <-> method = "OPTIONS")
  /\ (Server.sent r = None <-> method <> "OPTIONS").
Proof.
  intros r. subst r. unfold Server.cors.
  assert (Hs : forall hs,
            Server.headers (if String.eqb method "OPTIONS"
                            then Server.mkCors hs (Some 200)
                            else Server.mkCors hs None) = hs)
    by (intros hs; now destruct (String.eqb method "OPTIONS")).
  split; [|destruct (String.eqb method "OPTIONS") eqn:E;
           [apply String.eqb_eq in E | apply String.eqb_neq in E];
           cbn [Server.sent]; split; split; congruence].
  intros v. rewrite Hs. rewrite <- allowedOrigins_In.
  destruct origin as [o|]; cbn [Server.includes_origin falsy the].
  2:{ cbn. split.
      - intros H. injection H as <-. left. now split.
      - intros [[_ ->]|[H _]]; [reflexivity | discriminate]. }
  destruct (String.eqb o "") eqn:E.
  - apply String.eqb_eq in E. subst o. rewrite orb_true_r. cbn. split.
    + intros H. injection H as <-. left. now split.
    + intros [[_ ->]|[H I]]; [reflexivity|]. injection H as <-.
      apply allowedOrigins_In in I. destruct I as [I|[_ I]]; [|contradiction].
      cbn in I. repeat (destruct I as [I|I]; [discriminate I|]). contradiction.
  - rewrite orb_false_r.
    destruct (existsb (String.eqb o) (Server.allowedOrigins FRONTEND_URL)) eqn:I.
    + apply existsb_eqb_In in I.
      cbn [app Server.header String.eqb Ascii.eqb Bool.eqb]. split.
      * intros H. injection H as <-. right. now split.
      * intros [[H _]|[H _]]; [discriminate | now injection H as <-].
    + cbn [app Server.header String.eqb Ascii.eqb Bool.eqb].
      split; [discriminate|].
      intros [[H _]|[H J]]; [discriminate|]. injection H as <-.
      apply existsb_eqb_In in J. congruence.
Qed.

(** ** The properties on the demonstration data *)

Lemma Demo_empty_consistent : consistent Demo.empty.
Proof.
  repeat split; try apply List.NoDup_nil. constructor.
Qed.

Lemma Demo_populated_consistent : consistent Demo.populated.
Proof.
  unfold consistent. cbn [Demo.populated table next_id map].
  repeat split.
  - repeat (apply List.NoDup_cons; [cbn; intuition discriminate|]).
    apply List.NoDup_nil.
  - repeat (apply List.NoDup_cons; [cbn; intuition discriminate|]).
    apply List.NoDup_nil.
  - repeat (apply List.NoDup_cons; [cbn; intuition discriminate|]).
    apply List.NoDup_nil.
  - repeat constructor.
Qed.

Lemma Demo_hasher_accepts_own_digests (rounds : Z) :
  accepts_own_digests Demo.hasher rounds.
Proof.
  intros salt plaintext. unfold bcrypt_compare, bcrypt_digest, Demo.hasher.
  cbn. destruct (Z.even salt).
  - now rewrite Ascii.eqb_refl, String.eqb_refl.
  - rewrite Ascii.eqb_refl, String.eqb_refl. apply orb_true_r.
Qed.

Lemma X2_register_stores_only_on_201_witness :
  let w' := mkWorld [Demo.alice; Demo.bob; Demo.carol; Demo.dave] 5 5000 4 [] [] in
  exists res,
    Ok (registered Demo.dave) = Ok res /\
    ((status res <> 201 /\ nothing_stored Demo.populated w') \/
     (status res = 201 /\
      res = registered (new_row Demo.hasher Demo.signup_dave Demo.populated) /\
      table w' =
        (table Demo.populated
           ++ [new_row Demo.hasher Demo.signup_dave Demo.populated])%list /\
      next_id w' = next_id Demo.populated + 1 /\
      row_id (new_row Demo.hasher Demo.signup_dave Demo.populated) =
        next_id Demo.populated /\
      row_createdAt (new_row Demo.hasher Demo.signup_dave Demo.populated) =
        clock Demo.populated /\
      exists plaintext,
        body_password Demo.signup_dave = Some (Text plaintext) /\
        row_password (new_row Demo.hasher Demo.signup_dave Demo.populated) =
          bcrypt_digest Demo.hasher (entropy Demo.populated) plaintext 10)).
Proof.
  intros w'.
  apply (X2_register_stores_only_on_201 Demo.orm_error emailRegex_test
           Demo.hasher Demo.signup_dave Demo.populated w'
           (Ok (registered Demo.dave))).
  vm_compute. reflexivity.
Defined.

Lemma X3_registered_only_if_valid_and_fresh_witness :
  passes_validation Demo.signup = true /\
  not_taken "alice" "alice@example.com" Demo.empty /\
  3 <= js_length "alice" <= 100 /\
  emailRegex_test "alice@example.com" = true /\
  js_length "alice@example.com" <= 150.
Proof.
  apply (X3_registered_only_if_valid_and_fresh Demo.orm_error emailRegex_test
           Demo.hasher Demo.signup Demo.empty
           (mkWorld [Demo.alice] 2 1000 1 [] []) (registered Demo.alice));
    vm_compute; reflexivity.
Defined.

Lemma X4_register_keeps_consistency_witness :
  consistent Demo.populated /\
  consistent
    (mkWorld [Demo.alice; Demo.bob; Demo.carol; Demo.dave] 5 5000 4 [] []).
Proof.
  split; [exact Demo_populated_consistent|].
  apply (X4_register_keeps_consistency Demo.orm_error emailRegex_test
           Demo.hasher Demo.signup_dave Demo.populated
           (mkWorld [Demo.alice; Demo.bob; Demo.carol; Demo.dave] 5 5000 4 [] [])
           (Ok (registered Demo.dave))).
  - exact Demo_populated_consistent.
  - vm_compute. reflexivity.
Defined.

Lemma X5_duplicates_are_conflicts_witness :
  registerUser Demo.orm_error emailRegex_test Demo.hasher
    (post_body (Some "alice2") (Some "alice@example.com") (Some "wonderland"))
    Demo.populated = (Ok email_registered, Demo.populated)
  /\ registerUser Demo.orm_error emailRegex_test Demo.hasher
       (post_body (Some "alice") (Some "alice2@example.com") (Some "wonderland"))
       Demo.populated = (Ok username_taken, Demo.populated).
Proof.
  split.
  - apply (X5_duplicates_are_conflicts Demo.orm_error emailRegex_test Demo.hasher
             (post_body (Some "alice2") (Some "alice@example.com")
                (Some "wonderland"))
             Demo.populated Demo.alice).
    + vm_compute. reflexivity.
    + reflexivity.
    + left. reflexivity.
    + reflexivity.
  - apply (X5_duplicates_are_conflicts Demo.orm_error emailRegex_test Demo.hasher
             (post_body (Some "alice") (Some "alice2@example.com")
                (Some "wonderland"))
             Demo.populated Demo.alice).
    + vm_compute. reflexivity.
    + reflexivity.
    + left. reflexivity.
    + intros x [<-|[<-|[<-|[]]]]; discriminate.
    + reflexivity.
Defined.

Lemma X6_login_after_register_witness :
  loginUser (codec := Reference.codec) Demo.hasher Demo.secret
    (post_body None (Some "alice@example.com") (Some "wonderland"))
    (mkWorld [Demo.alice] 2 1000 1 [] []) =
    (Ok (logged_in
           (Jwt.tc_encode (TokenCodec := Reference.codec) Demo.secret
              (issued (new_row Demo.hasher Demo.signup Demo.empty) 1000))
           (new_row Demo.hasher Demo.signup Demo.empty)),
     mkWorld [Demo.alice] 2 1000 1 [] []).
Proof.
  apply (X6_login_after_register (codec := Reference.codec) Demo.orm_error
           emailRegex_test Demo.hasher Demo.secret Demo.signup Demo.empty
           (mkWorld [Demo.alice] 2 1000 1 [] [])
           (mkWorld [Demo.alice] 2 1000 1 [] []) (registered Demo.alice)).
  - apply Demo_hasher_accepts_own_digests.
  - vm_compute. reflexivity.
  - reflexivity.
  - reflexivity.
  - reflexivity.
Defined.

Lemma X7_gate_identifies_the_row_witness :
  let d := Jwt.mkDecoded (Jwt.mkClaims 2 "alice@example.com" "alice") 4000 6000 in
  let presented :=
    set_authorization
      (Some ("Bearer " +:+ Jwt.tc_encode (TokenCodec := Reference.codec)
                             Demo.secret d))
      Demo.listing in
  exists req',
    authenticateToken (codec := Reference.codec) Demo.secret presented
      Demo.populated = (Ok (Next req'), Demo.populated) /\
    attaches (user_of_row Demo.bob) presented req'.
Proof.
  intros d.
  apply (X7_gate_identifies_the_row (codec := Reference.codec) Demo.secret
           Demo.listing Demo.populated Demo.bob d).
  - exact Demo_populated_consistent.
  - reflexivity.
  - right. left. reflexivity.
  - reflexivity.
  - cbn. lia.
Defined.

Lemma X8_created_user_is_found_witness :
  let w' := mkWorld [Demo.alice; Demo.bob; Demo.carol;
                     mkRow 4 "dave" "dave@example.com" "$digest" 5000 5000]
              5 5000 3 [] [] in
  UserModel.findUserById 4 w' =
    (Ok (Some [("id", JNum 4); ("username", JStr "dave");
               ("email", JStr "dave@example.com"); ("createdAt", JDate 5000)]),
     w')
  /\ UserModel.findUserByEmail "dave@example.com" w' =
       (Ok (Some (mkRow 4 "dave" "dave@example.com" "$digest" 5000 5000)), w')
  /\ exists users,
       UserModel.getAllUsers w' = (Ok users, w') /\
       In [("id", JNum 4); ("username", JStr "dave");
           ("email", JStr "dave@example.com"); ("createdAt", JDate 5000)] users.
Proof.
  intros w'.
  apply (X8_created_user_is_found Demo.orm_error emailRegex_test
           "dave" "dave@example.com" "$digest" Demo.populated w'
           (UserModel.mkNewUser 4 "dave" "dave@example.com" 5000)).
  - exact Demo_populated_consistent.
  - vm_compute. reflexivity.
  - reflexivity.
Defined.

Lemma X17_duplicate_insert_refused_witness :
  exists attribute,
    (attribute = "username" \/ attribute = "email") /\
    UserModel.createUser Demo.orm_error emailRegex_test
      "alison" "alice@example.com" "$digest" Demo.populated =
      (Throw (Demo.orm_error (Sequelize.UniqueViolation attribute)),
       mkWorld [Demo.alice; Demo.bob; Demo.carol] 5 5000 3 [] []).
Proof.
  apply (X17_duplicate_insert_refused Demo.orm_error emailRegex_test
           "alison" "alice@example.com" "$digest" Demo.populated Demo.alice).
  - reflexivity.
  - repeat split; unfold js_length; simpl; lia.
  - left. reflexivity.
  - right. reflexivity.
Defined.

Lemma X9_email_check_shape_witness :
  registerUser Demo.orm_error emailRegex_test Demo.hasher
    (post_body (Some "alice") (Some "alice@example") (Some "wonderland"))
    Demo.populated =
    (Ok (mkResponse 400
           (JObj [("error", JStr "Please provide a valid email address")])),
     Demo.populated).
Proof.
  destruct (X9_email_check_shape Demo.orm_error emailRegex_test Demo.hasher)
    as [Shape Refused].
  apply Refused.
  - reflexivity.
  - intros H. apply Shape in H. vm_compute in H. discriminate H.
Defined.

Lemma X10_token_is_the_second_word_witness :
  token_of (Some ("Bearer" +:+ " " +:+ "abc" +:+ " " +:+ "and more")) = Some "abc"
  /\ decision (authenticateToken (codec := Reference.codec) Demo.secret
                 (set_authorization
                    (Some ("Bearer" +:+ " " +:+ "abc" +:+ " " +:+ "and more"))
                    Demo.listing) Demo.populated) =
     decision (authenticateToken (codec := Reference.codec) Demo.secret
                 (set_authorization (Some ("Bearer" +:+ " " +:+ "abc"))
                    Demo.listing) Demo.populated).
Proof.
  destruct (X10_token_is_the_second_word (codec := Reference.codec) Demo.secret)
    as [_ Ignored].
  apply Ignored; reflexivity.
Defined.


(** ** Errors are logged, not shown *)









Section ErrorsLogged.

Variable orm_error : Sequelize.Refusal -> JsError.
Variable isEmail : string -> bool.
Variable bcrypt : Hasher.
Variable JWT_SECRET : string.
Context {codec : Jwt.TokenCodec}.









End ErrorsLogged.
